(** * Poster generator: the canvas manager of the composition editor

    A shallow embedding of [static/js/canvas-manager.js] (class
    [CanvasManager]) and of the parts of Fabric.js and of the browser it
    calls, followed by the properties of the overlay geometry, the
    two-phase workflow and the export serializer.

    Numbers.  JavaScript numbers are IEEE-754 doubles.  The model keeps
    the special values the code can produce ([NaN], [+Infinity],
    [-Infinity], e.g. on a division by zero) and takes every finite value
    as an exact rational: rounding is not modelled, and neither is the
    sign of zero (a zero divisor counts as [+0]).

    Objects.  Fabric objects are mutable and shared by reference between
    the canvas and the manager's fields.  The model has a heap of objects
    indexed by identity; the canvas and the manager hold identities.

    Asynchronous calls.  A method of the manager is a function on the
    state of the manager.  [setFrame] ends where it requests the frame
    and returns the request; the callback that runs when the image has
    arrived is the separate step [setFrame_onload].  The two awaits of
    [confirmBackground] wait for pictures the manager has drawn itself;
    they are run to completion inside the step.

    Text editor and frame slider.  [TextEditor] and [FrameSlider]
    ([part_000], [part_001]) work on the manager they are given: the
    model keeps their own fields and runs their handlers on the state of
    the manager or of the slider.  A value read from a control of the
    page is an argument of the handler.  [_fetchFrame] ends at its
    [await]; [_fetchFrame_resume] is the rest, run when the promise of
    [setFrame] is resolved (it is never rejected), and [debounceFires] is
    the callback of the timer of [_onSliderChange].

    Library.  What Fabric.js and the browser compute from an object
    without the manager seeing how (bounding boxes, transform matrices,
    text metrics) is a parameter of the export. *)

From Stdlib Require Import QArith Qabs Qminmax Lqa Ascii String.
From stdpp Require Import gmap strings list.

Local Open Scope Q_scope.

(** ** JavaScript numbers *)

Module JS.

Inductive num : Type :=
| NaN
| NInf
| Fin (q : Q)
| PInf.

Definition num_eq (x y : num) : Prop :=
  match x, y with
  | NaN, NaN | NInf, NInf | PInf, PInf => True
  | Fin a, Fin b => a == b
  | _, _ => False
  end.

(** Unary minus. *)
Definition neg (x : num) : num :=
  match x with
  | NaN => NaN
  | NInf => PInf
  | Fin q => Fin (- q)
  | PInf => NInf
  end.

(** [x + y] *)
Definition add (x y : num) : num :=
  match x, y with
  | NaN, _ | _, NaN => NaN
  | Fin a, Fin b => Fin (a + b)
  | PInf, NInf | NInf, PInf => NaN
  | PInf, _ | _, PInf => PInf
  | NInf, _ | _, NInf => NInf
  end.

(** [x - y] *)
Definition sub (x y : num) : num := add x (neg y).

(** The infinity whose sign is that of a finite operand, given as the
    comparison of that operand with zero; a zero operand gives [NaN]. *)
Definition inf_of_sign (c : comparison) : num :=
  match c with Lt => NInf | Eq => NaN | Gt => PInf end.

(** [x * y] *)
Definition mul (x y : num) : num :=
  match x, y with
  | NaN, _ | _, NaN => NaN
  | Fin a, Fin b => Fin (a * b)
  | PInf, PInf | NInf, NInf => PInf
  | PInf, NInf | NInf, PInf => NInf
  | PInf, Fin b | Fin b, PInf => inf_of_sign (b ?= 0)
  | NInf, Fin b | Fin b, NInf => inf_of_sign (0 ?= b)
  end.

(** [x / y]: a finite non-zero value over zero is an infinity, zero over
    zero is [NaN]. *)
Definition div (x y : num) : num :=
  match x, y with
  | NaN, _ | _, NaN => NaN
  | Fin a, Fin b =>
      if Qeq_bool b 0 then inf_of_sign (a ?= 0) else Fin (a / b)
  | Fin _, (PInf | NInf) => Fin 0
  | (PInf | NInf), (PInf | NInf) => NaN
  | PInf, Fin b => match b ?= 0 with Lt => NInf | _ => PInf end
  | NInf, Fin b => match b ?= 0 with Lt => PInf | _ => NInf end
  end.

(** The order on numbers; [None] when an operand is [NaN]. *)
Definition cmp (x y : num) : option comparison :=
  match x, y with
  | NaN, _ | _, NaN => None
  | Fin a, Fin b => Some (a ?= b)
  | NInf, NInf | PInf, PInf => Some Eq
  | NInf, _ | _, PInf => Some Lt
  | _, NInf | PInf, _ => Some Gt
  end.

(** [x < y], [x > y], [x <= y], [x >= y]: false on [NaN]. *)
Definition lt (x y : num) : bool :=
  match cmp x y with Some Lt => true | _ => false end.
Definition gt (x y : num) : bool :=
  match cmp x y with Some Gt => true | _ => false end.
Definition le (x y : num) : bool :=
  match cmp x y with Some Lt | Some Eq => true | _ => false end.
Definition ge (x y : num) : bool :=
  match cmp x y with Some Gt | Some Eq => true | _ => false end.

(** [x === y] on numbers: false on [NaN]. *)
Definition strict_eq (x y : num) : bool :=
  match cmp x y with Some Eq => true | _ => false end.

(** [Math.abs(x)] *)
Definition Math_abs (x : num) : num :=
  match x with
  | NaN => NaN
  | NInf | PInf => PInf
  | Fin q => Fin (Qabs q)
  end.

(** [Math.max(x, y)] and [Math.min(x, y)]: [NaN] if an operand is. *)
Definition Math_max (x y : num) : num :=
  match cmp x y with
  | None => NaN
  | Some Lt => y
  | Some _ => x
  end.

Definition Math_min (x y : num) : num :=
  match cmp x y with
  | None => NaN
  | Some Gt => y
  | Some _ => x
  end.

(** Truthiness of a number: [0] and [NaN] are falsy. *)
Definition truthy (x : num) : bool :=
  match x with
  | NaN => false
  | Fin q => negb (Qeq_bool q 0)
  | _ => true
  end.

(** [x || d] on numbers. *)
Definition or_num (x d : num) : num := if truthy x then x else d.

(** [s || d] on strings: the empty string is falsy. *)
Definition or_str (s d : string) : string :=
  if String.eqb s "" then d else s.

End JS.

Import JS.

Declare Scope js_scope.
Delimit Scope js_scope with js.
Bind Scope js_scope with num.
Infix "+" := JS.add : js_scope.
Infix "-" := JS.sub : js_scope.
Infix "*" := JS.mul : js_scope.
Infix "/" := JS.div : js_scope.
Infix "<" := JS.lt : js_scope.
Infix ">" := JS.gt : js_scope.
Infix "<=" := JS.le : js_scope.
Infix ">=" := JS.ge : js_scope.
Infix "≈" := JS.num_eq (at level 70, no associativity).
Coercion JS.Fin : Q >-> num.

(** ** Fabric.js: objects and the canvas

    The part of the library the manager relies on, after the library's
    documented behaviour (version 5). *)

Module fabric.

Inductive ObjType : Type := image | rect | textbox | i_text | line.

Definition ObjType_eqb (a b : ObjType) : bool :=
  match a, b with
  | image, image | rect, rect | textbox, textbox
  | i_text, i_text | line, line => true
  | _, _ => false
  end.

(** The properties of an object that the manager reads or writes.
    [isOverlay] and [isMask] are the manager's own marks; [filters] holds
    the [blur] value of each blur filter; [_element] tells whether an
    image has its DOM element.  Cursor and control settings have no
    effect on the model and are left out. *)
Record Object : Type := {
  type : ObjType;
  left : num; top : num; width : num; height : num;
  scaleX : num; scaleY : num; angle : num;
  originX : string; originY : string;
  selectable : bool; evented : bool;
  isOverlay : bool; isMask : bool;
  fill : string; stroke : string; strokeWidth : num;
  text : string; fontFamily : string; fontSize : num;
  fontWeight : string; fontStyle : string; underline : bool;
  textAlign : string;
  x1 : num; y1 : num; x2 : num; y2 : num;
  filters : list num; _element : bool
}.

(** [obj.set({ f: v })], one property at a time. *)
Definition set_left (v : num) (o : Object) : Object :=
  {| type := type o; left := v; top := top o; width := width o; height :=
     height o; scaleX := scaleX o; scaleY := scaleY o; angle := angle o;
     originX := originX o; originY := originY o; selectable := selectable o;
     evented := evented o; isOverlay := isOverlay o; isMask := isMask o; fill
     := fill o; stroke := stroke o; strokeWidth := strokeWidth o; text := text
     o; fontFamily := fontFamily o; fontSize := fontSize o; fontWeight :=
     fontWeight o; fontStyle := fontStyle o; underline := underline o;
     textAlign := textAlign o; x1 := x1 o; y1 := y1 o; x2 := x2 o; y2 := y2 o;
     filters := filters o; _element := _element o |}.
Definition set_top (v : num) (o : Object) : Object :=
  {| type := type o; left := left o; top := v; width := width o; height :=
     height o; scaleX := scaleX o; scaleY := scaleY o; angle := angle o;
     originX := originX o; originY := originY o; selectable := selectable o;
     evented := evented o; isOverlay := isOverlay o; isMask := isMask o; fill
     := fill o; stroke := stroke o; strokeWidth := strokeWidth o; text := text
     o; fontFamily := fontFamily o; fontSize := fontSize o; fontWeight :=
     fontWeight o; fontStyle := fontStyle o; underline := underline o;
     textAlign := textAlign o; x1 := x1 o; y1 := y1 o; x2 := x2 o; y2 := y2 o;
     filters := filters o; _element := _element o |}.
Definition set_width (v : num) (o : Object) : Object :=
  {| type := type o; left := left o; top := top o; width := v; height :=
     height o; scaleX := scaleX o; scaleY := scaleY o; angle := angle o;
     originX := originX o; originY := originY o; selectable := selectable o;
     evented := evented o; isOverlay := isOverlay o; isMask := isMask o; fill
     := fill o; stroke := stroke o; strokeWidth := strokeWidth o; text := text
     o; fontFamily := fontFamily o; fontSize := fontSize o; fontWeight :=
     fontWeight o; fontStyle := fontStyle o; underline := underline o;
     textAlign := textAlign o; x1 := x1 o; y1 := y1 o; x2 := x2 o; y2 := y2 o;
     filters := filters o; _element := _element o |}.
Definition set_height (v : num) (o : Object) : Object :=
  {| type := type o; left := left o; top := top o; width := width o; height :=
     v; scaleX := scaleX o; scaleY := scaleY o; angle := angle o; originX :=
     originX o; originY := originY o; selectable := selectable o; evented :=
     evented o; isOverlay := isOverlay o; isMask := isMask o; fill := fill o;
     stroke := stroke o; strokeWidth := strokeWidth o; text := text o;
     fontFamily := fontFamily o; fontSize := fontSize o; fontWeight :=
     fontWeight o; fontStyle := fontStyle o; underline := underline o;
     textAlign := textAlign o; x1 := x1 o; y1 := y1 o; x2 := x2 o; y2 := y2 o;
     filters := filters o; _element := _element o |}.
Definition set_isMask (v : bool) (o : Object) : Object :=
  {| type := type o; left := left o; top := top o; width := width o; height :=
     height o; scaleX := scaleX o; scaleY := scaleY o; angle := angle o;
     originX := originX o; originY := originY o; selectable := selectable o;
     evented := evented o; isOverlay := isOverlay o; isMask := v; fill := fill
     o; stroke := stroke o; strokeWidth := strokeWidth o; text := text o;
     fontFamily := fontFamily o; fontSize := fontSize o; fontWeight :=
     fontWeight o; fontStyle := fontStyle o; underline := underline o;
     textAlign := textAlign o; x1 := x1 o; y1 := y1 o; x2 := x2 o; y2 := y2 o;
     filters := filters o; _element := _element o |}.
Definition set_filters (v : list num) (o : Object) : Object :=
  {| type := type o; left := left o; top := top o; width := width o; height :=
     height o; scaleX := scaleX o; scaleY := scaleY o; angle := angle o;
     originX := originX o; originY := originY o; selectable := selectable o;
     evented := evented o; isOverlay := isOverlay o; isMask := isMask o; fill
     := fill o; stroke := stroke o; strokeWidth := strokeWidth o; text := text
     o; fontFamily := fontFamily o; fontSize := fontSize o; fontWeight :=
     fontWeight o; fontStyle := fontStyle o; underline := underline o;
     textAlign := textAlign o; x1 := x1 o; y1 := y1 o; x2 := x2 o; y2 := y2 o;
     filters := v; _element := _element o |}.

Definition set_textAlign (v : string) (o : Object) : Object :=
  {| type := type o; left := left o; top := top o; width := width o; height :=
     height o; scaleX := scaleX o; scaleY := scaleY o; angle := angle o;
     originX := originX o; originY := originY o; selectable := selectable o;
     evented := evented o; isOverlay := isOverlay o; isMask := isMask o; fill
     := fill o; stroke := stroke o; strokeWidth := strokeWidth o; text := text
     o; fontFamily := fontFamily o; fontSize := fontSize o; fontWeight :=
     fontWeight o; fontStyle := fontStyle o; underline := underline o;
     textAlign := v; x1 := x1 o; y1 := y1 o; x2 := x2 o; y2 := y2 o; filters
     := filters o; _element := _element o |}.

Definition set_fill (v : string) (o : Object) : Object :=
  {| type := type o; left := left o; top := top o; width := width o; height :=
     height o; scaleX := scaleX o; scaleY := scaleY o; angle := angle o;
     originX := originX o; originY := originY o; selectable := selectable o;
     evented := evented o; isOverlay := isOverlay o; isMask := isMask o; fill
     := v; stroke := stroke o; strokeWidth := strokeWidth o; text := text o;
     fontFamily := fontFamily o; fontSize := fontSize o; fontWeight :=
     fontWeight o; fontStyle := fontStyle o; underline := underline o;
     textAlign := textAlign o; x1 := x1 o; y1 := y1 o; x2 := x2 o; y2 := y2 o;
     filters := filters o; _element := _element o |}.

Definition set_stroke (v : string) (o : Object) : Object :=
  {| type := type o; left := left o; top := top o; width := width o; height :=
     height o; scaleX := scaleX o; scaleY := scaleY o; angle := angle o;
     originX := originX o; originY := originY o; selectable := selectable o;
     evented := evented o; isOverlay := isOverlay o; isMask := isMask o; fill
     := fill o; stroke := v; strokeWidth := strokeWidth o; text := text o;
     fontFamily := fontFamily o; fontSize := fontSize o; fontWeight :=
     fontWeight o; fontStyle := fontStyle o; underline := underline o;
     textAlign := textAlign o; x1 := x1 o; y1 := y1 o; x2 := x2 o; y2 := y2 o;
     filters := filters o; _element := _element o |}.

Definition set_strokeWidth (v : num) (o : Object) : Object :=
  {| type := type o; left := left o; top := top o; width := width o; height :=
     height o; scaleX := scaleX o; scaleY := scaleY o; angle := angle o;
     originX := originX o; originY := originY o; selectable := selectable o;
     evented := evented o; isOverlay := isOverlay o; isMask := isMask o; fill
     := fill o; stroke := stroke o; strokeWidth := v; text := text o;
     fontFamily := fontFamily o; fontSize := fontSize o; fontWeight :=
     fontWeight o; fontStyle := fontStyle o; underline := underline o;
     textAlign := textAlign o; x1 := x1 o; y1 := y1 o; x2 := x2 o; y2 := y2 o;
     filters := filters o; _element := _element o |}.

Definition set_text (v : string) (o : Object) : Object :=
  {| type := type o; left := left o; top := top o; width := width o; height :=
     height o; scaleX := scaleX o; scaleY := scaleY o; angle := angle o;
     originX := originX o; originY := originY o; selectable := selectable o;
     evented := evented o; isOverlay := isOverlay o; isMask := isMask o; fill
     := fill o; stroke := stroke o; strokeWidth := strokeWidth o; text := v;
     fontFamily := fontFamily o; fontSize := fontSize o; fontWeight :=
     fontWeight o; fontStyle := fontStyle o; underline := underline o;
     textAlign := textAlign o; x1 := x1 o; y1 := y1 o; x2 := x2 o; y2 := y2 o;
     filters := filters o; _element := _element o |}.

Definition set_fontFamily (v : string) (o : Object) : Object :=
  {| type := type o; left := left o; top := top o; width := width o; height :=
     height o; scaleX := scaleX o; scaleY := scaleY o; angle := angle o;
     originX := originX o; originY := originY o; selectable := selectable o;
     evented := evented o; isOverlay := isOverlay o; isMask := isMask o; fill
     := fill o; stroke := stroke o; strokeWidth := strokeWidth o; text := text
     o; fontFamily := v; fontSize := fontSize o; fontWeight := fontWeight o;
     fontStyle := fontStyle o; underline := underline o; textAlign :=
     textAlign o; x1 := x1 o; y1 := y1 o; x2 := x2 o; y2 := y2 o; filters :=
     filters o; _element := _element o |}.

Definition set_fontSize (v : num) (o : Object) : Object :=
  {| type := type o; left := left o; top := top o; width := width o; height :=
     height o; scaleX := scaleX o; scaleY := scaleY o; angle := angle o;
     originX := originX o; originY := originY o; selectable := selectable o;
     evented := evented o; isOverlay := isOverlay o; isMask := isMask o; fill
     := fill o; stroke := stroke o; strokeWidth := strokeWidth o; text := text
     o; fontFamily := fontFamily o; fontSize := v; fontWeight := fontWeight o;
     fontStyle := fontStyle o; underline := underline o; textAlign :=
     textAlign o; x1 := x1 o; y1 := y1 o; x2 := x2 o; y2 := y2 o; filters :=
     filters o; _element := _element o |}.

Definition set_fontWeight (v : string) (o : Object) : Object :=
  {| type := type o; left := left o; top := top o; width := width o; height :=
     height o; scaleX := scaleX o; scaleY := scaleY o; angle := angle o;
     originX := originX o; originY := originY o; selectable := selectable o;
     evented := evented o; isOverlay := isOverlay o; isMask := isMask o; fill
     := fill o; stroke := stroke o; strokeWidth := strokeWidth o; text := text
     o; fontFamily := fontFamily o; fontSize := fontSize o; fontWeight := v;
     fontStyle := fontStyle o; underline := underline o; textAlign :=
     textAlign o; x1 := x1 o; y1 := y1 o; x2 := x2 o; y2 := y2 o; filters :=
     filters o; _element := _element o |}.

Definition set_fontStyle (v : string) (o : Object) : Object :=
  {| type := type o; left := left o; top := top o; width := width o; height :=
     height o; scaleX := scaleX o; scaleY := scaleY o; angle := angle o;
     originX := originX o; originY := originY o; selectable := selectable o;
     evented := evented o; isOverlay := isOverlay o; isMask := isMask o; fill
     := fill o; stroke := stroke o; strokeWidth := strokeWidth o; text := text
     o; fontFamily := fontFamily o; fontSize := fontSize o; fontWeight :=
     fontWeight o; fontStyle := v; underline := underline o; textAlign :=
     textAlign o; x1 := x1 o; y1 := y1 o; x2 := x2 o; y2 := y2 o; filters :=
     filters o; _element := _element o |}.

Definition set_underline (v : bool) (o : Object) : Object :=
  {| type := type o; left := left o; top := top o; width := width o; height :=
     height o; scaleX := scaleX o; scaleY := scaleY o; angle := angle o;
     originX := originX o; originY := originY o; selectable := selectable o;
     evented := evented o; isOverlay := isOverlay o; isMask := isMask o; fill
     := fill o; stroke := stroke o; strokeWidth := strokeWidth o; text := text
     o; fontFamily := fontFamily o; fontSize := fontSize o; fontWeight :=
     fontWeight o; fontStyle := fontStyle o; underline := v; textAlign :=
     textAlign o; x1 := x1 o; y1 := y1 o; x2 := x2 o; y2 := y2 o; filters :=
     filters o; _element := _element o |}.

(** A background of the canvas: a colour string or a linear gradient with
    its end points and its two colour stops. *)
Inductive Background : Type :=
| Color (c : string)
| Gradient (gx1 gy1 gx2 gy2 : num) (stop0 stop1 : string).

(** The canvas: its objects from back to front, the active object, its
    size and its background. *)
Record Canvas : Type := {
  _objects : list nat;
  _activeObject : option nat;
  cwidth : num; cheight : num;
  backgroundColor : Background
}.

(** [array.indexOf(x) !== -1] and the removal of [x] from an array. *)
Definition mem (x : nat) (l : list nat) : bool :=
  existsb (Nat.eqb x) l.

Definition removeFromArray (x : nat) (l : list nat) : list nat :=
  List.filter (fun y => negb (Nat.eqb x y)) l.

(** [canvas.add(obj)] *)
Definition add (x : nat) (c : Canvas) : Canvas :=
  {| _objects := _objects c ++ [x]; _activeObject := _activeObject c;
     cwidth := cwidth c; cheight := cheight c;
     backgroundColor := backgroundColor c |}.

(** [canvas.remove(obj)]: removing the active object discards the
    selection. *)
Definition remove (x : nat) (c : Canvas) : Canvas :=
  if mem x (_objects c) then
    {| _objects := removeFromArray x (_objects c);
       _activeObject :=
         match _activeObject c with
         | Some a => if Nat.eqb a x then None else Some a
         | None => None
         end;
       cwidth := cwidth c; cheight := cheight c;
       backgroundColor := backgroundColor c |}
  else c.

(** [canvas.sendToBack(obj)] and [canvas.bringToFront(obj)] *)
Definition sendToBack (x : nat) (c : Canvas) : Canvas :=
  {| _objects := x :: removeFromArray x (_objects c);
     _activeObject := _activeObject c;
     cwidth := cwidth c; cheight := cheight c;
     backgroundColor := backgroundColor c |}.

Definition bringToFront (x : nat) (c : Canvas) : Canvas :=
  {| _objects := removeFromArray x (_objects c) ++ [x];
     _activeObject := _activeObject c;
     cwidth := cwidth c; cheight := cheight c;
     backgroundColor := backgroundColor c |}.

(** [canvas.setActiveObject(obj)] *)
Definition setActiveObject (x : nat) (c : Canvas) : Canvas :=
  {| _objects := _objects c; _activeObject := Some x;
     cwidth := cwidth c; cheight := cheight c;
     backgroundColor := backgroundColor c |}.

(** [canvas.setWidth(w)], [canvas.setHeight(h)] *)
Definition setWidth (w : num) (c : Canvas) : Canvas :=
  {| _objects := _objects c; _activeObject := _activeObject c;
     cwidth := w; cheight := cheight c;
     backgroundColor := backgroundColor c |}.

Definition setHeight (h : num) (c : Canvas) : Canvas :=
  {| _objects := _objects c; _activeObject := _activeObject c;
     cwidth := cwidth c; cheight := h;
     backgroundColor := backgroundColor c |}.

(** [canvas.setBackgroundColor(bg, callback)]; the callback is run by the
    caller. *)
Definition setBackgroundColor (bg : Background) (c : Canvas) : Canvas :=
  {| _objects := _objects c; _activeObject := _activeObject c;
     cwidth := cwidth c; cheight := cheight c;
     backgroundColor := bg |}.

(** A transform matrix [[a, b, c, d, e, f]] and
    [fabric.util.transformPoint(p, t)]. *)
Record Matrix : Type := { ma : num; mb : num; mc : num; md : num; me : num; mf : num }.

Record Point : Type := { x : num; y : num }.

Definition transformPoint (p : Point) (t : Matrix) : Point :=
  {| x := (ma t * x p + mc t * y p + me t)%js;
     y := (mb t * x p + md t * y p + mf t)%js |}.

(** The matrix of a translation by [(tx, ty)] after a rotation with the
    given cosine and sine after a scaling by [(sx, sy)]
    ([fabric.util.composeMatrix] without skew or flip). *)
Definition composeMatrix (tx ty cosA sinA sx sy : num) : Matrix :=
  {| ma := (cosA * sx)%js; mb := (sinA * sx)%js;
     mc := (neg sinA * sy)%js; md := (cosA * sy)%js;
     me := tx; mf := ty |}.

End fabric.

(** ** The canvas manager: data *)

(** Plain rectangles [{ left, top, width, height }]. *)
Module Rect.
Record t : Type := { left : num; top : num; width : num; height : num }.
End Rect.

(** [frameDisplayInfo]: where the frame is shown on the canvas. *)
Record FrameDisplayInfo : Type := {
  displayWidth : num; displayHeight : num;
  displayLeft : num; displayTop : num;
  originalWidth : num; originalHeight : num;
  scale : num
}.

(** [workflowPhase]: ['background'] or ['elements']. *)
Inductive Phase : Type := background | elements.

(** The picture behind the data URL that [_captureSelectionAsImage]
    returns: the source rectangle of the frame, in original pixels, drawn
    onto a temporary canvas of the given size, and the blur radius in
    pixels when a blur is applied. *)
Record CapturedImage : Type := {
  cropX : num; cropY : num; cropW : num; cropH : num;
  rasterWidth : num; rasterHeight : num;
  blurRadius : option num
}.

(** A frame requested from the media provider
    ([api.getPreviewFrameUrl(base, path, timestamp)]). *)
Record FrameRequest : Type := {
  reqBase : string; reqPath : string; reqTimestamp : num
}.

(** [lockedBackgroundData] *)
Module Locked.
Record t : Type := {
  mode : string;
  selectionCoords : Rect.t;
  blur : num;
  backgroundColor : string;
  gradientColors : list string;
  gradientDirection : string;
  videoBase : option string;
  videoPath : option string;
  timestamp : num;
  capturedImageUrl : option CapturedImage
}.
End Locked.

Abbreviation LockedBackgroundData := Locked.t.

(** The fields of a [CanvasManager].  [heap] and [nextId] belong to the
    model: the objects allocated so far and the next free identity.  The
    sizes set once by the constructor are constants below. *)
Record CanvasManager : Type := {
  heap : gmap nat fabric.Object;
  nextId : nat;
  canvasWidth : num;
  canvasHeight : num;
  overlayZoom : num;
  canvas : fabric.Canvas;
  frameImage : option nat;
  selectionOverlay : option nat;
  darkMaskRects : list nat;
  frameDisplayInfo : option FrameDisplayInfo;
  backgroundMode : string;
  backgroundColor : string;
  gradientColors : list string;
  gradientDirection : string;
  blurAmount : num;
  workflowPhase : Phase;
  lockedBackgroundData : option LockedBackgroundData;
  videoBase : option string;
  videoPath : option string;
  currentTimestamp : num
}.

Definition imageModeWidth : num := 800.
Definition imageModeHeight : num := 500.
Definition posterModeWidth : num := 400.
Definition posterModeHeight : num := 600.
Definition posterWidth : num := 1000.
Definition posterHeight : num := 1500.
Definition baseOverlayHeight : num := 400.
Definition baseOverlayWidth : num := (baseOverlayHeight * (2 / 3))%js.

(** Assignments to one field. *)
Definition set_heap (v : gmap nat fabric.Object) (o : CanvasManager) :
   CanvasManager :=
  {| heap := v; nextId := nextId o; canvasWidth := canvasWidth o; canvasHeight
     := canvasHeight o; overlayZoom := overlayZoom o; canvas := canvas o;
     frameImage := frameImage o; selectionOverlay := selectionOverlay o;
     darkMaskRects := darkMaskRects o; frameDisplayInfo := frameDisplayInfo o;
     backgroundMode := backgroundMode o; backgroundColor := backgroundColor o;
     gradientColors := gradientColors o; gradientDirection :=
     gradientDirection o; blurAmount := blurAmount o; workflowPhase :=
     workflowPhase o; lockedBackgroundData := lockedBackgroundData o;
     videoBase := videoBase o; videoPath := videoPath o; currentTimestamp :=
     currentTimestamp o |}.
Definition set_nextId (v : nat) (o : CanvasManager) : CanvasManager :=
  {| heap := heap o; nextId := v; canvasWidth := canvasWidth o; canvasHeight
     := canvasHeight o; overlayZoom := overlayZoom o; canvas := canvas o;
     frameImage := frameImage o; selectionOverlay := selectionOverlay o;
     darkMaskRects := darkMaskRects o; frameDisplayInfo := frameDisplayInfo o;
     backgroundMode := backgroundMode o; backgroundColor := backgroundColor o;
     gradientColors := gradientColors o; gradientDirection :=
     gradientDirection o; blurAmount := blurAmount o; workflowPhase :=
     workflowPhase o; lockedBackgroundData := lockedBackgroundData o;
     videoBase := videoBase o; videoPath := videoPath o; currentTimestamp :=
     currentTimestamp o |}.
Definition set_canvasWidth (v : num) (o : CanvasManager) : CanvasManager :=
  {| heap := heap o; nextId := nextId o; canvasWidth := v; canvasHeight :=
     canvasHeight o; overlayZoom := overlayZoom o; canvas := canvas o;
     frameImage := frameImage o; selectionOverlay := selectionOverlay o;
     darkMaskRects := darkMaskRects o; frameDisplayInfo := frameDisplayInfo o;
     backgroundMode := backgroundMode o; backgroundColor := backgroundColor o;
     gradientColors := gradientColors o; gradientDirection :=
     gradientDirection o; blurAmount := blurAmount o; workflowPhase :=
     workflowPhase o; lockedBackgroundData := lockedBackgroundData o;
     videoBase := videoBase o; videoPath := videoPath o; currentTimestamp :=
     currentTimestamp o |}.
Definition set_canvasHeight (v : num) (o : CanvasManager) : CanvasManager :=
  {| heap := heap o; nextId := nextId o; canvasWidth := canvasWidth o;
     canvasHeight := v; overlayZoom := overlayZoom o; canvas := canvas o;
     frameImage := frameImage o; selectionOverlay := selectionOverlay o;
     darkMaskRects := darkMaskRects o; frameDisplayInfo := frameDisplayInfo o;
     backgroundMode := backgroundMode o; backgroundColor := backgroundColor o;
     gradientColors := gradientColors o; gradientDirection :=
     gradientDirection o; blurAmount := blurAmount o; workflowPhase :=
     workflowPhase o; lockedBackgroundData := lockedBackgroundData o;
     videoBase := videoBase o; videoPath := videoPath o; currentTimestamp :=
     currentTimestamp o |}.
Definition set_overlayZoom (v : num) (o : CanvasManager) : CanvasManager :=
  {| heap := heap o; nextId := nextId o; canvasWidth := canvasWidth o;
     canvasHeight := canvasHeight o; overlayZoom := v; canvas := canvas o;
     frameImage := frameImage o; selectionOverlay := selectionOverlay o;
     darkMaskRects := darkMaskRects o; frameDisplayInfo := frameDisplayInfo o;
     backgroundMode := backgroundMode o; backgroundColor := backgroundColor o;
     gradientColors := gradientColors o; gradientDirection :=
     gradientDirection o; blurAmount := blurAmount o; workflowPhase :=
     workflowPhase o; lockedBackgroundData := lockedBackgroundData o;
     videoBase := videoBase o; videoPath := videoPath o; currentTimestamp :=
     currentTimestamp o |}.
Definition set_canvas (v : fabric.Canvas) (o : CanvasManager) : CanvasManager
   :=
  {| heap := heap o; nextId := nextId o; canvasWidth := canvasWidth o;
     canvasHeight := canvasHeight o; overlayZoom := overlayZoom o; canvas :=
     v; frameImage := frameImage o; selectionOverlay := selectionOverlay o;
     darkMaskRects := darkMaskRects o; frameDisplayInfo := frameDisplayInfo o;
     backgroundMode := backgroundMode o; backgroundColor := backgroundColor o;
     gradientColors := gradientColors o; gradientDirection :=
     gradientDirection o; blurAmount := blurAmount o; workflowPhase :=
     workflowPhase o; lockedBackgroundData := lockedBackgroundData o;
     videoBase := videoBase o; videoPath := videoPath o; currentTimestamp :=
     currentTimestamp o |}.
Definition set_frameImage (v : option nat) (o : CanvasManager) : CanvasManager
   :=
  {| heap := heap o; nextId := nextId o; canvasWidth := canvasWidth o;
     canvasHeight := canvasHeight o; overlayZoom := overlayZoom o; canvas :=
     canvas o; frameImage := v; selectionOverlay := selectionOverlay o;
     darkMaskRects := darkMaskRects o; frameDisplayInfo := frameDisplayInfo o;
     backgroundMode := backgroundMode o; backgroundColor := backgroundColor o;
     gradientColors := gradientColors o; gradientDirection :=
     gradientDirection o; blurAmount := blurAmount o; workflowPhase :=
     workflowPhase o; lockedBackgroundData := lockedBackgroundData o;
     videoBase := videoBase o; videoPath := videoPath o; currentTimestamp :=
     currentTimestamp o |}.
Definition set_selectionOverlay (v : option nat) (o : CanvasManager) :
   CanvasManager :=
  {| heap := heap o; nextId := nextId o; canvasWidth := canvasWidth o;
     canvasHeight := canvasHeight o; overlayZoom := overlayZoom o; canvas :=
     canvas o; frameImage := frameImage o; selectionOverlay := v;
     darkMaskRects := darkMaskRects o; frameDisplayInfo := frameDisplayInfo o;
     backgroundMode := backgroundMode o; backgroundColor := backgroundColor o;
     gradientColors := gradientColors o; gradientDirection :=
     gradientDirection o; blurAmount := blurAmount o; workflowPhase :=
     workflowPhase o; lockedBackgroundData := lockedBackgroundData o;
     videoBase := videoBase o; videoPath := videoPath o; currentTimestamp :=
     currentTimestamp o |}.
Definition set_darkMaskRects (v : list nat) (o : CanvasManager) :
   CanvasManager :=
  {| heap := heap o; nextId := nextId o; canvasWidth := canvasWidth o;
     canvasHeight := canvasHeight o; overlayZoom := overlayZoom o; canvas :=
     canvas o; frameImage := frameImage o; selectionOverlay :=
     selectionOverlay o; darkMaskRects := v; frameDisplayInfo :=
     frameDisplayInfo o; backgroundMode := backgroundMode o; backgroundColor
     := backgroundColor o; gradientColors := gradientColors o;
     gradientDirection := gradientDirection o; blurAmount := blurAmount o;
     workflowPhase := workflowPhase o; lockedBackgroundData :=
     lockedBackgroundData o; videoBase := videoBase o; videoPath := videoPath
     o; currentTimestamp := currentTimestamp o |}.
Definition set_frameDisplayInfo (v : option FrameDisplayInfo) (o :
   CanvasManager) : CanvasManager :=
  {| heap := heap o; nextId := nextId o; canvasWidth := canvasWidth o;
     canvasHeight := canvasHeight o; overlayZoom := overlayZoom o; canvas :=
     canvas o; frameImage := frameImage o; selectionOverlay :=
     selectionOverlay o; darkMaskRects := darkMaskRects o; frameDisplayInfo :=
     v; backgroundMode := backgroundMode o; backgroundColor := backgroundColor
     o; gradientColors := gradientColors o; gradientDirection :=
     gradientDirection o; blurAmount := blurAmount o; workflowPhase :=
     workflowPhase o; lockedBackgroundData := lockedBackgroundData o;
     videoBase := videoBase o; videoPath := videoPath o; currentTimestamp :=
     currentTimestamp o |}.
Definition set_backgroundMode (v : string) (o : CanvasManager) : CanvasManager
   :=
  {| heap := heap o; nextId := nextId o; canvasWidth := canvasWidth o;
     canvasHeight := canvasHeight o; overlayZoom := overlayZoom o; canvas :=
     canvas o; frameImage := frameImage o; selectionOverlay :=
     selectionOverlay o; darkMaskRects := darkMaskRects o; frameDisplayInfo :=
     frameDisplayInfo o; backgroundMode := v; backgroundColor :=
     backgroundColor o; gradientColors := gradientColors o; gradientDirection
     := gradientDirection o; blurAmount := blurAmount o; workflowPhase :=
     workflowPhase o; lockedBackgroundData := lockedBackgroundData o;
     videoBase := videoBase o; videoPath := videoPath o; currentTimestamp :=
     currentTimestamp o |}.
Definition set_backgroundColor (v : string) (o : CanvasManager) :
   CanvasManager :=
  {| heap := heap o; nextId := nextId o; canvasWidth := canvasWidth o;
     canvasHeight := canvasHeight o; overlayZoom := overlayZoom o; canvas :=
     canvas o; frameImage := frameImage o; selectionOverlay :=
     selectionOverlay o; darkMaskRects := darkMaskRects o; frameDisplayInfo :=
     frameDisplayInfo o; backgroundMode := backgroundMode o; backgroundColor
     := v; gradientColors := gradientColors o; gradientDirection :=
     gradientDirection o; blurAmount := blurAmount o; workflowPhase :=
     workflowPhase o; lockedBackgroundData := lockedBackgroundData o;
     videoBase := videoBase o; videoPath := videoPath o; currentTimestamp :=
     currentTimestamp o |}.
Definition set_gradientColors (v : list string) (o : CanvasManager) :
   CanvasManager :=
  {| heap := heap o; nextId := nextId o; canvasWidth := canvasWidth o;
     canvasHeight := canvasHeight o; overlayZoom := overlayZoom o; canvas :=
     canvas o; frameImage := frameImage o; selectionOverlay :=
     selectionOverlay o; darkMaskRects := darkMaskRects o; frameDisplayInfo :=
     frameDisplayInfo o; backgroundMode := backgroundMode o; backgroundColor
     := backgroundColor o; gradientColors := v; gradientDirection :=
     gradientDirection o; blurAmount := blurAmount o; workflowPhase :=
     workflowPhase o; lockedBackgroundData := lockedBackgroundData o;
     videoBase := videoBase o; videoPath := videoPath o; currentTimestamp :=
     currentTimestamp o |}.
Definition set_gradientDirection (v : string) (o : CanvasManager) :
   CanvasManager :=
  {| heap := heap o; nextId := nextId o; canvasWidth := canvasWidth o;
     canvasHeight := canvasHeight o; overlayZoom := overlayZoom o; canvas :=
     canvas o; frameImage := frameImage o; selectionOverlay :=
     selectionOverlay o; darkMaskRects := darkMaskRects o; frameDisplayInfo :=
     frameDisplayInfo o; backgroundMode := backgroundMode o; backgroundColor
     := backgroundColor o; gradientColors := gradientColors o;
     gradientDirection := v; blurAmount := blurAmount o; workflowPhase :=
     workflowPhase o; lockedBackgroundData := lockedBackgroundData o;
     videoBase := videoBase o; videoPath := videoPath o; currentTimestamp :=
     currentTimestamp o |}.
Definition set_blurAmount (v : num) (o : CanvasManager) : CanvasManager :=
  {| heap := heap o; nextId := nextId o; canvasWidth := canvasWidth o;
     canvasHeight := canvasHeight o; overlayZoom := overlayZoom o; canvas :=
     canvas o; frameImage := frameImage o; selectionOverlay :=
     selectionOverlay o; darkMaskRects := darkMaskRects o; frameDisplayInfo :=
     frameDisplayInfo o; backgroundMode := backgroundMode o; backgroundColor
     := backgroundColor o; gradientColors := gradientColors o;
     gradientDirection := gradientDirection o; blurAmount := v; workflowPhase
     := workflowPhase o; lockedBackgroundData := lockedBackgroundData o;
     videoBase := videoBase o; videoPath := videoPath o; currentTimestamp :=
     currentTimestamp o |}.
Definition set_workflowPhase (v : Phase) (o : CanvasManager) : CanvasManager
   :=
  {| heap := heap o; nextId := nextId o; canvasWidth := canvasWidth o;
     canvasHeight := canvasHeight o; overlayZoom := overlayZoom o; canvas :=
     canvas o; frameImage := frameImage o; selectionOverlay :=
     selectionOverlay o; darkMaskRects := darkMaskRects o; frameDisplayInfo :=
     frameDisplayInfo o; backgroundMode := backgroundMode o; backgroundColor
     := backgroundColor o; gradientColors := gradientColors o;
     gradientDirection := gradientDirection o; blurAmount := blurAmount o;
     workflowPhase := v; lockedBackgroundData := lockedBackgroundData o;
     videoBase := videoBase o; videoPath := videoPath o; currentTimestamp :=
     currentTimestamp o |}.
Definition set_lockedBackgroundData (v : option LockedBackgroundData) (o :
   CanvasManager) : CanvasManager :=
  {| heap := heap o; nextId := nextId o; canvasWidth := canvasWidth o;
     canvasHeight := canvasHeight o; overlayZoom := overlayZoom o; canvas :=
     canvas o; frameImage := frameImage o; selectionOverlay :=
     selectionOverlay o; darkMaskRects := darkMaskRects o; frameDisplayInfo :=
     frameDisplayInfo o; backgroundMode := backgroundMode o; backgroundColor
     := backgroundColor o; gradientColors := gradientColors o;
     gradientDirection := gradientDirection o; blurAmount := blurAmount o;
     workflowPhase := workflowPhase o; lockedBackgroundData := v; videoBase :=
     videoBase o; videoPath := videoPath o; currentTimestamp :=
     currentTimestamp o |}.
Definition set_videoBase (v : option string) (o : CanvasManager) :
   CanvasManager :=
  {| heap := heap o; nextId := nextId o; canvasWidth := canvasWidth o;
     canvasHeight := canvasHeight o; overlayZoom := overlayZoom o; canvas :=
     canvas o; frameImage := frameImage o; selectionOverlay :=
     selectionOverlay o; darkMaskRects := darkMaskRects o; frameDisplayInfo :=
     frameDisplayInfo o; backgroundMode := backgroundMode o; backgroundColor
     := backgroundColor o; gradientColors := gradientColors o;
     gradientDirection := gradientDirection o; blurAmount := blurAmount o;
     workflowPhase := workflowPhase o; lockedBackgroundData :=
     lockedBackgroundData o; videoBase := v; videoPath := videoPath o;
     currentTimestamp := currentTimestamp o |}.
Definition set_videoPath (v : option string) (o : CanvasManager) :
   CanvasManager :=
  {| heap := heap o; nextId := nextId o; canvasWidth := canvasWidth o;
     canvasHeight := canvasHeight o; overlayZoom := overlayZoom o; canvas :=
     canvas o; frameImage := frameImage o; selectionOverlay :=
     selectionOverlay o; darkMaskRects := darkMaskRects o; frameDisplayInfo :=
     frameDisplayInfo o; backgroundMode := backgroundMode o; backgroundColor
     := backgroundColor o; gradientColors := gradientColors o;
     gradientDirection := gradientDirection o; blurAmount := blurAmount o;
     workflowPhase := workflowPhase o; lockedBackgroundData :=
     lockedBackgroundData o; videoBase := videoBase o; videoPath := v;
     currentTimestamp := currentTimestamp o |}.
Definition set_currentTimestamp (v : num) (o : CanvasManager) : CanvasManager
   :=
  {| heap := heap o; nextId := nextId o; canvasWidth := canvasWidth o;
     canvasHeight := canvasHeight o; overlayZoom := overlayZoom o; canvas :=
     canvas o; frameImage := frameImage o; selectionOverlay :=
     selectionOverlay o; darkMaskRects := darkMaskRects o; frameDisplayInfo :=
     frameDisplayInfo o; backgroundMode := backgroundMode o; backgroundColor
     := backgroundColor o; gradientColors := gradientColors o;
     gradientDirection := gradientDirection o; blurAmount := blurAmount o;
     workflowPhase := workflowPhase o; lockedBackgroundData :=
     lockedBackgroundData o; videoBase := videoBase o; videoPath := videoPath
     o; currentTimestamp := v |}.

(** The manager after its constructor. *)
Definition constructor : CanvasManager :=
  {| heap := ∅; nextId := 0%nat;
     canvasWidth := imageModeWidth; canvasHeight := imageModeHeight;
     overlayZoom := 1;
     canvas :=
       {| fabric._objects := []; fabric._activeObject := None;
          fabric.cwidth := imageModeWidth;
          fabric.cheight := imageModeHeight;
          fabric.backgroundColor := fabric.Color "#1a1a2e" |};
     frameImage := None; selectionOverlay := None; darkMaskRects := [];
     frameDisplayInfo := None;
     backgroundMode := "image"; backgroundColor := "#000000";
     gradientColors := ["#000000"; "#333333"];
     gradientDirection := "vertical"; blurAmount := 0;
     workflowPhase := background; lockedBackgroundData := None;
     videoBase := None; videoPath := None; currentTimestamp := 0 |}.

(** ** The heap *)

(** [new fabric.X(...)]: the object gets the next identity. *)
Definition alloc (o : fabric.Object) (s : CanvasManager)
  : nat * CanvasManager :=
  (nextId s, set_nextId (S (nextId s)) (set_heap (<[nextId s := o]> (heap s)) s)).

(** [obj.set(...)] on the object [i]. *)
Definition obj_set (i : nat) (f : fabric.Object -> fabric.Object)
  (s : CanvasManager) : CanvasManager :=
  set_heap (alter f i (heap s)) s.

(** A canvas method applied to [this.canvas]. *)
Definition on_canvas (f : fabric.Canvas -> fabric.Canvas)
  (s : CanvasManager) : CanvasManager :=
  set_canvas (f (canvas s)) s.

(** [ids.forEach(i => this.canvas.m(i))] *)
Definition canvas_forEach (m : nat -> fabric.Canvas -> fabric.Canvas)
  (ids : list nat) (s : CanvasManager) : CanvasManager :=
  fold_left (fun s i => on_canvas (m i) s) ids s.

(** Truthiness of a string that may be [null]. *)
Definition truthy_str (o : option string) : bool :=
  match o with
  | Some v => negb (String.eqb v "")
  | None => false
  end.

(** ** The canvas manager: overlay and mask *)

(** [_reorderObjects]: frame at the back, then the mask, the overlay, and
    the objects of type ['i-text'] or ['line'] in front. *)
Definition is_front_kind (s : CanvasManager) (i : nat) : bool :=
  match heap s !! i with
  | Some o =>
      fabric.ObjType_eqb (fabric.type o) fabric.i_text
      || fabric.ObjType_eqb (fabric.type o) fabric.line
  | None => false
  end.

Definition _reorderObjects (s : CanvasManager) : CanvasManager :=
  let s1 :=
    match frameImage s with
    | Some f => on_canvas (fabric.sendToBack f) s
    | None => s
    end in
  let s2 := canvas_forEach fabric.bringToFront (darkMaskRects s1) s1 in
  let s3 :=
    match selectionOverlay s2 with
    | Some ov => on_canvas (fabric.bringToFront ov) s2
    | None => s2
    end in
  fold_left
    (fun s i => if is_front_kind s i then on_canvas (fabric.bringToFront i) s else s)
    (fabric._objects (canvas s3)) s3.

(** The rectangle built by [_createSelectionOverlay]. *)
Definition overlayRect (l t w h : num) : fabric.Object :=
  {| fabric.type := fabric.rect;
     fabric.left := l; fabric.top := t;
     fabric.width := w; fabric.height := h;
     fabric.scaleX := 1; fabric.scaleY := 1; fabric.angle := 0;
     fabric.originX := "left"; fabric.originY := "top";
     fabric.selectable := true; fabric.evented := true;
     fabric.isOverlay := true; fabric.isMask := false;
     fabric.fill := "transparent"; fabric.stroke := "#e94560";
     fabric.strokeWidth := 3;
     fabric.text := ""; fabric.fontFamily := "Times New Roman";
     fabric.fontSize := 40; fabric.fontWeight := "normal";
     fabric.fontStyle := "normal"; fabric.underline := false;
     fabric.textAlign := "left";
     fabric.x1 := 0; fabric.y1 := 0; fabric.x2 := 0; fabric.y2 := 0;
     fabric.filters := []; fabric._element := false |}.

Definition _createSelectionOverlay (s : CanvasManager) : CanvasManager :=
  let s1 :=
    match selectionOverlay s with
    | Some old => on_canvas (fabric.remove old) s
    | None => s
    end in
  let overlayHeight := (baseOverlayHeight * overlayZoom s1)%js in
  let overlayWidth := (overlayHeight * (2 / 3))%js in
  let overlayLeft := ((canvasWidth s1 - overlayWidth) / 2)%js in
  let overlayTop := ((canvasHeight s1 - overlayHeight) / 2)%js in
  let (ov, s2) :=
    alloc (overlayRect overlayLeft overlayTop overlayWidth overlayHeight) s1 in
  on_canvas (fabric.add ov) (set_selectionOverlay (Some ov) s2).

(** A rectangle of the dimming mask, before it is marked. *)
Definition maskRect (l t w h : num) : fabric.Object :=
  {| fabric.type := fabric.rect;
     fabric.left := l; fabric.top := t;
     fabric.width := w; fabric.height := h;
     fabric.scaleX := 1; fabric.scaleY := 1; fabric.angle := 0;
     fabric.originX := "left"; fabric.originY := "top";
     fabric.selectable := false; fabric.evented := false;
     fabric.isOverlay := false; fabric.isMask := false;
     fabric.fill := "rgba(0, 0, 0, 0.6)"; fabric.stroke := "";
     fabric.strokeWidth := 1;
     fabric.text := ""; fabric.fontFamily := "Times New Roman";
     fabric.fontSize := 40; fabric.fontWeight := "normal";
     fabric.fontStyle := "normal"; fabric.underline := false;
     fabric.textAlign := "left";
     fabric.x1 := 0; fabric.y1 := 0; fabric.x2 := 0; fabric.y2 := 0;
     fabric.filters := []; fabric._element := false |}.

(** The part of [_createDarkMask] that removes the old rectangles. *)
Definition clearDarkMask (s : CanvasManager) : CanvasManager :=
  set_darkMaskRects [] (canvas_forEach fabric.remove (darkMaskRects s) s).

(** [rect.isMask = true; this.canvas.add(rect)] *)
Definition markAndAdd (s : CanvasManager) (i : nat) : CanvasManager :=
  on_canvas (fabric.add i) (obj_set i (fabric.set_isMask true) s).

Definition _createDarkMask (s : CanvasManager) : CanvasManager :=
  let s0 := clearDarkMask s in
  match selectionOverlay s0 with
  | None => s0
  | Some ov =>
    match heap s0 !! ov with
    | None => s0
    | Some overlay =>
      let (topRect, s1) :=
        alloc (maskRect 0 0 (canvasWidth s0) (fabric.top overlay)) s0 in
      let (bottomRect, s2) :=
        alloc (maskRect 0 (fabric.top overlay + fabric.height overlay)
                 (canvasWidth s0)
                 (canvasHeight s0 - (fabric.top overlay + fabric.height overlay)))%js
              s1 in
      let (leftRect, s3) :=
        alloc (maskRect 0 (fabric.top overlay) (fabric.left overlay)
                 (fabric.height overlay)) s2 in
      let (rightRect, s4) :=
        alloc (maskRect (fabric.left overlay + fabric.width overlay)
                 (fabric.top overlay)
                 (canvasWidth s0 - (fabric.left overlay + fabric.width overlay))
                 (fabric.height overlay))%js
              s3 in
      let s5 := set_darkMaskRects [topRect; bottomRect; leftRect; rightRect] s4 in
      let s6 := fold_left markAndAdd (darkMaskRects s5) s5 in
      _reorderObjects s6
    end
  end.

Definition _updateDarkMask (s : CanvasManager) : CanvasManager :=
  match selectionOverlay s, darkMaskRects s with
  | Some ov, [topRect; bottomRect; leftRect; rightRect] =>
    match heap s !! ov with
    | None => s
    | Some overlay =>
      let s1 :=
        obj_set topRect
          (fabric.set_height (Math_max 0 (fabric.top overlay))) s in
      let s2 :=
        obj_set bottomRect
          (fun r =>
             fabric.set_height
               (Math_max 0 (canvasHeight s
                            - (fabric.top overlay + fabric.height overlay)))%js
               (fabric.set_top (fabric.top overlay + fabric.height overlay)%js r))
          s1 in
      let s3 :=
        obj_set leftRect
          (fun r =>
             fabric.set_height (fabric.height overlay)
               (fabric.set_width (Math_max 0 (fabric.left overlay))
                  (fabric.set_top (fabric.top overlay) r)))
          s2 in
      obj_set rightRect
        (fun r =>
           fabric.set_height (fabric.height overlay)
             (fabric.set_width
                (Math_max 0 (canvasWidth s
                             - (fabric.left overlay + fabric.width overlay)))%js
                (fabric.set_top (fabric.top overlay)
                   (fabric.set_left
                      (fabric.left overlay + fabric.width overlay)%js r))))
        s3
    end
  | _, _ => s
  end.

(** The position [_constrainOverlay] gives to an overlay inside a frame:
    each bound is applied only when it is violated, the far bound after
    the near one. *)
Definition constrainedLeft (overlay : fabric.Object) (frame : FrameDisplayInfo) : num :=
  let newLeft := fabric.left overlay in
  let newLeft :=
    if (newLeft < displayLeft frame)%js then displayLeft frame else newLeft in
  if (newLeft + fabric.width overlay > displayLeft frame + displayWidth frame)%js
  then (displayLeft frame + displayWidth frame - fabric.width overlay)%js
  else newLeft.

Definition constrainedTop (overlay : fabric.Object) (frame : FrameDisplayInfo) : num :=
  let newTop := fabric.top overlay in
  let newTop :=
    if (newTop < displayTop frame)%js then displayTop frame else newTop in
  if (newTop + fabric.height overlay > displayTop frame + displayHeight frame)%js
  then (displayTop frame + displayHeight frame - fabric.height overlay)%js
  else newTop.

Definition _constrainOverlay (s : CanvasManager) : CanvasManager :=
  match selectionOverlay s, frameDisplayInfo s with
  | Some ov, Some frame =>
    match heap s !! ov with
    | None => s
    | Some overlay =>
      obj_set ov
        (fun o =>
           fabric.set_top (constrainedTop overlay frame)
             (fabric.set_left (constrainedLeft overlay frame) o))
        s
    end
  | _, _ => s
  end.

(** The drag of the overlay to a candidate position, followed by the
    handler of ['object:moving'] for the overlay. *)
Definition moveOverlay (l t : num) (s : CanvasManager) : CanvasManager :=
  match selectionOverlay s with
  | Some ov =>
      _updateDarkMask
        (_constrainOverlay
           (obj_set ov (fun o => fabric.set_top t (fabric.set_left l o)) s))
  | None => s
  end.

Definition setZoom (zoomLevel : num) (s : CanvasManager) : CanvasManager :=
  let s0 := set_overlayZoom (Math_max 0.5 (Math_min 1.5 (zoomLevel / 100)%js)) s in
  match selectionOverlay s0, frameDisplayInfo s0 with
  | Some ov, Some _ =>
    match heap s0 !! ov with
    | None => s0
    | Some overlay =>
      let oldCenterX := (fabric.left overlay + fabric.width overlay / 2)%js in
      let oldCenterY := (fabric.top overlay + fabric.height overlay / 2)%js in
      let newHeight := (baseOverlayHeight * overlayZoom s0)%js in
      let newWidth := (newHeight * (2 / 3))%js in
      let newLeft := (oldCenterX - newWidth / 2)%js in
      let newTop := (oldCenterY - newHeight / 2)%js in
      let s1 :=
        obj_set ov
          (fun o =>
             fabric.set_top newTop
               (fabric.set_left newLeft
                  (fabric.set_height newHeight
                     (fabric.set_width newWidth o))))
          s0 in
      _updateDarkMask (_constrainOverlay s1)
    end
  | _, _ => s0
  end.

Definition resetOverlayPosition (s : CanvasManager) : CanvasManager :=
  match selectionOverlay s with
  | Some ov =>
    match heap s !! ov with
    | None => s
    | Some overlay =>
      let overlayWidth := fabric.width overlay in
      let overlayHeight := fabric.height overlay in
      let s1 :=
        obj_set ov
          (fun o =>
             fabric.set_top ((canvasHeight s - overlayHeight) / 2)%js
               (fabric.set_left ((canvasWidth s - overlayWidth) / 2)%js o))
          s in
      _updateDarkMask (_constrainOverlay s1)
    end
  | None => s
  end.

(** ** The canvas manager: frames and backgrounds *)

Definition setVideo (base path : option string) (s : CanvasManager) : CanvasManager :=
  set_videoPath path (set_videoBase base s).

Definition _applyBlurFilter (s : CanvasManager) : CanvasManager :=
  match frameImage s with
  | None => s
  | Some f =>
      if (blurAmount s > 0)%js
      then obj_set f (fabric.set_filters [(blurAmount s / 50)%js]) s
      else obj_set f (fabric.set_filters []) s
  end.

(** [setFrame(timestamp)] up to the request of the frame: the state and
    the request issued, if any.  The callback of the request is
    [setFrame_onload]. *)
Definition setFrame (timestamp : num) (s : CanvasManager)
  : CanvasManager * option FrameRequest :=
  match videoBase s, videoPath s with
  | Some base, Some path =>
      if truthy_str (Some base) && truthy_str (Some path) then
        let s1 := set_currentTimestamp timestamp s in
        if negb (String.eqb (backgroundMode s1) "image") then (s1, None)
        else (s1, Some {| reqBase := base; reqPath := path;
                          reqTimestamp := timestamp |})
      else (s, None)
  | _, _ => (s, None)
  end.

(** The frame image after [img.set({...})] in the callback; [w] and [h]
    are the size of the loaded image, [el] tells whether it has an
    element. *)
Definition frameObject (w h : num) (el : bool) (sc l t : num) : fabric.Object :=
  {| fabric.type := fabric.image;
     fabric.left := l; fabric.top := t;
     fabric.width := w; fabric.height := h;
     fabric.scaleX := sc; fabric.scaleY := sc; fabric.angle := 0;
     fabric.originX := "center"; fabric.originY := "center";
     fabric.selectable := false; fabric.evented := false;
     fabric.isOverlay := false; fabric.isMask := false;
     fabric.fill := "rgb(0,0,0)"; fabric.stroke := "";
     fabric.strokeWidth := 0;
     fabric.text := ""; fabric.fontFamily := "Times New Roman";
     fabric.fontSize := 40; fabric.fontWeight := "normal";
     fabric.fontStyle := "normal"; fabric.underline := false;
     fabric.textAlign := "left";
     fabric.x1 := 0; fabric.y1 := 0; fabric.x2 := 0; fabric.y2 := 0;
     fabric.filters := []; fabric._element := el |}.

(** The display metrics computed in the callback of [setFrame]. *)
Definition fitFrame (w h canvasW canvasH : num) : FrameDisplayInfo :=
  let frameAspect := (w / h)%js in
  let canvasAspect := (canvasW / canvasH)%js in
  let displayW :=
    if (frameAspect > canvasAspect)%js then canvasW
    else (canvasH * frameAspect)%js in
  let displayH :=
    if (frameAspect > canvasAspect)%js then (canvasW / frameAspect)%js
    else canvasH in
  {| displayWidth := displayW; displayHeight := displayH;
     displayLeft := ((canvasW - displayW) / 2)%js;
     displayTop := ((canvasH - displayH) / 2)%js;
     originalWidth := w; originalHeight := h;
     scale := (displayW / w)%js |}.

(** The callback of [fabric.Image.fromURL] in [setFrame], run when the
    image of size [w] x [h] has arrived. *)
Definition setFrame_onload (w h : num) (el : bool) (s : CanvasManager)
  : CanvasManager :=
  let s1 :=
    match frameImage s with
    | Some old => on_canvas (fabric.remove old) s
    | None => s
    end in
  let info := fitFrame w h (canvasWidth s1) (canvasHeight s1) in
  let (img, s2) :=
    alloc (frameObject w h el (scale info)
             (canvasWidth s1 / 2)%js (canvasHeight s1 / 2)%js) s1 in
  let s3 := set_frameDisplayInfo (Some info) s2 in
  let s4 := set_frameImage (Some img) s3 in
  let s5 := _applyBlurFilter s4 in
  let s6 := on_canvas (fabric.sendToBack img) (on_canvas (fabric.add img) s5) in
  _createDarkMask (_createSelectionOverlay s6).

Definition _resizeCanvas (w h : num) (s : CanvasManager) : CanvasManager :=
  if strict_eq (canvasWidth s) w && strict_eq (canvasHeight s) h then s
  else
    on_canvas (fabric.setHeight h)
      (on_canvas (fabric.setWidth w)
         (set_canvasHeight h (set_canvasWidth w s))).

(** [this.gradientColors[i]]; a missing entry is [undefined]. *)
Definition colorAt (i : nat) (s : CanvasManager) : string :=
  nth i (gradientColors s) "undefined".

Definition _applyGradient (s : CanvasManager) : CanvasManager :=
  let bg :=
    if String.eqb (gradientDirection s) "horizontal" then
      fabric.Gradient 0 0 (canvasWidth s) 0 (colorAt 0 s) (colorAt 1 s)
    else if String.eqb (gradientDirection s) "diagonal" then
      fabric.Gradient 0 0 (canvasWidth s) (canvasHeight s)
        (colorAt 0 s) (colorAt 1 s)
    else
      fabric.Gradient 0 0 0 (canvasHeight s) (colorAt 0 s) (colorAt 1 s) in
  on_canvas (fabric.setBackgroundColor bg) s.

Definition _getSelectionCoords (s : CanvasManager) : Rect.t :=
  match frameDisplayInfo s, selectionOverlay s with
  | Some frame, Some ov =>
    match heap s !! ov with
    | None => {| Rect.left := 0; Rect.top := 0; Rect.width := 1; Rect.height := 1 |}
    | Some overlay =>
      let left := ((fabric.left overlay - displayLeft frame) / displayWidth frame)%js in
      let top := ((fabric.top overlay - displayTop frame) / displayHeight frame)%js in
      let width := (fabric.width overlay / displayWidth frame)%js in
      let height := (fabric.height overlay / displayHeight frame)%js in
      {| Rect.left := Math_max 0 (Math_min 1 left);
         Rect.top := Math_max 0 (Math_min 1 top);
         Rect.width := Math_max 0 (Math_min 1 width);
         Rect.height := Math_max 0 (Math_min 1 height) |}
    end
  | _, _ => {| Rect.left := 0; Rect.top := 0; Rect.width := 1; Rect.height := 1 |}
  end.

Definition _captureSelectionAsImage (s : CanvasManager) : option CapturedImage :=
  match frameImage s, selectionOverlay s, frameDisplayInfo s with
  | Some f, Some ov, Some frame =>
    match heap s !! f, heap s !! ov with
    | Some img, Some overlay =>
      if negb (fabric._element img) then None
      else
        Some
          {| cropX := ((fabric.left overlay - displayLeft frame)
                       / displayWidth frame * originalWidth frame)%js;
             cropY := ((fabric.top overlay - displayTop frame)
                       / displayHeight frame * originalHeight frame)%js;
             cropW := (fabric.width overlay / displayWidth frame
                       * originalWidth frame)%js;
             cropH := (fabric.height overlay / displayHeight frame
                       * originalHeight frame)%js;
             rasterWidth := posterModeWidth;
             rasterHeight := posterModeHeight;
             blurRadius :=
               if (blurAmount s > 0)%js then Some (blurAmount s / 2)%js
               else None |}
    | _, _ => None
    end
  | _, _, _ => None
  end.

(** [_setImageBackground(imageUrl)], run to the end of its callback: the
    image decoded from the data URL has the size of the raster. *)
Definition _setImageBackground (url : CapturedImage) (s : CanvasManager)
  : CanvasManager :=
  let o :=
    {| fabric.type := fabric.image;
       fabric.left := 0; fabric.top := 0;
       fabric.width := rasterWidth url; fabric.height := rasterHeight url;
       fabric.scaleX := (posterModeWidth / rasterWidth url)%js;
       fabric.scaleY := (posterModeHeight / rasterHeight url)%js;
       fabric.angle := 0;
       fabric.originX := "left"; fabric.originY := "top";
       fabric.selectable := false; fabric.evented := false;
       fabric.isOverlay := false; fabric.isMask := false;
       fabric.fill := "rgb(0,0,0)"; fabric.stroke := "";
       fabric.strokeWidth := 0;
       fabric.text := ""; fabric.fontFamily := "Times New Roman";
       fabric.fontSize := 40; fabric.fontWeight := "normal";
       fabric.fontStyle := "normal"; fabric.underline := false;
       fabric.textAlign := "left";
       fabric.x1 := 0; fabric.y1 := 0; fabric.x2 := 0; fabric.y2 := 0;
       fabric.filters := []; fabric._element := true |} in
  let (img, s1) := alloc o s in
  on_canvas (fabric.sendToBack img)
    (on_canvas (fabric.add img) (set_frameImage (Some img) s1)).

(** ** The canvas manager: the two phases *)

(** [confirmBackground()], its two awaits run to completion. *)
Definition confirmBackground (s : CanvasManager) : CanvasManager :=
  match workflowPhase s with
  | elements => s
  | background =>
    let captured :=
      if String.eqb (backgroundMode s) "image" then
        match frameImage s, selectionOverlay s with
        | Some _, Some _ => _captureSelectionAsImage s
        | _, _ => None
        end
      else None in
    let locked :=
      {| Locked.mode := backgroundMode s;
         Locked.selectionCoords := _getSelectionCoords s;
         Locked.blur := blurAmount s;
         Locked.backgroundColor := backgroundColor s;
         Locked.gradientColors := gradientColors s;
         Locked.gradientDirection := gradientDirection s;
         Locked.videoBase := videoBase s;
         Locked.videoPath := videoPath s;
         Locked.timestamp := currentTimestamp s;
         Locked.capturedImageUrl := captured |} in
    let s1 := set_lockedBackgroundData (Some locked) s in
    let s2 :=
      match selectionOverlay s1 with
      | Some ov => set_selectionOverlay None (on_canvas (fabric.remove ov) s1)
      | None => s1
      end in
    let s3 := clearDarkMask s2 in
    let s4 :=
      match frameImage s3 with
      | Some f => set_frameImage None (on_canvas (fabric.remove f) s3)
      | None => s3
      end in
    let s5 := set_frameDisplayInfo None s4 in
    let s6 := _resizeCanvas posterModeWidth posterModeHeight s5 in
    let s7 :=
      if String.eqb (backgroundMode s6) "image" then
        match captured with
        | Some url => _setImageBackground url s6
        | None => s6
        end
      else if String.eqb (backgroundMode s6) "color" then
        on_canvas (fabric.setBackgroundColor (fabric.Color (backgroundColor s6))) s6
      else if String.eqb (backgroundMode s6) "gradient" then
        _applyGradient s6
      else s6 in
    set_workflowPhase elements s7
  end.

(** The objects that [resetToBackgroundPhase] removes. *)
Definition is_element (s : CanvasManager) (i : nat) : bool :=
  match heap s !! i with
  | Some o =>
      fabric.ObjType_eqb (fabric.type o) fabric.i_text
      || fabric.ObjType_eqb (fabric.type o) fabric.textbox
      || fabric.ObjType_eqb (fabric.type o) fabric.line
  | None => false
  end.

(** [resetToBackgroundPhase()]: the state, and the frame request issued
    in image mode. *)
Definition resetToBackgroundPhase (s : CanvasManager)
  : CanvasManager * option FrameRequest :=
  match workflowPhase s with
  | background => (s, None)
  | elements =>
    let objectsToRemove := List.filter (is_element s) (fabric._objects (canvas s)) in
    let s1 := canvas_forEach fabric.remove objectsToRemove s in
    let s2 :=
      match frameImage s1 with
      | Some f => set_frameImage None (on_canvas (fabric.remove f) s1)
      | None => s1
      end in
    let s3 := on_canvas (fabric.setBackgroundColor (fabric.Color "#1a1a2e")) s2 in
    let '(s4, req) :=
      if String.eqb (backgroundMode s3) "image" then
        let s' := _resizeCanvas imageModeWidth imageModeHeight s3 in
        if truthy_str (videoBase s') && truthy_str (videoPath s')
        then setFrame (currentTimestamp s') s'
        else (s', None)
      else if String.eqb (backgroundMode s3) "color" then
        let s' := _resizeCanvas posterModeWidth posterModeHeight s3 in
        (on_canvas (fabric.setBackgroundColor (fabric.Color (backgroundColor s'))) s',
         None)
      else if String.eqb (backgroundMode s3) "gradient" then
        (_applyGradient (_resizeCanvas posterModeWidth posterModeHeight s3), None)
      else (s3, None) in
    (set_lockedBackgroundData None (set_workflowPhase background s4), req)
  end.

Definition setBlur (amount : num) (s : CanvasManager) : CanvasManager :=
  let s1 := set_blurAmount amount s in
  if String.eqb (backgroundMode s1) "image" then _applyBlurFilter s1 else s1.

Definition _updateBackground (s : CanvasManager)
  : CanvasManager * option FrameRequest :=
  let s1 :=
    if negb (String.eqb (backgroundMode s) "image") then
      let a :=
        match frameImage s with
        | Some f => set_frameImage None (on_canvas (fabric.remove f) s)
        | None => s
        end in
      let b :=
        match selectionOverlay a with
        | Some ov => set_selectionOverlay None (on_canvas (fabric.remove ov) a)
        | None => a
        end in
      set_frameDisplayInfo None (clearDarkMask b)
    else s in
  let s2 :=
    if String.eqb (backgroundMode s1) "image"
    then _resizeCanvas imageModeWidth imageModeHeight s1
    else _resizeCanvas posterModeWidth posterModeHeight s1 in
  if String.eqb (backgroundMode s2) "color" then
    (on_canvas (fabric.setBackgroundColor (fabric.Color (backgroundColor s2))) s2,
     None)
  else if String.eqb (backgroundMode s2) "gradient" then
    (_applyGradient s2, None)
  else if String.eqb (backgroundMode s2) "image" then
    let s3 := on_canvas (fabric.setBackgroundColor (fabric.Color "#1a1a2e")) s2 in
    setFrame (currentTimestamp s3) s3
  else (s2, None).

Definition setBackgroundMode (mode : string) (s : CanvasManager)
  : CanvasManager * option FrameRequest :=
  _updateBackground (set_backgroundMode mode s).

Definition setBackgroundColor (color : string) (s : CanvasManager)
  : CanvasManager * option FrameRequest :=
  let s1 := set_backgroundColor color s in
  if String.eqb (backgroundMode s1) "color" then _updateBackground s1
  else (s1, None).

Definition setGradientColors (color1 color2 : string) (s : CanvasManager)
  : CanvasManager * option FrameRequest :=
  let s1 := set_gradientColors [color1; color2] s in
  if String.eqb (backgroundMode s1) "gradient" then _updateBackground s1
  else (s1, None).

Definition setGradientDirection (direction : string) (s : CanvasManager)
  : CanvasManager * option FrameRequest :=
  let s1 := set_gradientDirection direction s in
  if String.eqb (backgroundMode s1) "gradient" then _updateBackground s1
  else (s1, None).

Definition _getPosterArea (s : CanvasManager) : Rect.t :=
  let whole :=
    {| Rect.left := 0; Rect.top := 0;
       Rect.width := canvasWidth s; Rect.height := canvasHeight s |} in
  if String.eqb (backgroundMode s) "image" then
    match selectionOverlay s with
    | Some ov =>
      match heap s !! ov with
      | Some overlay =>
          {| Rect.left := fabric.left overlay; Rect.top := fabric.top overlay;
             Rect.width := fabric.width overlay;
             Rect.height := fabric.height overlay |}
      | None => whole
      end
    | None => whole
    end
  else whole.

(** [addText(text)]; the height of the new text box comes from the
    library's text layout and is given as [boxHeight]. *)
Definition addText (text : string) (boxHeight : num) (s : CanvasManager)
  : CanvasManager :=
  let posterArea := _getPosterArea s in
  let left := (Rect.left posterArea + Rect.width posterArea / 2)%js in
  let top := (Rect.top posterArea + Rect.height posterArea / 2)%js in
  let o :=
    {| fabric.type := fabric.textbox;
       fabric.left := left; fabric.top := top;
       fabric.width := (Rect.width posterArea * 0.8)%js;
       fabric.height := boxHeight;
       fabric.scaleX := 1; fabric.scaleY := 1; fabric.angle := 0;
       fabric.originX := "center"; fabric.originY := "center";
       fabric.selectable := true; fabric.evented := true;
       fabric.isOverlay := false; fabric.isMask := false;
       fabric.fill := "#ffffff"; fabric.stroke := "";
       fabric.strokeWidth := 1;
       fabric.text := text; fabric.fontFamily := "Arial";
       fabric.fontSize := 32; fabric.fontWeight := "normal";
       fabric.fontStyle := "normal"; fabric.underline := false;
       fabric.textAlign := "center";
       fabric.x1 := 0; fabric.y1 := 0; fabric.x2 := 0; fabric.y2 := 0;
       fabric.filters := []; fabric._element := false |} in
  let (textObj, s1) := alloc o s in
  _reorderObjects
    (on_canvas (fabric.setActiveObject textObj)
       (on_canvas (fabric.add textObj) s1)).

Definition addLine (s : CanvasManager) : CanvasManager :=
  let posterArea := _getPosterArea s in
  let left := (Rect.left posterArea + 30)%js in
  let top := (Rect.top posterArea + Rect.height posterArea * 0.1)%js in
  let lineHeight := (Rect.height posterArea * 0.8)%js in
  let o :=
    {| fabric.type := fabric.line;
       fabric.left := Math_min left left;
       fabric.top := Math_min top (top + lineHeight)%js;
       fabric.width := Math_abs (left - left)%js;
       fabric.height := Math_abs (top + lineHeight - top)%js;
       fabric.scaleX := 1; fabric.scaleY := 1; fabric.angle := 0;
       fabric.originX := "left"; fabric.originY := "top";
       fabric.selectable := true; fabric.evented := true;
       fabric.isOverlay := false; fabric.isMask := false;
       fabric.fill := "rgb(0,0,0)"; fabric.stroke := "#ffffff";
       fabric.strokeWidth := 2;
       fabric.text := ""; fabric.fontFamily := "Times New Roman";
       fabric.fontSize := 40; fabric.fontWeight := "normal";
       fabric.fontStyle := "normal"; fabric.underline := false;
       fabric.textAlign := "left";
       fabric.x1 := left; fabric.y1 := top;
       fabric.x2 := left; fabric.y2 := (top + lineHeight)%js;
       fabric.filters := []; fabric._element := false |} in
  let (ln, s1) := alloc o s in
  _reorderObjects
    (on_canvas (fabric.setActiveObject ln) (on_canvas (fabric.add ln) s1)).

Definition getActiveObject (s : CanvasManager) : option nat :=
  fabric._activeObject (canvas s).

(** [activeObj !== this.frameImage] *)
Definition is_not_frame (s : CanvasManager) (i : nat) : bool :=
  match frameImage s with
  | Some f => negb (Nat.eqb i f)
  | None => true
  end.

Definition deleteSelected (s : CanvasManager) : CanvasManager :=
  match getActiveObject s with
  | Some a =>
    match heap s !! a with
    | Some activeObj =>
        if is_not_frame s a && negb (fabric.isOverlay activeObj)
           && negb (fabric.isMask activeObj)
        then on_canvas (fabric.remove a) s
        else s
    | None => s
    end
  | None => s
  end.

(** ** The canvas manager: export *)

Module TextLayer.
Record t : Type := {
  content : string;
  left : num; top : num;
  fontFamily : string; fontSize : num; fill : string;
  fontWeight : string; fontStyle : string; underline : bool;
  textAlign : string;
  angle : num; scaleX : num; scaleY : num;
  width : num; height : num
}.
End TextLayer.

Module LineElement.
Record t : Type := {
  x1 : num; y1 : num; x2 : num; y2 : num;
  stroke : string; strokeWidth : num
}.
End LineElement.

Module PosterData.
Record t : Type := {
  backgroundMode : string;
  backgroundColor : string;
  gradientColors : list string;
  gradientDirection : string;
  videoBase : option string;
  videoPath : option string;
  timestamp : num;
  selectionCoords : Rect.t;
  blur : num;
  canvasWidth : num;
  canvasHeight : num;
  textLayers : list TextLayer.t;
  lineElements : list LineElement.t
}.
End PosterData.

(** [str.split(c)] for a one-character separator. *)
Fixpoint split (c : ascii) (str : string) : list string :=
  match str with
  | EmptyString => [EmptyString]
  | String a rest =>
      if Ascii.eqb a c then EmptyString :: split c rest
      else
        match split c rest with
        | h :: t => String a h :: t
        | [] => [String a EmptyString]
        end
  end.

Definition newline : ascii := Ascii.ascii_of_nat 10.

(** The end points that [calcLinePoints] returns. *)
Record LinePoints : Type := { px1 : num; py1 : num; px2 : num; py2 : num }.

Section Exporter.

(** What the library and the browser compute from an object:
    [obj.getBoundingRect()], [obj.calcLinePoints()],
    [obj.calcTransformMatrix()], and the width that
    [ctx.measureText(line)] reports under the font made of a style, a
    weight, a size in pixels and a family. *)
Variable getBoundingRect : fabric.Object -> Rect.t.
Variable calcLinePoints : fabric.Object -> LinePoints.
Variable calcTransformMatrix : fabric.Object -> fabric.Matrix.
Variable measureText : string -> string -> num -> string -> string -> num.

(** The reference rectangle of an export: the canvas in the elements
    phase with a locked background, else the overlay, or the canvas when
    there is no overlay. *)
Definition referenceRect (s : CanvasManager) : Rect.t :=
  let whole :=
    {| Rect.left := 0; Rect.top := 0;
       Rect.width := canvasWidth s; Rect.height := canvasHeight s |} in
  match workflowPhase s, lockedBackgroundData s with
  | elements, Some _ => whole
  | _, _ =>
    match selectionOverlay s with
    | Some ov =>
      match heap s !! ov with
      | Some overlay =>
          {| Rect.left := fabric.left overlay; Rect.top := fabric.top overlay;
             Rect.width := fabric.width overlay;
             Rect.height := fabric.height overlay |}
      | None => whole
      end
    | None => whole
    end
  end.

(** The width of the widest line of the text of [obj]. *)
Definition maxLineWidth (obj : fabric.Object) : num :=
  let fontStyle := JS.or_str (fabric.fontStyle obj) "normal" in
  let fontWeight := JS.or_str (fabric.fontWeight obj) "normal" in
  let fontSize := (fabric.fontSize obj * JS.or_num (fabric.scaleY obj) 1)%js in
  let fontFamily := JS.or_str (fabric.fontFamily obj) "Arial" in
  fold_left
    (fun m line => Math_max m (measureText fontStyle fontWeight fontSize fontFamily line))
    (split newline (fabric.text obj)) (0 : num).

(** The left edge of the rendered text of [obj]. *)
Definition textLeft (obj : fabric.Object) : num :=
  let bbox := getBoundingRect obj in
  let textAlign := JS.or_str (fabric.textAlign obj) "center" in
  let textboxWidth := (fabric.width obj * JS.or_num (fabric.scaleX obj) 1)%js in
  if String.eqb textAlign "center" then
    (Rect.left bbox + (textboxWidth - maxLineWidth obj) / 2)%js
  else if String.eqb textAlign "right" then
    (Rect.left bbox + textboxWidth - maxLineWidth obj)%js
  else Rect.left bbox.

(** The entry pushed on [textLayers] for a text object. *)
Definition exportText (ref : Rect.t) (obj : fabric.Object) : TextLayer.t :=
  let bbox := getBoundingRect obj in
  {| TextLayer.content := fabric.text obj;
     TextLayer.left := ((textLeft obj - Rect.left ref) / Rect.width ref)%js;
     TextLayer.top := ((Rect.top bbox - Rect.top ref) / Rect.height ref)%js;
     TextLayer.fontFamily := fabric.fontFamily obj;
     TextLayer.fontSize := fabric.fontSize obj;
     TextLayer.fill := fabric.fill obj;
     TextLayer.fontWeight := JS.or_str (fabric.fontWeight obj) "normal";
     TextLayer.fontStyle := JS.or_str (fabric.fontStyle obj) "normal";
     TextLayer.underline := fabric.underline obj;
     TextLayer.textAlign := JS.or_str (fabric.textAlign obj) "center";
     TextLayer.angle := JS.or_num (fabric.angle obj) 0;
     TextLayer.scaleX := JS.or_num (fabric.scaleX obj) 1;
     TextLayer.scaleY := JS.or_num (fabric.scaleY obj) 1;
     TextLayer.width := (maxLineWidth obj / Rect.width ref)%js;
     TextLayer.height := (Rect.height bbox / Rect.height ref)%js |}.

(** The entry pushed on [lineElements] for a line. *)
Definition exportLine (ref : Rect.t) (obj : fabric.Object) : LineElement.t :=
  let points := calcLinePoints obj in
  let matrix := calcTransformMatrix obj in
  let point1 :=
    fabric.transformPoint {| fabric.x := px1 points; fabric.y := py1 points |} matrix in
  let point2 :=
    fabric.transformPoint {| fabric.x := px2 points; fabric.y := py2 points |} matrix in
  {| LineElement.x1 := ((fabric.x point1 - Rect.left ref) / Rect.width ref)%js;
     LineElement.y1 := ((fabric.y point1 - Rect.top ref) / Rect.height ref)%js;
     LineElement.x2 := ((fabric.x point2 - Rect.left ref) / Rect.width ref)%js;
     LineElement.y2 := ((fabric.y point2 - Rect.top ref) / Rect.height ref)%js;
     LineElement.stroke := fabric.stroke obj;
     LineElement.strokeWidth :=
       (fabric.strokeWidth obj * JS.or_num (fabric.scaleX obj) 1)%js |}.

(** [obj === this.frameImage || obj.isOverlay || obj.isMask] *)
Definition skipped (s : CanvasManager) (i : nat) (obj : fabric.Object) : bool :=
  negb (is_not_frame s i) || fabric.isOverlay obj || fabric.isMask obj.

(** One turn of the loop over the objects of the canvas. *)
Definition exportObject (s : CanvasManager) (ref : Rect.t)
  (acc : list TextLayer.t * list LineElement.t) (i : nat)
  : list TextLayer.t * list LineElement.t :=
  match heap s !! i with
  | None => acc
  | Some obj =>
    if skipped s i obj then acc
    else
      match fabric.type obj with
      | fabric.i_text | fabric.textbox =>
          (fst acc ++ [exportText ref obj], snd acc)
      | fabric.line => (fst acc, snd acc ++ [exportLine ref obj])
      | _ => acc
      end
  end.

Definition exportPosterData (s : CanvasManager) : PosterData.t :=
  let objects := fabric._objects (canvas s) in
  let ref := referenceRect s in
  let bgData :=
    match workflowPhase s, lockedBackgroundData s with
    | elements, Some d => Some d
    | _, _ => None
    end in
  let layers := fold_left (exportObject s ref) objects ([], []) in
  {| PosterData.backgroundMode :=
       match bgData with Some d => Locked.mode d | None => backgroundMode s end;
     PosterData.backgroundColor :=
       match bgData with
       | Some d => Locked.backgroundColor d
       | None => backgroundColor s
       end;
     PosterData.gradientColors :=
       match bgData with
       | Some d => Locked.gradientColors d
       | None => gradientColors s
       end;
     PosterData.gradientDirection :=
       match bgData with
       | Some d => Locked.gradientDirection d
       | None => gradientDirection s
       end;
     PosterData.videoBase :=
       match bgData with Some d => Locked.videoBase d | None => videoBase s end;
     PosterData.videoPath :=
       match bgData with Some d => Locked.videoPath d | None => videoPath s end;
     PosterData.timestamp :=
       match bgData with
       | Some d => Locked.timestamp d
       | None => currentTimestamp s
       end;
     PosterData.selectionCoords :=
       match bgData with
       | Some d => Locked.selectionCoords d
       | None => _getSelectionCoords s
       end;
     PosterData.blur :=
       match bgData with Some d => Locked.blur d | None => blurAmount s end;
     PosterData.canvasWidth := Rect.width ref;
     PosterData.canvasHeight := Rect.height ref;
     PosterData.textLayers := fst layers;
     PosterData.lineElements := snd layers |}.

End Exporter.

(** ** Predicates and sample states *)

(** The overlay lies inside the displayed frame. *)
Definition overlayContained (s : CanvasManager) : Prop :=
  exists ov o frame,
    selectionOverlay s = Some ov /\ heap s !! ov = Some o
    /\ frameDisplayInfo s = Some frame
    /\ (fabric.left o >= displayLeft frame)%js = true
    /\ (fabric.left o + fabric.width o
        <= displayLeft frame + displayWidth frame)%js = true
    /\ (fabric.top o >= displayTop frame)%js = true
    /\ (fabric.top o + fabric.height o
        <= displayTop frame + displayHeight frame)%js = true.

(** A manager with a video selected. *)
Definition withVideo : CanvasManager :=
  setVideo (Some "movies") (Some "film.mkv") constructor.

(** The same after a frame of 1920 x 800, of 1920 x 1080, of 0 x 800
    pixels has arrived, and after a frame that failed to load (an image
    without element, of size 0 x 0). *)
Definition frame1920x800 : CanvasManager := setFrame_onload 1920 800 true withVideo.
Definition frame1920x1080 : CanvasManager := setFrame_onload 1920 1080 true withVideo.
Definition frame0x800 : CanvasManager := setFrame_onload 0 800 true withVideo.
Definition frameFailed : CanvasManager := setFrame_onload 0 0 false withVideo.

(** The geometry of an object, and the area of a rectangle. *)
Definition geometry (o : fabric.Object) : Rect.t :=
  {| Rect.left := fabric.left o; Rect.top := fabric.top o;
     Rect.width := fabric.width o; Rect.height := fabric.height o |}.

Definition area (r : Rect.t) : num := (Rect.width r * Rect.height r)%js.

(** Rectangles equal as numbers, component by component. *)
Definition rect_eq (a b : Rect.t) : Prop :=
  Rect.left a ≈ Rect.left b /\ Rect.top a ≈ Rect.top b
  /\ Rect.width a ≈ Rect.width b /\ Rect.height a ≈ Rect.height b.

(** The geometry of the rectangles of the mask, in the order of
    [darkMaskRects]. *)
Definition maskGeometry (s : CanvasManager) : list (option Rect.t) :=
  map (fun i => geometry <$> heap s !! i) (darkMaskRects s).

(** The four rectangles of the mask after the words of the
    specification (top, bottom, left, right) for a canvas of size
    [canvasW] x [canvasH] and an overlay [ov]. *)
Definition specMask (canvasW canvasH : num) (ov : Rect.t) : list Rect.t :=
  [ {| Rect.left := 0; Rect.top := 0;
       Rect.width := canvasW; Rect.height := Rect.top ov |};
    {| Rect.left := 0; Rect.top := (Rect.top ov + Rect.height ov)%js;
       Rect.width := canvasW;
       Rect.height := (canvasH - (Rect.top ov + Rect.height ov))%js |};
    {| Rect.left := 0; Rect.top := Rect.top ov;
       Rect.width := Rect.left ov; Rect.height := Rect.height ov |};
    {| Rect.left := (Rect.left ov + Rect.width ov)%js; Rect.top := Rect.top ov;
       Rect.width := (canvasW - (Rect.left ov + Rect.width ov))%js;
       Rect.height := Rect.height ov |} ].

(** The sum of the areas of a list of rectangles. *)
Definition totalArea (rs : list Rect.t) : num :=
  fold_right (fun r acc => (area r + acc)%js) (0 : num) rs.

(** [obj.set({ left, top, width, height })] from a rectangle. *)
Definition set_geometry (g : Rect.t) (o : fabric.Object) : fabric.Object :=
  fabric.set_height (Rect.height g)
    (fabric.set_width (Rect.width g)
       (fabric.set_top (Rect.top g) (fabric.set_left (Rect.left g) o))).

(** A rectangle with rational sides. *)
Definition rectQ (l t w h : Q) : Rect.t :=
  {| Rect.left := l; Rect.top := t; Rect.width := w; Rect.height := h |}.

(** The rectangle [{ left: 0, top: 0, width: 1, height: 1 }]. *)
Definition fallbackRect : Rect.t := rectQ 0 0 1 1.

(** A number of the interval [0, 1], and a rectangle whose four
    components are. *)
Definition inUnit (x : num) : Prop :=
  (0 <= x)%js = true /\ (x <= 1)%js = true.

Definition rectInUnit (r : Rect.t) : Prop :=
  inUnit (Rect.left r) /\ inUnit (Rect.top r)
  /\ inUnit (Rect.width r) /\ inUnit (Rect.height r).

(** The 1920 x 1080 frame confirmed as background, and the same with a
    text box (laid out 40 pixels high) and a line added. *)
Definition confirmed : CanvasManager := confirmBackground frame1920x1080.
Definition withElements : CanvasManager := addLine (addText "Title" 40 confirmed).

(** The scene of a manager: the heap, the objects of the canvas and the
    references the manager holds. *)
Definition scene (s : CanvasManager) :=
  (heap s, nextId s, fabric._objects (canvas s), fabric._activeObject (canvas s),
   frameImage s, selectionOverlay s, darkMaskRects s, frameDisplayInfo s).

(** Every allocated object has an identity below [nextId]. *)
Definition heapBounded (s : CanvasManager) : Prop :=
  map_Forall (fun i _ => (i < nextId s)%nat) (heap s).

(** The overlay and the rectangles of the mask carry their marks. *)
Definition overlayMarked (s : CanvasManager) : Prop :=
  forall ov, selectionOverlay s = Some ov ->
    exists o, heap s !! ov = Some o /\ fabric.isOverlay o = true
              /\ fabric.isMask o = false.

Definition masksMarked (s : CanvasManager) : Prop :=
  forall m, m ∈ darkMaskRects s ->
    exists o, heap s !! m = Some o /\ fabric.isMask o = true.

Definition wellMarked (s : CanvasManager) : Prop :=
  heapBounded s /\ overlayMarked s /\ masksMarked s.

(** A change of an object that keeps its marks. *)
Definition keepsMarks (f : fabric.Object -> fabric.Object) : Prop :=
  forall o, fabric.isOverlay (f o) = fabric.isOverlay o
            /\ fabric.isMask (f o) = fabric.isMask o.

(** The steps of the editor: the operations of the manager, the arrival
    of a frame, and what the user does on the canvas through the
    library (selecting an object, dragging the overlay, editing an
    object without touching its marks). *)
Inductive step : CanvasManager -> CanvasManager -> Prop :=
| step_setVideo base path s : step s (setVideo base path s)
| step_setFrame t s : step s (fst (setFrame t s))
| step_onload w h el s : step s (setFrame_onload w h el s)
| step_move l t s : step s (moveOverlay l t s)
| step_zoom z s : step s (setZoom z s)
| step_resetOverlay s : step s (resetOverlayPosition s)
| step_confirm s : step s (confirmBackground s)
| step_revert s : step s (fst (resetToBackgroundPhase s))
| step_blur a s : step s (setBlur a s)
| step_mode m s : step s (fst (setBackgroundMode m s))
| step_color c s : step s (fst (setBackgroundColor c s))
| step_gradientColors c1 c2 s : step s (fst (setGradientColors c1 c2 s))
| step_gradientDirection d s : step s (fst (setGradientDirection d s))
| step_addText txt bh s : step s (addText txt bh s)
| step_addLine s : step s (addLine s)
| step_delete s : step s (deleteSelected s)
| step_select i s :
    i ∈ fabric._objects (canvas s) ->
    step s (on_canvas (fabric.setActiveObject i) s)
| step_edit i f s : keepsMarks f -> step s (obj_set i f s).

(** The states the editor can be in. *)
Definition reachable (s : CanvasManager) : Prop := rtc step constructor s.

(** The 1920 x 1080 frame with its overlay selected. *)
Definition overlaySelected : CanvasManager :=
  on_canvas (fabric.setActiveObject 1%nat) frame1920x1080.

(** The objects that an export visits and does not skip, in the order of
    the canvas; the texts and the lines among them. *)
Definition exported (s : CanvasManager) (i : nat) : option fabric.Object :=
  match heap s !! i with
  | Some obj => if skipped s i obj then None else Some obj
  | None => None
  end.

Definition is_text (o : fabric.Object) : bool :=
  fabric.ObjType_eqb (fabric.type o) fabric.i_text
  || fabric.ObjType_eqb (fabric.type o) fabric.textbox.

Definition is_line (o : fabric.Object) : bool :=
  fabric.ObjType_eqb (fabric.type o) fabric.line.

Definition exportedTexts (s : CanvasManager) : list fabric.Object :=
  List.filter is_text (omap (exported s) (fabric._objects (canvas s))).

Definition exportedLines (s : CanvasManager) : list fabric.Object :=
  List.filter is_line (omap (exported s) (fabric._objects (canvas s))).

(** What the library and the browser return in the two scenarios of the
    specification: a line from (0, 0) to (0, 200) in local coordinates
    under a translation to (50, 50) without rotation or scaling, and a
    text whose box starts at left 60 and whose widest line measures 180
    pixels. *)
Definition scenarioLinePoints (_ : fabric.Object) : LinePoints :=
  {| px1 := 0; py1 := 0; px2 := 0; py2 := 200 |}.

Definition scenarioMatrix (_ : fabric.Object) : fabric.Matrix :=
  fabric.composeMatrix 50 50 1 0 1 1.

Definition scenarioBoundingRect (_ : fabric.Object) : Rect.t := rectQ 60 100 300 40.

Definition scenarioMeasure (_ _ : string) (_ : num) (_ _ : string) : num := 180.

(** The confirmed background with its text box made 300 pixels wide and
    aligned to the right. *)
Definition rightAligned : CanvasManager :=
  obj_set 7%nat (fun o => fabric.set_textAlign "right" (fabric.set_width 300 o))
    withElements.

(** [z / 100] clamped to [0.5, 1.5] for a zoom level [z] that is a
    number, finite or not. *)
Definition clampedZoom (z : num) : Q :=
  match z with
  | Fin q => Qmax 0.5 (Qmin 1.5 (q / 100))
  | PInf => 1.5
  | _ => 0.5
  end.

(** ** The settings of the manager *)

(** What the manager keeps besides the scene, as far as the properties
    below need it: the phase and the snapshot, the size of the canvas as
    the manager and as the canvas record it, the zoom of the overlay, the
    blur and the background mode. *)
Definition canvasSize (s : CanvasManager) : num * num * num * num :=
  (canvasWidth s, canvasHeight s, fabric.cwidth (canvas s), fabric.cheight (canvas s)).

Definition settings (s : CanvasManager) :=
  (workflowPhase s, lockedBackgroundData s, canvasSize s, overlayZoom s,
   blurAmount s, backgroundMode s).

(** The two sizes of the canvas. *)
Definition imageModeSize : num * num * num * num :=
  (imageModeWidth, imageModeHeight, imageModeWidth, imageModeHeight).

Definition posterModeSize : num * num * num * num :=
  (posterModeWidth, posterModeHeight, posterModeWidth, posterModeHeight).

(** A canvas method that does not resize the canvas. *)
Definition keepsSize (f : fabric.Canvas -> fabric.Canvas) : Prop :=
  forall c, fabric.cwidth (f c) = fabric.cwidth c
            /\ fabric.cheight (f c) = fabric.cheight c.

(** ** Events of the canvas and steps of the editor *)

(** The handler of ['object:moving'] and of ['object:moved'] for an
    event whose target is the object [target]. *)
Definition onObjectMoving (target : nat) (s : CanvasManager) : CanvasManager :=
  match selectionOverlay s with
  | Some ov =>
      if Nat.eqb target ov then _updateDarkMask (_constrainOverlay s) else s
  | None => s
  end.

(** A step that ends in the elements phase. *)
Definition editingStep (s s' : CanvasManager) : Prop :=
  step s s' /\ workflowPhase s' = elements.

(** The 1920 x 1080 frame with a text box added before the background is
    confirmed. *)
Definition titleOnFrame : CanvasManager := addText "Title" 40 frame1920x1080.

(** ** The canvas and the references of the manager *)

(** A canvas holds no object twice, holds only objects with an identity
    below [k], and its active object is one of its objects. *)
Definition canvasTidy (k : nat) (c : fabric.Canvas) : Prop :=
  NoDup (fabric._objects c)
  /\ (forall i, i ∈ fabric._objects c -> (i < k)%nat)
  /\ (forall a, fabric._activeObject c = Some a -> a ∈ fabric._objects c).

(** The frame, the overlay and the rectangles of the mask that the
    manager refers to have been allocated. *)
Definition refsBounded (s : CanvasManager) : Prop :=
  (forall f, frameImage s = Some f -> (f < nextId s)%nat)
  /\ (forall ov, selectionOverlay s = Some ov -> (ov < nextId s)%nat)
  /\ (forall m, m ∈ darkMaskRects s -> (m < nextId s)%nat).

(** The identities below [nextId] are those of the heap. *)
Definition heapFull (s : CanvasManager) : Prop :=
  forall i, (i < nextId s)%nat <-> is_Some (heap s !! i).

Definition tidyAt (k : nat) (s : CanvasManager) : Prop :=
  canvasTidy k (canvas s) /\ (k <= nextId s)%nat /\ refsBounded s /\ heapFull s.

Definition tidy (s : CanvasManager) : Prop := tidyAt (nextId s) s.

(** The gradient [_applyGradient] builds for a direction, a size and two
    colours, as the properties below state it. *)
Definition gradientFor (direction : string) (w h : num) (c0 c1 : string)
  : fabric.Background :=
  if String.eqb direction "horizontal" then fabric.Gradient 0 0 w 0 c0 c1
  else if String.eqb direction "diagonal" then fabric.Gradient 0 0 w h c0 c1
  else fabric.Gradient 0 0 0 h c0 c1.

(** The canvas has the size of a poster and shows the gradient of the
    direction [d] from [c0] to [c1] over its whole size. *)
Definition showsGradient (d c0 c1 : string) (s : CanvasManager) : Prop :=
  canvasWidth s ≈ posterModeWidth /\ canvasHeight s ≈ posterModeHeight
  /\ fabric.backgroundColor (canvas s)
     = gradientFor d (canvasWidth s) (canvasHeight s) c0 c1.

(** ** The text editor *)

(** The text editor keeps the text and the line that the canvas reported
    as selected. *)
Record TextEditor : Type := {
  activeText : option nat;
  activeLine : option nat
}.

Definition _onTextSelected (textObj : nat) (te : TextEditor) : TextEditor :=
  {| activeText := Some textObj; activeLine := None |}.

Definition _onLineSelected (lineObj : nat) (te : TextEditor) : TextEditor :=
  {| activeText := None; activeLine := Some lineObj |}.

Definition _onSelectionCleared (te : TextEditor) : TextEditor :=
  {| activeText := None; activeLine := None |}.

(** [currentValue === activeValue ? inactiveValue : activeValue] for the
    three formats. *)
Definition toggleBold (o : fabric.Object) : fabric.Object :=
  fabric.set_fontWeight
    (if String.eqb (fabric.fontWeight o) "bold" then "normal" else "bold") o.

Definition toggleItalic (o : fabric.Object) : fabric.Object :=
  fabric.set_fontStyle
    (if String.eqb (fabric.fontStyle o) "italic" then "normal" else "italic") o.

Definition toggleUnderline (o : fabric.Object) : fabric.Object :=
  fabric.set_underline
    (if Bool.eqb (fabric.underline o) true then false else true) o.

(** [_toggleFormat(format)]; a format that the switch does not know
    leaves the fields of the model as they are. *)
Definition _toggleFormat (format : string) (te : TextEditor)
  (s : CanvasManager) : CanvasManager :=
  match activeText te with
  | None => s
  | Some a =>
      if String.eqb format "bold" then obj_set a toggleBold s
      else if String.eqb format "italic" then obj_set a toggleItalic s
      else if String.eqb format "underline" then obj_set a toggleUnderline s
      else s
  end.

(** The state of the three format buttons after [_updateFormatButtons]. *)
Definition formatActive (format : string) (o : fabric.Object) : bool :=
  if String.eqb format "bold" then String.eqb (fabric.fontWeight o) "bold"
  else if String.eqb format "italic" then String.eqb (fabric.fontStyle o) "italic"
  else if String.eqb format "underline" then Bool.eqb (fabric.underline o) true
  else false.

(** The property of a format has one of the two values of its toggle. *)
Definition formatPlain (format : string) (o : fabric.Object) : Prop :=
  if String.eqb format "bold"
  then fabric.fontWeight o = "bold" \/ fabric.fontWeight o = "normal"
  else if String.eqb format "italic"
  then fabric.fontStyle o = "italic" \/ fabric.fontStyle o = "normal"
  else True.

(** ** The frame slider *)

(** The slider of the frames.  [debounceTimer] tells whether a timer set
    by [_onSliderChange] has yet to fire, [awaiting] is the argument of
    the call of [_fetchFrame] that waits for [canvasManager.setFrame],
    and [requested] lists the arguments of the calls of
    [canvasManager.setFrame], oldest first.  A timestamp is a number or
    [null]. *)
Record FrameSlider : Type := {
  duration : num;
  pendingTimestamp : option num;
  isLoading : bool;
  debounceTimer : bool;
  awaiting : option (option num);
  requested : list (option num)
}.

Definition newFrameSlider : FrameSlider :=
  {| duration := 0; pendingTimestamp := None; isLoading := false;
     debounceTimer := false; awaiting := None; requested := [] |}.

Definition setDuration (d : num) (fs : FrameSlider) : FrameSlider :=
  {| duration := d; pendingTimestamp := pendingTimestamp fs;
     isLoading := isLoading fs; debounceTimer := debounceTimer fs;
     awaiting := awaiting fs; requested := requested fs |}.

(** [a !== b] on timestamps. *)
Definition strict_ne_timestamp (a b : option num) : bool :=
  match a, b with
  | None, None => false
  | Some x, Some y => negb (strict_eq x y)
  | _, _ => true
  end.

(** [_fetchFrame(timestamp)] up to its [await]. *)
Definition _fetchFrame (timestamp : option num) (fs : FrameSlider) : FrameSlider :=
  if isLoading fs then fs
  else
    {| duration := duration fs; pendingTimestamp := pendingTimestamp fs;
       isLoading := true; debounceTimer := debounceTimer fs;
       awaiting := Some timestamp;
       requested := requested fs ++ [timestamp] |}.

(** The rest of [_fetchFrame], run when the promise of
    [canvasManager.setFrame] is resolved; without a call that waits there
    is nothing to run. *)
Definition _fetchFrame_resume (fs : FrameSlider) : FrameSlider :=
  match awaiting fs with
  | None => fs
  | Some timestamp =>
      let fs1 :=
        {| duration := duration fs; pendingTimestamp := pendingTimestamp fs;
           isLoading := false; debounceTimer := debounceTimer fs;
           awaiting := None; requested := requested fs |} in
      if strict_ne_timestamp (pendingTimestamp fs1) timestamp
      then _fetchFrame (pendingTimestamp fs1) fs1
      else fs1
  end.

(** [_onSliderChange()] with [value] for [parseFloat(this.slider.value)]:
    the timer that was set is cleared and a new one is set. *)
Definition _onSliderChange (value : num) (fs : FrameSlider) : FrameSlider :=
  {| duration := duration fs; pendingTimestamp := Some value;
     isLoading := isLoading fs; debounceTimer := true;
     awaiting := awaiting fs; requested := requested fs |}.

(** The timer of [_onSliderChange] fires, if one is set. *)
Definition debounceFires (fs : FrameSlider) : FrameSlider :=
  if debounceTimer fs then
    _fetchFrame (pendingTimestamp fs)
      {| duration := duration fs; pendingTimestamp := pendingTimestamp fs;
         isLoading := isLoading fs; debounceTimer := false;
         awaiting := awaiting fs; requested := requested fs |}
  else fs.

(** [_stepFrame(direction)] with [value] for
    [parseFloat(this.slider.value)]. *)
Definition _stepFrame (direction value : num) (fs : FrameSlider) : FrameSlider :=
  if strict_eq (duration fs) 0 then fs
  else
    let step := (direction * (1 / 30))%js in
    let newValue := (value + step)%js in
    let newValue := Math_max 0 (Math_min (duration fs) newValue) in
    _fetchFrame (Some newValue)
      {| duration := duration fs; pendingTimestamp := Some newValue;
         isLoading := isLoading fs; debounceTimer := debounceTimer fs;
         awaiting := awaiting fs; requested := requested fs |}.

(** What happens to a slider. *)
Inductive sliderStep : FrameSlider -> FrameSlider -> Prop :=
| slider_setDuration d fs : sliderStep fs (setDuration d fs)
| slider_change v fs : sliderStep fs (_onSliderChange v fs)
| slider_debounce fs : sliderStep fs (debounceFires fs)
| slider_stepFrame k v fs : sliderStep fs (_stepFrame k v fs)
| slider_loaded fs : sliderStep fs (_fetchFrame_resume fs).

Definition sliderReachable (fs : FrameSlider) : Prop :=
  rtc sliderStep newFrameSlider fs.

(** Nothing is loading and no timer is set. *)
Definition sliderIdle (fs : FrameSlider) : Prop :=
  isLoading fs = false /\ debounceTimer fs = false.

(** What holds of a slider at any time: a frame is loading exactly when
    a call of [_fetchFrame] waits, and it waits for the timestamp
    requested last; no request is made and no timer is set before a
    timestamp is pending; an idle slider has requested its pending
    timestamp last. *)
Definition sliderInv (fs : FrameSlider) : Prop :=
  (isLoading fs = true ->
     exists l t, awaiting fs = Some (Some t) /\ requested fs = l ++ [Some t])
  /\ (isLoading fs = false -> awaiting fs = None)
  /\ Forall (fun r => r <> None) (requested fs)
  /\ (pendingTimestamp fs = None ->
        requested fs = [] /\ debounceTimer fs = false)
  /\ (isLoading fs = false -> debounceTimer fs = false ->
      forall t, pendingTimestamp fs = Some t ->
        exists l t', requested fs = l ++ [Some t'] /\ strict_eq t t' = true).

(** The slider of a video of ten seconds after a step forward and the
    arrival of the frame, then moved to 3 while nothing loads. *)
Definition sliderStepped : FrameSlider :=
  _fetchFrame_resume (_stepFrame 1 0 (setDuration 10 newFrameSlider)).

Definition sliderMoved : FrameSlider := _onSliderChange 3 sliderStepped.

(** * Properties *)

(** ** Numbers *)

Ltac q_cases :=
  repeat match goal with
  | |- context [Qcompare ?a ?b] => destruct (Qcompare_spec a b)
  | H : context [Qcompare ?a ?b] |- _ => destruct (Qcompare_spec a b)
  | |- context [Qeq_bool ?a ?b] =>
      let E := fresh "E" in
      destruct (Qeq_bool a b) eqn:E;
      [apply Qeq_bool_eq in E | apply Qeq_bool_neq in E]
  | H : context [Qeq_bool ?a ?b] |- _ =>
      let E := fresh "E" in
      destruct (Qeq_bool a b) eqn:E;
      [apply Qeq_bool_eq in E | apply Qeq_bool_neq in E]
  end.

Lemma num_eq_refl (x : num) : x ≈ x.
Proof. destruct x; simpl; auto. reflexivity. Qed.

Lemma num_eq_sym (x y : num) : x ≈ y -> y ≈ x.
Proof. destruct x, y; simpl; auto. intros H; symmetry; exact H. Qed.

Lemma num_eq_trans (x y z : num) : x ≈ y -> y ≈ z -> x ≈ z.
Proof.
  destruct x, y, z; simpl; auto; try contradiction.
  intros H1 H2; rewrite H1; exact H2.
Qed.

#[global] Instance num_eq_equivalence : Equivalence num_eq.
Proof.
  split.
  - intros x. apply num_eq_refl.
  - intros x y. apply num_eq_sym.
  - intros x y z. apply num_eq_trans.
Qed.

Lemma lt_Fin (a b : Q) : (Fin a < Fin b)%js = true <-> a < b.
Proof. unfold lt; simpl. q_cases; split; intros; try lra; try discriminate; auto. Qed.

Lemma gt_Fin (a b : Q) : (Fin a > Fin b)%js = true <-> b < a.
Proof. unfold gt; simpl. q_cases; split; intros; try lra; try discriminate; auto. Qed.

Lemma le_Fin (a b : Q) : (Fin a <= Fin b)%js = true <-> a <= b.
Proof. unfold le; simpl. q_cases; split; intros; try lra; try discriminate; auto. Qed.

Lemma ge_Fin (a b : Q) : (Fin a >= Fin b)%js = true <-> b <= a.
Proof. unfold ge; simpl. q_cases; split; intros; try lra; try discriminate; auto. Qed.

Lemma lt_Fin_false (a b : Q) : (Fin a < Fin b)%js = false <-> b <= a.
Proof. unfold lt; simpl. q_cases; split; intros; try lra; try discriminate; auto. Qed.

Lemma gt_Fin_false (a b : Q) : (Fin a > Fin b)%js = false <-> a <= b.
Proof. unfold gt; simpl. q_cases; split; intros; try lra; try discriminate; auto. Qed.

(** ** The heap and the canvas under the manager's steps *)

Lemma lookup_obj_set_eq (s : CanvasManager) (i : nat) f :
  heap (obj_set i f s) !! i = f <$> heap s !! i.
Proof. unfold obj_set; simpl. apply lookup_alter_eq. Qed.

Lemma lookup_obj_set_ne (s : CanvasManager) (i j : nat) f :
  i <> j -> heap (obj_set i f s) !! j = heap s !! j.
Proof. intros H. unfold obj_set; simpl. by apply lookup_alter_ne. Qed.

(** [_updateDarkMask] writes the mask rectangles only. *)
Lemma updateDarkMask_other (s : CanvasManager) (i : nat) :
  i ∉ darkMaskRects s ->
  heap (_updateDarkMask s) !! i = heap s !! i.
Proof.
  intros Hi. unfold _updateDarkMask.
  destruct (selectionOverlay s) as [ov|]; [|done].
  destruct (darkMaskRects s) as [|a [|b [|c [|d [|]]]]] eqn:E; try done.
  destruct (heap s !! ov) as [overlay|]; [|done].
  assert (a <> i /\ b <> i /\ c <> i /\ d <> i) as (Ha & Hb & Hc & Hd).
  { repeat split; intros ->; apply Hi; set_solver. }
  rewrite !lookup_obj_set_ne; auto.
Qed.

Lemma updateDarkMask_frame (s : CanvasManager) :
  selectionOverlay (_updateDarkMask s) = selectionOverlay s
  /\ frameDisplayInfo (_updateDarkMask s) = frameDisplayInfo s
  /\ darkMaskRects (_updateDarkMask s) = darkMaskRects s
  /\ canvas (_updateDarkMask s) = canvas s.
Proof.
  unfold _updateDarkMask.
  destruct (selectionOverlay s) as [ov|] eqn:Eo; [|done].
  destruct (darkMaskRects s) as [|a [|b [|c [|d [|]]]]] eqn:E; try done.
  destruct (heap s !! ov) as [overlay|]; simpl; done.
Qed.

(** The overlay after [_constrainOverlay]. *)
Lemma constrainOverlay_lookup (s : CanvasManager) ov overlay frame :
  selectionOverlay s = Some ov ->
  heap s !! ov = Some overlay ->
  frameDisplayInfo s = Some frame ->
  heap (_constrainOverlay s) !! ov
  = Some (fabric.set_top (constrainedTop overlay frame)
            (fabric.set_left (constrainedLeft overlay frame) overlay)).
Proof.
  intros Hov Ho Hf. unfold _constrainOverlay.
  rewrite Hov, Hf, Ho, lookup_obj_set_eq, Ho. done.
Qed.

Lemma constrainOverlay_frame (s : CanvasManager) :
  selectionOverlay (_constrainOverlay s) = selectionOverlay s
  /\ frameDisplayInfo (_constrainOverlay s) = frameDisplayInfo s
  /\ darkMaskRects (_constrainOverlay s) = darkMaskRects s
  /\ canvas (_constrainOverlay s) = canvas s.
Proof.
  unfold _constrainOverlay.
  destruct (selectionOverlay s) as [ov|] eqn:Eo; [|done].
  destruct (frameDisplayInfo s) eqn:Ef; [|done].
  destruct (heap s !! ov); simpl; done.
Qed.

(** ** The scenario of the specification

    A frame of 1920 x 800 on the canvas of 800 x 500 is shown 800 wide
    and 333.3 high at top 83.3; the overlay at zoom 1 is 266.7 x 400 and
    centred; dragged to left -50 it is put at left 0, and the crop
    rectangle starts at left 0. *)

Example scenario_frame :
  exists info,
    frameDisplayInfo frame1920x800 = Some info
    /\ displayWidth info ≈ 800 /\ displayHeight info ≈ 1000 / 3
    /\ displayLeft info ≈ 0 /\ displayTop info ≈ 250 / 3.
Proof. eexists. split; [reflexivity|]. vm_compute. auto. Qed.

Example scenario_overlay :
  exists o,
    heap frame1920x800 !! 1%nat = Some o
    /\ rect_eq (geometry o) (rectQ (800 / 3) 50 (800 / 3) 400).
Proof. eexists. split; [vm_compute; reflexivity|]. vm_compute. auto. Qed.

Example scenario_drag :
  exists o,
    heap (moveOverlay (-50) 50 frame1920x800) !! 1%nat = Some o
    /\ fabric.left o ≈ 0
    /\ Rect.left (_getSelectionCoords (moveOverlay (-50) 50 frame1920x800)) ≈ 0.
Proof. eexists. split; [vm_compute; reflexivity|]. vm_compute. auto. Qed.

(** ** The containment constraint *)

(** The far bound always holds after the clamp; the near bound holds
    when the overlay is not larger than the frame. *)
Lemma constrainedLeft_bounds (o : fabric.Object) (frame : FrameDisplayInfo)
  (l w dl dw : Q) :
  fabric.left o = Fin l -> fabric.width o = Fin w ->
  displayLeft frame = Fin dl -> displayWidth frame = Fin dw ->
  exists l', constrainedLeft o frame = Fin l'
    /\ l' + w <= dl + dw
    /\ (w <= dw -> dl <= l')
    /\ (dl <= l -> l + w <= dl + dw -> l' == l).
Proof.
  intros Hl Hw Hdl Hdw. unfold constrainedLeft. rewrite Hl, Hw, Hdl, Hdw.
  destruct (Fin l < Fin dl)%js eqn:E1.
  - apply lt_Fin in E1. simpl.
    destruct (Fin (dl + w) > Fin (dl + dw))%js eqn:E2.
    + apply gt_Fin in E2. eexists; split; [reflexivity|].
      repeat split; intros; lra.
    + apply gt_Fin_false in E2. eexists; split; [reflexivity|].
      repeat split; intros; lra.
  - apply lt_Fin_false in E1. simpl.
    destruct (Fin (l + w) > Fin (dl + dw))%js eqn:E2.
    + apply gt_Fin in E2. eexists; split; [reflexivity|].
      repeat split; intros; lra.
    + apply gt_Fin_false in E2. eexists; split; [reflexivity|].
      repeat split; intros; lra.
Qed.

Lemma constrainedTop_bounds (o : fabric.Object) (frame : FrameDisplayInfo)
  (t h dt dh : Q) :
  fabric.top o = Fin t -> fabric.height o = Fin h ->
  displayTop frame = Fin dt -> displayHeight frame = Fin dh ->
  exists t', constrainedTop o frame = Fin t'
    /\ t' + h <= dt + dh
    /\ (h <= dh -> dt <= t')
    /\ (dt <= t -> t + h <= dt + dh -> t' == t).
Proof.
  intros Ht Hh Hdt Hdh. unfold constrainedTop. rewrite Ht, Hh, Hdt, Hdh.
  destruct (Fin t < Fin dt)%js eqn:E1.
  - apply lt_Fin in E1. simpl.
    destruct (Fin (dt + h) > Fin (dt + dh))%js eqn:E2.
    + apply gt_Fin in E2. eexists; split; [reflexivity|].
      repeat split; intros; lra.
    + apply gt_Fin_false in E2. eexists; split; [reflexivity|].
      repeat split; intros; lra.
  - apply lt_Fin_false in E1. simpl.
    destruct (Fin (t + h) > Fin (dt + dh))%js eqn:E2.
    + apply gt_Fin in E2. eexists; split; [reflexivity|].
      repeat split; intros; lra.
    + apply gt_Fin_false in E2. eexists; split; [reflexivity|].
      repeat split; intros; lra.
Qed.




(** ** Zoom *)

Lemma div_Fin (a b : Q) : ~ b == 0 -> (Fin a / Fin b)%js = Fin (a / b).
Proof.
  intros H. simpl. destruct (Qeq_bool b 0) eqn:E; [|reflexivity].
  apply Qeq_bool_eq in E. contradiction.
Qed.

Lemma Math_max_Fin (a b : Q) :
  exists c, Math_max (Fin a) (Fin b) = Fin c /\ c == Qmax a b.
Proof.
  unfold Math_max; simpl. destruct (Qcompare_spec a b) as [H|H|H].
  - exists a; split; [reflexivity|]. symmetry; apply Q.max_l; lra.
  - exists b; split; [reflexivity|]. symmetry; apply Q.max_r; lra.
  - exists a; split; [reflexivity|]. symmetry; apply Q.max_l; lra.
Qed.

Lemma Math_min_Fin (a b : Q) :
  exists c, Math_min (Fin a) (Fin b) = Fin c /\ c == Qmin a b.
Proof.
  unfold Math_min; simpl. destruct (Qcompare_spec a b) as [H|H|H].
  - exists a; split; [reflexivity|]. symmetry; apply Q.min_l; lra.
  - exists a; split; [reflexivity|]. symmetry; apply Q.min_l; lra.
  - exists b; split; [reflexivity|]. symmetry; apply Q.min_r; lra.
Qed.

(** The zoom factor that [setZoom] stores. *)
Lemma zoom_clamped (z : num) :
  z <> NaN ->
  exists c, Math_max 0.5 (Math_min 1.5 (z / 100)%js) = Fin c
    /\ c == clampedZoom z /\ 0.5 <= c <= 1.5.
Proof.
  intros Hz. destruct z as [| |z|].
  - contradiction.
  - exists 0.5. vm_compute. intuition discriminate.
  - rewrite div_Fin by lra.
    destruct (Math_min_Fin 1.5 (z / 100)) as (m & -> & Hm).
    destruct (Math_max_Fin 0.5 m) as (c & -> & Hc).
    exists c. split; [reflexivity|].
    assert (Hc' : c == Qmax 0.5 (Qmin 1.5 (z / 100))).
    { rewrite Hc. apply Q.max_compat; [reflexivity|exact Hm]. }
    split; [exact Hc'|].
    rewrite Hc'. split.
    + apply Q.le_max_l.
    + apply Q.max_lub; [lra|]. apply Q.le_min_l.
  - exists 1.5. vm_compute. intuition discriminate.
Qed.



(** ** Steps that touch the canvas only *)

Lemma only_canvas_trans (s s1 s2 : CanvasManager) :
  s1 = set_canvas (canvas s1) s -> s2 = set_canvas (canvas s2) s1 ->
  s2 = set_canvas (canvas s2) s.
Proof. intros H1 H2. rewrite H2 at 1. rewrite H1. reflexivity. Qed.

Lemma on_canvas_only f (s : CanvasManager) :
  on_canvas f s = set_canvas (canvas (on_canvas f s)) s.
Proof. reflexivity. Qed.

Lemma canvas_forEach_only m (ids : list nat) (s : CanvasManager) :
  canvas_forEach m ids s = set_canvas (canvas (canvas_forEach m ids s)) s.
Proof.
  unfold canvas_forEach. revert s.
  induction ids as [|i ids IH]; intros s; simpl.
  - destruct s; reflexivity.
  - eapply only_canvas_trans; [|apply IH]. reflexivity.
Qed.

Lemma reorderObjects_only (s : CanvasManager) :
  _reorderObjects s = set_canvas (canvas (_reorderObjects s)) s.
Proof.
  unfold _reorderObjects.
  set (s1 := match frameImage s with Some f => _ | None => s end).
  assert (H1 : s1 = set_canvas (canvas s1) s).
  { unfold s1. destruct (frameImage s); [reflexivity|by destruct s]. }
  set (s2 := canvas_forEach fabric.bringToFront (darkMaskRects s1) s1).
  assert (H2 : s2 = set_canvas (canvas s2) s).
  { eapply only_canvas_trans; [exact H1|apply canvas_forEach_only]. }
  set (s3 := match selectionOverlay s2 with Some ov => _ | None => s2 end).
  assert (H3 : s3 = set_canvas (canvas s3) s).
  { eapply only_canvas_trans; [exact H2|].
    unfold s3. destruct (selectionOverlay s2); [reflexivity|by destruct s2]. }
  generalize (fabric._objects (canvas s3)). intros l.
  revert H3. generalize s3. clear.
  induction l as [|i l IH]; intros s3 H3; simpl; [exact H3|].
  apply IH. destruct (is_front_kind s3 i); [|exact H3].
  eapply only_canvas_trans; [exact H3|reflexivity].
Qed.

Lemma clearDarkMask_fields (s : CanvasManager) :
  heap (clearDarkMask s) = heap s
  /\ nextId (clearDarkMask s) = nextId s
  /\ selectionOverlay (clearDarkMask s) = selectionOverlay s
  /\ canvasWidth (clearDarkMask s) = canvasWidth s
  /\ canvasHeight (clearDarkMask s) = canvasHeight s
  /\ darkMaskRects (clearDarkMask s) = [].
Proof.
  unfold clearDarkMask.
  rewrite (canvas_forEach_only fabric.remove (darkMaskRects s) s).
  repeat split.
Qed.

Lemma only_canvas_fields (s s' : CanvasManager) :
  s' = set_canvas (canvas s') s ->
  heap s' = heap s /\ nextId s' = nextId s
  /\ selectionOverlay s' = selectionOverlay s
  /\ darkMaskRects s' = darkMaskRects s
  /\ frameImage s' = frameImage s
  /\ frameDisplayInfo s' = frameDisplayInfo s
  /\ canvasWidth s' = canvasWidth s /\ canvasHeight s' = canvasHeight s.
Proof. intros H. rewrite H. simpl. repeat split. Qed.

(** ** The dimming mask *)

(** The state after [_createDarkMask]: four new rectangles, marked as
    mask, with the geometry computed from the overlay. *)
Lemma createDarkMask_state (s : CanvasManager) (ov : nat) (o : fabric.Object) :
  selectionOverlay s = Some ov ->
  heap s !! ov = Some o ->
  (ov < nextId s)%nat ->
  let n := nextId s in
  let s1 := _createDarkMask s in
  darkMaskRects s1 = [n; S n; S (S n); S (S (S n))]
  /\ selectionOverlay s1 = Some ov
  /\ canvasWidth s1 = canvasWidth s /\ canvasHeight s1 = canvasHeight s
  /\ heap s1 !! ov = Some o
  /\ heap s1 !! n
     = Some (fabric.set_isMask true
               (maskRect 0 0 (canvasWidth s) (fabric.top o)))
  /\ heap s1 !! S n
     = Some (fabric.set_isMask true
               (maskRect 0 (fabric.top o + fabric.height o) (canvasWidth s)
                  (canvasHeight s - (fabric.top o + fabric.height o)))%js)
  /\ heap s1 !! S (S n)
     = Some (fabric.set_isMask true
               (maskRect 0 (fabric.top o) (fabric.left o) (fabric.height o)))
  /\ heap s1 !! S (S (S n))
     = Some (fabric.set_isMask true
               (maskRect (fabric.left o + fabric.width o) (fabric.top o)
                  (canvasWidth s - (fabric.left o + fabric.width o))
                  (fabric.height o))%js).
Proof.
  intros Hov Ho Hlt n s1.
  destruct (clearDarkMask_fields s) as (Hh & Hn & Hs & Hw & Hc & Hd).
  unfold s1, _createDarkMask.
  rewrite Hs, Hov, Hh, Ho, Hw, Hc.
  unfold alloc. cbv beta iota zeta.
  match goal with
  | |- context [_reorderObjects ?x] =>
      destruct (only_canvas_fields x (_reorderObjects x) (reorderObjects_only x))
        as (-> & _ & -> & -> & _ & _ & -> & ->)
  end.
  simpl.
  destruct (only_canvas_fields s _ (canvas_forEach_only fabric.remove (darkMaskRects s) s))
    as (-> & -> & -> & _ & _ & _ & -> & ->).
  fold n.
  repeat split; auto.
  all: repeat first
    [ rewrite lookup_alter_eq
    | rewrite lookup_alter_ne by lia
    | rewrite lookup_insert_eq
    | rewrite lookup_insert_ne by lia ];
    try reflexivity.
  exact Ho.
Qed.

Lemma floor_at_zero (q : Q) :
  0 <= q -> exists c, Math_max 0 (Fin q) = Fin c /\ c == q.
Proof.
  intros H. destruct (Math_max_Fin 0 q) as (c & E & Hc).
  exists c. split; [exact E|]. rewrite Hc. apply Q.max_r. exact H.
Qed.



(** ** The normalized crop rectangle *)

(** C2, as stated, fails: with a frame of width 0 the displayed width
    is 0, and the crop rectangle is { 0, 0.1, 1, 0.8 }, not the fallback
    rectangle. *)
Lemma getSelectionCoords_zero_width :
  (exists frame, frameDisplayInfo frame0x800 = Some frame
                 /\ displayWidth frame ≈ 0)
  /\ rect_eq (_getSelectionCoords frame0x800) (rectQ 0 0.1 1 0.8)
  /\ ~ rect_eq (_getSelectionCoords frame0x800) fallbackRect.
Proof.
  split; [eexists; split; [vm_compute; reflexivity|vm_compute; reflexivity]|].
  split; [vm_compute; auto|].
  intros (_ & H & _). vm_compute in H. discriminate.
Qed.

(** C2, amended: without frame display info or without overlay the
    crop rectangle is the fallback rectangle. *)
Theorem getSelectionCoords_fallback (s : CanvasManager) :
  frameDisplayInfo s = None \/ selectionOverlay s = None ->
  _getSelectionCoords s = fallbackRect.
Proof.
  intros [H|H]; unfold _getSelectionCoords; rewrite H.
  - reflexivity.
  - destruct (frameDisplayInfo s); reflexivity.
Qed.

(** Before the first frame arrives there is neither frame nor overlay. *)
Lemma getSelectionCoords_fallback_witness :
  _getSelectionCoords withVideo = fallbackRect.
Proof. apply getSelectionCoords_fallback. left. reflexivity. Defined.

Lemma clamp_Fin (q : Q) :
  exists c, Math_max 0 (Math_min 1 (Fin q)) = Fin c
    /\ c == Qmax 0 (Qmin 1 q) /\ 0 <= c <= 1.
Proof.
  destruct (Math_min_Fin 1 q) as (m & -> & Hm).
  destruct (Math_max_Fin 0 m) as (c & -> & Hc).
  exists c. split; [reflexivity|].
  assert (Hc' : c == Qmax 0 (Qmin 1 q)).
  { rewrite Hc. apply Q.max_compat; [reflexivity|exact Hm]. }
  split; [exact Hc'|]. rewrite Hc'. split.
  - apply Q.le_max_l.
  - apply Q.max_lub; [lra|]. apply Q.le_min_l.
Qed.

Lemma clamp_unit (x : num) :
  x <> NaN -> inUnit (Math_max 0 (Math_min 1 x)).
Proof.
  intros Hx. destruct x as [| |q|].
  - contradiction.
  - vm_compute. split; reflexivity.
  - destruct (clamp_Fin q) as (c & -> & _ & H0 & H1).
    split; apply le_Fin; assumption.
  - vm_compute. split; reflexivity.
Qed.

(** C9, as stated, fails: after a frame that failed to load, frame and
    overlay are present and the left component of the crop rectangle is
    [NaN]. *)
Lemma getSelectionCoords_failed_frame :
  (exists ov o frame, selectionOverlay frameFailed = Some ov
     /\ heap frameFailed !! ov = Some o
     /\ frameDisplayInfo frameFailed = Some frame)
  /\ Rect.left (_getSelectionCoords frameFailed) = NaN
  /\ ~ rectInUnit (_getSelectionCoords frameFailed).
Proof.
  split.
  { eexists _, _, _.
    split; [vm_compute; reflexivity|].
    split; vm_compute; reflexivity. }
  split; [vm_compute; reflexivity|].
  intros ((H & _) & _). vm_compute in H. discriminate.
Qed.

(** C9, amended: with a frame and an overlay present, a finite geometry
    and a displayed frame of non-zero width and height, each component
    of the crop rectangle is its quotient clamped to [0, 1], wherever
    the overlay lies. *)
Theorem getSelectionCoords_clamped (s : CanvasManager) (ov : nat)
  (o : fabric.Object) (frame : FrameDisplayInfo) (l t w h dl dt dw dh : Q) :
  selectionOverlay s = Some ov ->
  heap s !! ov = Some o ->
  frameDisplayInfo s = Some frame ->
  geometry o = rectQ l t w h ->
  displayLeft frame = Fin dl -> displayTop frame = Fin dt ->
  displayWidth frame = Fin dw -> displayHeight frame = Fin dh ->
  ~ dw == 0 -> ~ dh == 0 ->
  rectInUnit (_getSelectionCoords s)
  /\ rect_eq (_getSelectionCoords s)
       (rectQ (Qmax 0 (Qmin 1 ((l - dl) / dw))) (Qmax 0 (Qmin 1 ((t - dt) / dh)))
              (Qmax 0 (Qmin 1 (w / dw))) (Qmax 0 (Qmin 1 (h / dh)))).
Proof.
  intros Hov Ho Hf Hg Hdl Hdt Hdw Hdh Hw0 Hh0.
  injection Hg as Hl Ht Hw Hh.
  unfold _getSelectionCoords. rewrite Hf, Hov, Ho.
  cbv beta iota zeta. rewrite Hl, Ht, Hw, Hh, Hdl, Hdt, Hdw, Hdh.
  change (Fin l - Fin dl)%js with (Fin (l - dl)).
  change (Fin t - Fin dt)%js with (Fin (t - dt)).
  rewrite !div_Fin by assumption.
  split.
  - repeat split; apply clamp_unit; discriminate.
  - unfold rect_eq, rectQ.
    cbn [Rect.left Rect.top Rect.width Rect.height].
    split; [|split; [|split]];
      match goal with
      | |- Math_max _ (Math_min _ (Fin ?q)) ≈ _ =>
          destruct (clamp_Fin q) as (c & -> & Hc & _); exact Hc
      end.
Qed.

(** The crop rectangle of the 1920 x 800 frame with the overlay dragged
    to (-50, 50): the overlay is taller than the frame. *)
Lemma getSelectionCoords_clamped_witness :
  rectInUnit (_getSelectionCoords (moveOverlay (-50) 50 frame1920x800)).
Proof.
  edestruct (getSelectionCoords_clamped (moveOverlay (-50) 50 frame1920x800) 1%nat)
    as (H & _).
  1-8: vm_compute; reflexivity.
  1-2: vm_compute; discriminate.
  exact H.
Defined.

(** ** The two phases *)

(** C7: [confirmBackground] in the elements phase and
    [resetToBackgroundPhase] in the background phase change nothing (and
    the latter requests no frame). *)
Theorem wrong_phase_noop (s : CanvasManager) :
  (workflowPhase s = elements -> confirmBackground s = s)
  /\ (workflowPhase s = background -> resetToBackgroundPhase s = (s, None)).
Proof.
  split; intros H.
  - unfold confirmBackground. rewrite H. reflexivity.
  - unfold resetToBackgroundPhase. rewrite H. reflexivity.
Qed.

(** A second confirmation of the confirmed background, and a reset
    before any confirmation. *)
Lemma wrong_phase_noop_witness :
  confirmBackground confirmed = confirmed
  /\ resetToBackgroundPhase frame1920x1080 = (frame1920x1080, None).
Proof.
  split.
  - apply (wrong_phase_noop confirmed). vm_compute. reflexivity.
  - apply (wrong_phase_noop frame1920x1080). vm_compute. reflexivity.
Defined.

(** ** The objects of the canvas *)

Lemma elem_removeFromArray (x y : nat) (l : list nat) :
  y ∈ fabric.removeFromArray x l <-> y ∈ l /\ y <> x.
Proof.
  unfold fabric.removeFromArray. rewrite !list_elem_of_In, filter_In.
  rewrite negb_true_iff, Nat.eqb_neq. intuition congruence.
Qed.

Lemma mem_true (x : nat) (l : list nat) : fabric.mem x l = true <-> x ∈ l.
Proof.
  unfold fabric.mem. rewrite existsb_exists, list_elem_of_In. split.
  - intros (y & Hy & E). apply Nat.eqb_eq in E. subst. exact Hy.
  - intros H. exists x. split; [exact H|apply Nat.eqb_refl].
Qed.

Lemma removeFromArray_absent (x : nat) (l : list nat) :
  x ∉ l -> fabric.removeFromArray x l = l.
Proof.
  intros H. unfold fabric.removeFromArray.
  induction l as [|a l IH]; simpl; [reflexivity|].
  destruct (Nat.eqb_spec x a) as [->|Hne]; simpl.
  - exfalso. apply H. left.
  - f_equal. apply IH. intros Hx. apply H. right. exact Hx.
Qed.

Lemma objects_remove (x : nat) (c : fabric.Canvas) :
  fabric._objects (fabric.remove x c) = fabric.removeFromArray x (fabric._objects c).
Proof.
  unfold fabric.remove. destruct (fabric.mem x (fabric._objects c)) eqn:E.
  - reflexivity.
  - symmetry. apply removeFromArray_absent. rewrite <- mem_true, E. discriminate.
Qed.

Lemma elem_remove (x y : nat) (c : fabric.Canvas) :
  y ∈ fabric._objects (fabric.remove x c) <-> y ∈ fabric._objects c /\ y <> x.
Proof. rewrite objects_remove. apply elem_removeFromArray. Qed.

Lemma elem_add (x y : nat) (c : fabric.Canvas) :
  y ∈ fabric._objects (fabric.add x c) <-> y ∈ fabric._objects c \/ y = x.
Proof. simpl. rewrite elem_of_app, list_elem_of_singleton. reflexivity. Qed.

Lemma elem_sendToBack (x y : nat) (c : fabric.Canvas) :
  y ∈ fabric._objects (fabric.sendToBack x c) <-> y ∈ fabric._objects c \/ y = x.
Proof.
  simpl. rewrite elem_of_cons, elem_removeFromArray.
  destruct (decide (y = x)); intuition.
Qed.

Lemma elem_bringToFront (x y : nat) (c : fabric.Canvas) :
  y ∈ fabric._objects (fabric.bringToFront x c) <-> y ∈ fabric._objects c \/ y = x.
Proof.
  simpl. rewrite elem_of_app, list_elem_of_singleton, elem_removeFromArray.
  destruct (decide (y = x)); intuition.
Qed.

Lemma canvas_on_canvas f (s : CanvasManager) :
  canvas (on_canvas f s) = f (canvas s).
Proof. reflexivity. Qed.

(** Removing a list of objects leaves the others. *)
Lemma elem_forEach_remove (ids : list nat) (s : CanvasManager) (y : nat) :
  y ∈ fabric._objects (canvas (canvas_forEach fabric.remove ids s))
  <-> y ∈ fabric._objects (canvas s) /\ y ∉ ids.
Proof.
  unfold canvas_forEach. revert s.
  induction ids as [|i ids IH]; intros s; simpl.
  - split; [intros H; split; [exact H|apply not_elem_of_nil]|tauto].
  - rewrite IH, canvas_on_canvas, elem_remove, not_elem_of_cons. tauto.
Qed.

(** Bringing a list of objects to the front adds those that were not on
    the canvas. *)
Lemma elem_forEach_bringToFront (ids : list nat) (s : CanvasManager) (y : nat) :
  y ∈ fabric._objects (canvas (canvas_forEach fabric.bringToFront ids s))
  <-> y ∈ fabric._objects (canvas s) \/ y ∈ ids.
Proof.
  unfold canvas_forEach. revert s.
  induction ids as [|i ids IH]; intros s; simpl.
  - rewrite elem_of_nil. tauto.
  - rewrite IH, canvas_on_canvas, elem_bringToFront, elem_of_cons. tauto.
Qed.

(** [_reorderObjects] keeps the objects of the canvas and adds the
    frame, the mask and the overlay if they were missing. *)
Lemma elem_reorderObjects (s : CanvasManager) (y : nat) :
  y ∈ fabric._objects (canvas (_reorderObjects s))
  <-> y ∈ fabric._objects (canvas s) \/ frameImage s = Some y
      \/ y ∈ darkMaskRects s \/ selectionOverlay s = Some y.
Proof.
  unfold _reorderObjects.
  set (s1 := match frameImage s with Some f => _ | None => s end).
  assert (H1 : s1 = set_canvas (canvas s1) s).
  { unfold s1. destruct (frameImage s); [reflexivity|by destruct s]. }
  assert (E1 : y ∈ fabric._objects (canvas s1)
               <-> y ∈ fabric._objects (canvas s) \/ frameImage s = Some y).
  { unfold s1. destruct (frameImage s) as [f|]; simpl.
    - rewrite elem_of_cons, elem_removeFromArray.
      destruct (decide (y = f)) as [->|]; [tauto|].
      split; [tauto|]. intros [H|H]; [tauto|]. congruence.
    - split; [tauto|]. intros [H|H]; [exact H|discriminate]. }
  set (s2 := canvas_forEach fabric.bringToFront (darkMaskRects s1) s1).
  assert (H2 : s2 = set_canvas (canvas s2) s1) by apply canvas_forEach_only.
  assert (E2 : y ∈ fabric._objects (canvas s2)
               <-> y ∈ fabric._objects (canvas s1) \/ y ∈ darkMaskRects s).
  { unfold s2. rewrite elem_forEach_bringToFront.
    destruct (only_canvas_fields s s1 H1) as (_ & _ & _ & -> & _). tauto. }
  set (s3 := match selectionOverlay s2 with Some ov => _ | None => s2 end).
  assert (E3 : y ∈ fabric._objects (canvas s3)
               <-> y ∈ fabric._objects (canvas s2) \/ selectionOverlay s = Some y).
  { assert (Hs : selectionOverlay s2 = selectionOverlay s).
    { destruct (only_canvas_fields s1 s2 H2) as (_ & _ & -> & _).
      destruct (only_canvas_fields s s1 H1) as (_ & _ & -> & _). reflexivity. }
    unfold s3. rewrite Hs. destruct (selectionOverlay s) as [ov|].
    - rewrite canvas_on_canvas, elem_bringToFront.
      split; (intros [H|H]; [left; exact H|right; congruence]).
    - split; [tauto|]. intros [H|H]; [exact H|discriminate]. }
  assert (G : forall l s0,
             (forall i, i ∈ l -> i ∈ fabric._objects (canvas s0)) ->
             y ∈ fabric._objects (canvas
                   (fold_left
                      (fun s i => if is_front_kind s i
                                  then on_canvas (fabric.bringToFront i) s else s)
                      l s0))
             <-> y ∈ fabric._objects (canvas s0)).
  { clear. induction l as [|i l IH]; intros s0 Hl; simpl; [tauto|].
    rewrite IH.
    - destruct (is_front_kind s0 i); [|tauto].
      rewrite canvas_on_canvas, elem_bringToFront.
      split; [|tauto]. intros [H|H]; [exact H|]. subst y. apply Hl. left.
    - intros j Hj. destruct (is_front_kind s0 i).
      + rewrite canvas_on_canvas, elem_bringToFront.
        left. apply Hl. right. exact Hj.
      + apply Hl. right. exact Hj. }
  rewrite G by auto. rewrite E3, E2, E1. tauto.
Qed.


Lemma elem_fold_markAndAdd (ids : list nat) (s : CanvasManager) (y : nat) :
  y ∈ fabric._objects (canvas (fold_left markAndAdd ids s))
  <-> y ∈ fabric._objects (canvas s) \/ y ∈ ids.
Proof.
  revert s. induction ids as [|i ids IH]; intros s; simpl.
  - rewrite elem_of_nil. tauto.
  - rewrite IH. unfold markAndAdd.
    rewrite canvas_on_canvas, elem_add, elem_of_cons. simpl. tauto.
Qed.

Lemma fold_markAndAdd_fields (ids : list nat) (s : CanvasManager) :
  let s' := fold_left markAndAdd ids s in
  nextId s' = nextId s /\ selectionOverlay s' = selectionOverlay s
  /\ darkMaskRects s' = darkMaskRects s /\ frameImage s' = frameImage s
  /\ frameDisplayInfo s' = frameDisplayInfo s
  /\ workflowPhase s' = workflowPhase s
  /\ lockedBackgroundData s' = lockedBackgroundData s
  /\ (forall i, i ∉ ids -> heap s' !! i = heap s !! i).
Proof.
  revert s. induction ids as [|i ids IH]; intros s; simpl.
  - repeat split.
  - destruct (IH (markAndAdd s i)) as (-> & -> & -> & -> & -> & -> & -> & H).
    repeat split. intros j Hj. apply not_elem_of_cons in Hj as [Hj1 Hj2].
    rewrite H by exact Hj2. unfold markAndAdd, on_canvas, obj_set. simpl.
    apply lookup_alter_ne. congruence.
Qed.

(** [_createDarkMask] with an overlay, step by step. *)
Lemma createDarkMask_unfold (s : CanvasManager) (ov : nat) (o : fabric.Object) :
  selectionOverlay s = Some ov ->
  heap s !! ov = Some o ->
  let n := nextId s in
  let s0 := clearDarkMask s in
  let h4 :=
    <[S (S (S n)) :=
        (maskRect (fabric.left o + fabric.width o) (fabric.top o)
           (canvasWidth s - (fabric.left o + fabric.width o))
           (fabric.height o))%js]>
      (<[S (S n) :=
           maskRect 0 (fabric.top o) (fabric.left o) (fabric.height o)]>
         (<[S n :=
              (maskRect 0 (fabric.top o + fabric.height o) (canvasWidth s)
                 (canvasHeight s - (fabric.top o + fabric.height o)))%js]>
            (<[n := maskRect 0 0 (canvasWidth s) (fabric.top o)]> (heap s)))) in
  _createDarkMask s
  = _reorderObjects
      (fold_left markAndAdd [n; S n; S (S n); S (S (S n))]
         (set_darkMaskRects [n; S n; S (S n); S (S (S n))]
            (set_nextId (S (S (S (S n)))) (set_heap h4 s0)))).
Proof.
  intros Hov Ho n s0 h4.
  destruct (clearDarkMask_fields s) as (Hh & Hn & Hs & Hw & Hc & Hd).
  unfold _createDarkMask. fold s0. fold s0 in Hh, Hn, Hs, Hw, Hc, Hd.
  rewrite Hs, Hov, Hh, Ho. unfold alloc. cbv beta iota zeta.
  cbn [nextId set_nextId set_heap heap canvasWidth canvasHeight darkMaskRects
       set_darkMaskRects].
  rewrite Hn, Hh, Hw, Hc. fold n.
  reflexivity.
Qed.

(** What [_createDarkMask] leaves alone, and the objects on the canvas
    afterwards. *)
Lemma createDarkMask_frame (s : CanvasManager) (ov : nat) (o : fabric.Object) :
  selectionOverlay s = Some ov ->
  heap s !! ov = Some o ->
  let n := nextId s in
  let s1 := _createDarkMask s in
  nextId s1 = S (S (S (S n)))
  /\ frameImage s1 = frameImage s
  /\ frameDisplayInfo s1 = frameDisplayInfo s
  /\ workflowPhase s1 = workflowPhase s
  /\ lockedBackgroundData s1 = lockedBackgroundData s
  /\ (forall i, i ∉ [n; S n; S (S n); S (S (S n))] ->
        heap s1 !! i = heap s !! i)
  /\ (forall y, y ∈ fabric._objects (canvas s1) <->
        (y ∈ fabric._objects (canvas s) /\ y ∉ darkMaskRects s)
        \/ frameImage s = Some y \/ y = ov
        \/ y ∈ [n; S n; S (S n); S (S (S n))]).
Proof.
  intros Hov Ho n s1.
  unfold s1. rewrite (createDarkMask_unfold s ov o Hov Ho). fold n.
  cbv zeta.
  set (ids := [n; S n; S (S n); S (S (S n))]).
  set (sa := set_darkMaskRects ids _).
  set (sb := fold_left markAndAdd ids sa).
  destruct (fold_markAndAdd_fields ids sa) as (Fn & Fo & Fm & Fi & Fd & Fp & Fl & Fh).
  fold sb in Fn, Fo, Fm, Fi, Fd, Fp, Fl, Fh.
  destruct (only_canvas_fields sb (_reorderObjects sb) (reorderObjects_only sb))
    as (Eh & En & Eo & Em & Ei & Ed & _ & _).
  assert (Ep : workflowPhase (_reorderObjects sb) = workflowPhase sb
               /\ lockedBackgroundData (_reorderObjects sb)
                  = lockedBackgroundData sb).
  { rewrite (reorderObjects_only sb). split; reflexivity. }
  destruct Ep as (Ep1 & Ep2).
  assert (Cf : frameImage (clearDarkMask s) = frameImage s
               /\ frameDisplayInfo (clearDarkMask s) = frameDisplayInfo s
               /\ workflowPhase (clearDarkMask s) = workflowPhase s
               /\ lockedBackgroundData (clearDarkMask s) = lockedBackgroundData s
               /\ selectionOverlay (clearDarkMask s) = selectionOverlay s
               /\ heap (clearDarkMask s) = heap s).
  { unfold clearDarkMask.
    rewrite (canvas_forEach_only fabric.remove (darkMaskRects s) s).
    repeat split. }
  destruct Cf as (Cf1 & Cf2 & Cf3 & Cf4 & Cf5 & Cf6).
  assert (Cel : forall y, y ∈ fabric._objects (canvas sa)
                          <-> y ∈ fabric._objects (canvas s) /\ y ∉ darkMaskRects s).
  { intros y. unfold sa, clearDarkMask. simpl. apply elem_forEach_remove. }
  rewrite En, Ei, Ed, Ep1, Ep2, Eh, Fn, Fi, Fd, Fp, Fl.
  split; [reflexivity|].
  split; [exact Cf1|]. split; [exact Cf2|]. split; [exact Cf3|].
  split; [exact Cf4|]. split.
  - intros i Hi. rewrite Fh by exact Hi.
    unfold ids in Hi. rewrite !not_elem_of_cons in Hi.
    unfold sa. simpl. rewrite !lookup_insert_ne by intuition. reflexivity.
  - intros y. rewrite elem_reorderObjects.
    rewrite Fi, Fm, Fo. unfold sb. rewrite elem_fold_markAndAdd.
    change (frameImage sa) with (frameImage (clearDarkMask s)).
    change (selectionOverlay sa) with (selectionOverlay (clearDarkMask s)).
    change (darkMaskRects sa) with ids.
    rewrite Cf1, Cf5, Hov, Cel.
    intuition congruence.
Qed.

(** The state after [_createSelectionOverlay]: a new rectangle, marked
    as overlay, centred on the canvas, takes the place of the old one. *)
Lemma createSelectionOverlay_state (s : CanvasManager) :
  let n := nextId s in
  let s' := _createSelectionOverlay s in
  let h := (baseOverlayHeight * overlayZoom s)%js in
  let w := (h * (2 / 3))%js in
  selectionOverlay s' = Some n /\ nextId s' = S n
  /\ heap s'
     = <[n := overlayRect ((canvasWidth s - w) / 2)%js
                ((canvasHeight s - h) / 2)%js w h]> (heap s)
  /\ darkMaskRects s' = darkMaskRects s
  /\ frameImage s' = frameImage s
  /\ frameDisplayInfo s' = frameDisplayInfo s
  /\ workflowPhase s' = workflowPhase s
  /\ lockedBackgroundData s' = lockedBackgroundData s
  /\ (forall y, y ∈ fabric._objects (canvas s')
        <-> (y ∈ fabric._objects (canvas s) /\ selectionOverlay s <> Some y)
            \/ y = n).
Proof.
  intros n s' h w. unfold s', _createSelectionOverlay.
  destruct (selectionOverlay s) as [old|] eqn:E; unfold alloc; simpl.
  - repeat split; try reflexivity.
    + intros Hy. rewrite elem_of_app, list_elem_of_singleton in Hy.
      destruct Hy as [Hy|Hy]; [left|right; exact Hy].
      apply elem_remove in Hy. split; [tauto|]. intros Heq. injection Heq. intros <-. tauto.
    + intros Hy. rewrite elem_of_app, list_elem_of_singleton.
      destruct Hy as [[Hy Hne]|Hy]; [left|right; exact Hy].
      apply elem_remove. split; [exact Hy|]. intros ->. apply Hne. reflexivity.
  - repeat split; try reflexivity.
    + intros Hy. rewrite elem_of_app, list_elem_of_singleton in Hy.
      destruct Hy as [Hy|Hy]; [left|right; exact Hy]. split; [exact Hy|discriminate].
    + intros Hy. rewrite elem_of_app, list_elem_of_singleton. tauto.
Qed.

(** The state after the callback of [setFrame]: a new frame image, a
    new overlay and four new mask rectangles; the objects allocated
    before are as they were. *)
Lemma setFrame_onload_state (w h : num) (el : bool) (s : CanvasManager) :
  let n := nextId s in
  let s2 := setFrame_onload w h el s in
  let ids := [S (S n); S (S (S n)); S (S (S (S n))); S (S (S (S (S n))))] in
  frameImage s2 = Some n
  /\ selectionOverlay s2 = Some (S n)
  /\ darkMaskRects s2 = ids
  /\ workflowPhase s2 = workflowPhase s
  /\ lockedBackgroundData s2 = lockedBackgroundData s
  /\ (exists o, heap s2 !! n = Some o /\ fabric.type o = fabric.image)
  /\ (exists o, heap s2 !! S n = Some o /\ fabric.type o = fabric.rect
                /\ fabric.isOverlay o = true)
  /\ (forall m, m ∈ ids ->
        exists o, heap s2 !! m = Some o /\ fabric.type o = fabric.rect
                  /\ fabric.isMask o = true)
  /\ (forall i, i <> n -> i <> S n -> i ∉ ids -> heap s2 !! i = heap s !! i)
  /\ (forall y, y ∈ fabric._objects (canvas s2)
        <-> (y ∈ fabric._objects (canvas s) /\ frameImage s <> Some y
             /\ selectionOverlay s <> Some y /\ y ∉ darkMaskRects s)
            \/ y = n \/ y = S n \/ y ∈ ids).
Proof.
  intros n s2 ids. unfold s2, setFrame_onload.
  set (s1 := match frameImage s with Some old => _ | None => s end).
  assert (H1 : s1 = set_canvas (canvas s1) s).
  { unfold s1. destruct (frameImage s); [reflexivity|by destruct s]. }
  assert (E1 : forall y, y ∈ fabric._objects (canvas s1)
               <-> y ∈ fabric._objects (canvas s) /\ frameImage s <> Some y).
  { intros y. unfold s1. destruct (frameImage s) as [f|].
    - rewrite canvas_on_canvas, elem_remove.
      split; intros [Ha Hb]; (split; [exact Ha|congruence]).
    - split; [intros Hy; split; [exact Hy|discriminate]|tauto]. }
  destruct (only_canvas_fields s s1 H1) as (Hh1 & Hn1 & Ho1 & Hm1 & _ & _ & _ & _).
  assert (Hp1 : workflowPhase s1 = workflowPhase s
                /\ lockedBackgroundData s1 = lockedBackgroundData s).
  { rewrite H1. split; reflexivity. }
  destruct Hp1 as (Hp1 & Hl1).
  unfold alloc. cbv beta iota zeta. rewrite Hn1. fold n.
  match goal with
  | |- context [_applyBlurFilter ?x] => set (s4 := x)
  end.
  set (f := frameObject w h el _ _ _) in s4.
  assert (E5 : exists flt, _applyBlurFilter s4 = obj_set n (fabric.set_filters flt) s4).
  { unfold _applyBlurFilter. change (frameImage s4) with (Some n).
    destruct (blurAmount s4 > 0)%js; eexists; reflexivity. }
  destruct E5 as (flt & ->).
  set (s6 := on_canvas (fabric.sendToBack n) _).
  assert (Hh6 : heap s6 = <[n := fabric.set_filters flt f]> (heap s)).
  { unfold s6, s4, obj_set. simpl. rewrite Hh1.
    apply map_eq. intros i. destruct (decide (i = n)) as [->|Hne].
    - rewrite lookup_alter_eq, !lookup_insert_eq. reflexivity.
    - rewrite lookup_alter_ne, !lookup_insert_ne by congruence. reflexivity. }
  assert (E6 : forall y, y ∈ fabric._objects (canvas s6)
               <-> y ∈ fabric._objects (canvas s1) \/ y = n).
  { intros y. unfold s6. rewrite canvas_on_canvas, elem_sendToBack.
    rewrite canvas_on_canvas, elem_add. simpl. tauto. }
  destruct (createSelectionOverlay_state s6)
    as (Ao & An & Ah & Am & Ai & Ad & Ap & Al & Ael).
  change (nextId s6) with (S n) in Ao, An, Ah, Ael.
  change (darkMaskRects s6) with (darkMaskRects s1) in Am.
  change (frameImage s6) with (Some n) in Ai.
  change (workflowPhase s6) with (workflowPhase s1) in Ap.
  change (lockedBackgroundData s6) with (lockedBackgroundData s1) in Al.
  change (selectionOverlay s6) with (selectionOverlay s1) in Ael.
  set (sA := _createSelectionOverlay s6) in *.
  match type of Ah with _ = <[_ := ?r]> _ => set (ovr := r) in Ah end.
  assert (HovA : heap sA !! S n = Some ovr).
  { rewrite Ah. apply lookup_insert_eq. }
  destruct (createDarkMask_state sA (S n) ovr Ao HovA)
    as (Bd & Bs & _ & _ & Bo & B0 & B1 & B2 & B3); [rewrite An; lia|].
  destruct (createDarkMask_frame sA (S n) ovr Ao HovA)
    as (_ & Bi & _ & Bp & Bl & Bh & Bel).
  rewrite An in Bd, B0, B1, B2, B3, Bh, Bel. fold ids in Bd, Bh, Bel.
  split; [rewrite Bi; exact Ai|].
  split; [exact Bs|].
  split; [exact Bd|].
  split; [rewrite Bp, Ap; exact Hp1|].
  split; [rewrite Bl, Al; exact Hl1|].
  split.
  { exists (fabric.set_filters flt f). split; [|reflexivity].
    rewrite Bh.
    - rewrite Ah, lookup_insert_ne by lia. rewrite Hh6, lookup_insert_eq. reflexivity.
    - unfold ids. rewrite !not_elem_of_cons.
      repeat split; try lia. apply not_elem_of_nil. }
  split; [exists ovr; repeat split; exact Bo|].
  split.
  { intros m Hm. unfold ids in Hm.
    rewrite !elem_of_cons, elem_of_nil in Hm.
    destruct Hm as [->|[->|[->|[->|[]]]]]; eexists; (split; [eassumption|split; reflexivity]). }
  split.
  { intros i Hn Hsn Hi. rewrite Bh by exact Hi.
    rewrite Ah, lookup_insert_ne by congruence.
    rewrite Hh6, lookup_insert_ne by congruence. reflexivity. }
  intros y. rewrite Bel, Ael, E6, E1, Am, Hm1, Ai, Ho1.
  assert (Some n = Some y <-> y = n) as -> by (split; congruence).
  tauto.
Qed.

(** ** Steps that leave the scene alone *)

Lemma scene_resizeCanvas (w h : num) (s : CanvasManager) :
  scene (_resizeCanvas w h s) = scene s.
Proof. unfold _resizeCanvas. destruct (_ && _); reflexivity. Qed.

Lemma scene_applyGradient (s : CanvasManager) :
  scene (_applyGradient s) = scene s.
Proof. reflexivity. Qed.

Lemma scene_setFrame (t : num) (s : CanvasManager) :
  scene (fst (setFrame t s)) = scene s.
Proof.
  unfold setFrame. destruct (videoBase s), (videoPath s); try reflexivity.
  destruct (_ && _); [|reflexivity].
  destruct (negb _); reflexivity.
Qed.

Lemma resizeCanvas_fields (w h : num) (s : CanvasManager) :
  let s' := _resizeCanvas w h s in
  backgroundMode s' = backgroundMode s /\ videoBase s' = videoBase s
  /\ videoPath s' = videoPath s /\ currentTimestamp s' = currentTimestamp s
  /\ workflowPhase s' = workflowPhase s.
Proof. unfold _resizeCanvas. destruct (_ && _); repeat split. Qed.

(** The state after [resetToBackgroundPhase] in the elements phase. *)
Lemma resetToBackgroundPhase_state (s : CanvasManager) :
  workflowPhase s = elements ->
  let s1 := fst (resetToBackgroundPhase s) in
  workflowPhase s1 = background
  /\ lockedBackgroundData s1 = None
  /\ frameImage s1 = None
  /\ heap s1 = heap s /\ nextId s1 = nextId s
  /\ selectionOverlay s1 = selectionOverlay s
  /\ darkMaskRects s1 = darkMaskRects s
  /\ (forall y, y ∈ fabric._objects (canvas s1)
        <-> y ∈ fabric._objects (canvas s) /\ is_element s y = false
            /\ frameImage s <> Some y).
Proof.
  intros Hp s1. unfold s1, resetToBackgroundPhase. rewrite Hp.
  set (rm := List.filter (is_element s) (fabric._objects (canvas s))).
  set (sa := canvas_forEach fabric.remove rm s).
  assert (Ha : sa = set_canvas (canvas sa) s) by apply canvas_forEach_only.
  assert (Ea : forall y, y ∈ fabric._objects (canvas sa)
               <-> y ∈ fabric._objects (canvas s) /\ is_element s y = false).
  { intros y. unfold sa. rewrite elem_forEach_remove. unfold rm.
    assert (F : y ∈ List.filter (is_element s) (fabric._objects (canvas s))
                <-> y ∈ fabric._objects (canvas s) /\ is_element s y = true).
    { rewrite !list_elem_of_In, filter_In. tauto. }
    rewrite F. destruct (is_element s y); intuition congruence. }
  destruct (only_canvas_fields s sa Ha) as (Hh & Hn & Ho & Hm & Hi & _).
  set (sb := match frameImage sa with Some f => _ | None => sa end).
  assert (Eb : scene sb
               = (heap s, nextId s,
                  match frameImage s with
                  | Some f => fabric.removeFromArray f (fabric._objects (canvas sa))
                  | None => fabric._objects (canvas sa)
                  end,
                  fabric._activeObject (canvas sb), None,
                  selectionOverlay s, darkMaskRects s, frameDisplayInfo sb)).
  { unfold sb, scene. rewrite Hi. destruct (frameImage s) as [f|] eqn:Ef.
    - simpl. rewrite objects_remove, Hh, Hn, Ho, Hm. reflexivity.
    - rewrite Hh, Hn, Ho, Hm, Hi. reflexivity. }
  set (sc := on_canvas (fabric.setBackgroundColor (fabric.Color "#1a1a2e")) sb).
  match goal with
  | |- context [let '(s4, req) := ?b in _] => set (br := b)
  end.
  assert (E4 : scene (fst br)
               = (heap s, nextId s,
                  match frameImage s with
                  | Some f => fabric.removeFromArray f (fabric._objects (canvas sa))
                  | None => fabric._objects (canvas sa)
                  end,
                  fabric._activeObject (canvas sb), None,
                  selectionOverlay s, darkMaskRects s, frameDisplayInfo sb)).
  { rewrite <- Eb. unfold br.
    destruct (String.eqb (backgroundMode sc) "image").
    - destruct (_ && _).
      + rewrite scene_setFrame, scene_resizeCanvas. reflexivity.
      + simpl fst. rewrite scene_resizeCanvas. reflexivity.
    - destruct (String.eqb (backgroundMode sc) "color").
      + simpl fst. change (scene (on_canvas ?f ?x)) with (scene x).
        rewrite scene_resizeCanvas. reflexivity.
      + destruct (String.eqb (backgroundMode sc) "gradient").
        * simpl fst. rewrite scene_applyGradient, scene_resizeCanvas. reflexivity.
        * reflexivity. }
  destruct br as [s4 req]. simpl fst in *.
  unfold scene in E4. injection E4 as E41 E42 E43 _ E45 E46 E47 _.
  simpl.
  split; [reflexivity|]. split; [reflexivity|].
  split; [exact E45|]. split; [exact E41|]. split; [exact E42|].
  split; [exact E46|]. split; [exact E47|].
  intros y. rewrite E43. destruct (frameImage s) as [f|].
  - rewrite elem_removeFromArray, Ea.
    split; intros H; repeat split; try tauto; intros Heq; [|subst]; intuition congruence.
  - rewrite Ea. split; [intros [A B]; repeat split; auto; discriminate|tauto].
Qed.

Lemma heapBounded_iff (s : CanvasManager) :
  heapBounded s <-> forall i, is_Some (heap s !! i) -> (i < nextId s)%nat.
Proof.
  unfold heapBounded, map_Forall. split.
  - intros H i [o Ho]. exact (H i o Ho).
  - intros H i o Ho. apply H. eauto.
Qed.

(** The frame request of [resetToBackgroundPhase]. *)
Lemma resetToBackgroundPhase_request (s : CanvasManager) :
  workflowPhase s = elements ->
  (backgroundMode s <> "image" -> snd (resetToBackgroundPhase s) = None)
  /\ (forall base path,
        backgroundMode s = "image" ->
        videoBase s = Some base -> videoPath s = Some path ->
        base <> "" -> path <> "" ->
        snd (resetToBackgroundPhase s)
        = Some {| reqBase := base; reqPath := path;
                  reqTimestamp := currentTimestamp s |}).
Proof.
  intros Hp. unfold resetToBackgroundPhase. rewrite Hp.
  set (sa := canvas_forEach fabric.remove _ s).
  assert (Ha : sa = set_canvas (canvas sa) s) by apply canvas_forEach_only.
  set (sb := match frameImage sa with Some f => _ | None => sa end).
  set (sc := on_canvas (fabric.setBackgroundColor (fabric.Color "#1a1a2e")) sb).
  assert (Hc : backgroundMode sc = backgroundMode s /\ videoBase sc = videoBase s
               /\ videoPath sc = videoPath s
               /\ currentTimestamp sc = currentTimestamp s).
  { unfold sc, sb. destruct (frameImage sa); simpl; rewrite Ha; repeat split. }
  destruct Hc as (Hm & Hb & Hv & Ht).
  split.
  - intros Hne. apply String.eqb_neq in Hne. rewrite Hm, Hne.
    destruct (String.eqb (backgroundMode s) "color"); [reflexivity|].
    destruct (String.eqb (backgroundMode s) "gradient"); reflexivity.
  - intros base path Himg Hbase Hpath Hb0 Hp0.
    rewrite Hm, Himg. simpl String.eqb. cbv iota.
    destruct (resizeCanvas_fields imageModeWidth imageModeHeight sc)
      as (Rm & Rb & Rv & Rt & _).
    cbv zeta in Rm, Rb, Rv, Rt.
    unfold setFrame. rewrite Rb, Rv, Rt, Hb, Hv, Ht, Hbase, Hpath.
    apply String.eqb_neq in Hb0, Hp0. unfold truthy_str. rewrite Hb0, Hp0.
    simpl negb. simpl andb. cbv iota.
    change (backgroundMode (set_currentTimestamp ?t ?x)) with (backgroundMode x).
    rewrite Rm, Hm, Himg. reflexivity.
Qed.


(** ** The marks of the overlay and of the mask are invariant *)

Lemma wellMarked_same (s s' : CanvasManager) :
  heap s' = heap s -> nextId s' = nextId s ->
  selectionOverlay s' = selectionOverlay s ->
  darkMaskRects s' = darkMaskRects s ->
  wellMarked s -> wellMarked s'.
Proof.
  unfold wellMarked, heapBounded, overlayMarked, masksMarked.
  intros -> -> -> ->. tauto.
Qed.

Lemma wellMarked_scene (s s' : CanvasManager) : scene s' = scene s -> wellMarked s -> wellMarked s'.
Proof.
  unfold scene. intros H. injection H as H1 H2 _ _ _ H6 H7 _.
  apply wellMarked_same; assumption.
Qed.

Lemma wellMarked_only_canvas (s s' : CanvasManager) :
  s' = set_canvas (canvas s') s -> wellMarked s -> wellMarked s'.
Proof.
  intros H. destruct (only_canvas_fields s s' H) as (H1 & H2 & H3 & H4 & _).
  apply wellMarked_same; assumption.
Qed.

Lemma wellMarked_on_canvas f (s : CanvasManager) : wellMarked s -> wellMarked (on_canvas f s).
Proof. apply wellMarked_same; reflexivity. Qed.

Lemma wellMarked_canvas_forEach m ids (s : CanvasManager) :
  wellMarked s -> wellMarked (canvas_forEach m ids s).
Proof. apply wellMarked_only_canvas, canvas_forEach_only. Qed.

Lemma wellMarked_reorderObjects (s :
  CanvasManager) : wellMarked s -> wellMarked (_reorderObjects s).
Proof. apply wellMarked_only_canvas, reorderObjects_only. Qed.

Lemma wellMarked_obj_set (i : nat) f (s : CanvasManager) :
  keepsMarks f -> wellMarked s -> wellMarked (obj_set i f s).
Proof.
  intros Hf (Hb & Ho & Hm). rewrite heapBounded_iff in Hb.
  unfold obj_set. split; [|split].
  - apply (proj2 (heapBounded_iff _)).
    intros j Hj. simpl in Hj. apply lookup_alter_is_Some in Hj. apply Hb, Hj.
  - intros ov Hov. simpl in Hov. destruct (Ho ov Hov) as (x & E & F1 & F2). simpl.
    destruct (decide (i = ov)) as [->|Hne].
    + exists (f x). rewrite lookup_alter_eq, E. split; [reflexivity|].
      rewrite (proj1 (Hf x)), (proj2 (Hf x)). auto.
    + exists x. rewrite lookup_alter_ne by exact Hne. auto.
  - intros m Hin. simpl in Hin. destruct (Hm m Hin) as (x & E & F). simpl.
    destruct (decide (i = m)) as [->|Hne].
    + exists (f x). rewrite lookup_alter_eq, E. split; [reflexivity|].
      rewrite (proj2 (Hf x)). exact F.
    + exists x. rewrite lookup_alter_ne by exact Hne. auto.
Qed.

Lemma wellMarked_no_overlay (s : CanvasManager) :
  wellMarked s -> wellMarked (set_selectionOverlay None s).
Proof.
  intros (Hb & Ho & Hm). split; [exact Hb|]. split; [|exact Hm].
  intros ov Hov. discriminate.
Qed.

Lemma wellMarked_no_masks (s : CanvasManager) : wellMarked s -> wellMarked (set_darkMaskRects [] s).
Proof.
  intros (Hb & Ho & Hm). split; [exact Hb|]. split; [exact Ho|].
  intros m Hin. simpl in Hin. apply elem_of_nil in Hin. contradiction.
Qed.

Lemma wellMarked_alloc (o : fabric.Object) (s : CanvasManager) :
  wellMarked s -> wellMarked (snd (alloc o s)).
Proof.
  intros (Hb & Ho & Hm). rewrite heapBounded_iff in Hb.
  unfold alloc. simpl snd. split; [|split].
  - apply (proj2 (heapBounded_iff _)).
    intros j Hj. simpl in Hj |- *. apply lookup_insert_is_Some in Hj.
    destruct Hj as [<-|[_ Hj]]; [lia|]. apply Hb in Hj. lia.
  - intros ov Hov. simpl in Hov. destruct (Ho ov Hov) as (o' & E & F).
    exists o'. split; [|exact F]. simpl. rewrite lookup_insert_ne; [exact E|].
    assert (ov < nextId s)%nat by (apply Hb; eauto). lia.
  - intros m Hin. simpl in Hin. destruct (Hm m Hin) as (o' & E & F).
    exists o'. split; [|exact F]. simpl. rewrite lookup_insert_ne; [exact E|].
    assert (m < nextId s)%nat by (apply Hb; eauto). lia.
Qed.

Lemma wellMarked_clearDarkMask (s : CanvasManager) : wellMarked s -> wellMarked (clearDarkMask s).
Proof. intros H. apply wellMarked_no_masks, wellMarked_canvas_forEach, H. Qed.

Lemma wellMarked_constrainOverlay (s :
  CanvasManager) : wellMarked s -> wellMarked (_constrainOverlay s).
Proof.
  intros H. unfold _constrainOverlay.
  destruct (selectionOverlay s) as [ov|]; [|exact H].
  destruct (frameDisplayInfo s); [|exact H].
  destruct (heap s !! ov); [|exact H].
  apply wellMarked_obj_set; [|exact H]. intros ?. split; reflexivity.
Qed.

Lemma wellMarked_updateDarkMask (s :
  CanvasManager) : wellMarked s -> wellMarked (_updateDarkMask s).
Proof.
  intros H. unfold _updateDarkMask.
  destruct (selectionOverlay s) as [ov|]; [|exact H].
  destruct (darkMaskRects s) as [|a [|b [|c [|d [|]]]]]; try exact H.
  destruct (heap s !! ov); [|exact H].
  repeat (apply wellMarked_obj_set; [intros ?; split; reflexivity|]). exact H.
Qed.

Lemma wellMarked_applyBlurFilter (s :
  CanvasManager) : wellMarked s -> wellMarked (_applyBlurFilter s).
Proof.
  intros H. unfold _applyBlurFilter.
  destruct (frameImage s); [|exact H].
  destruct (blurAmount s > 0)%js;
    (apply wellMarked_obj_set; [intros ?; split; reflexivity|exact H]).
Qed.

Lemma wellMarked_createSelectionOverlay (s : CanvasManager) :
  wellMarked s -> wellMarked (_createSelectionOverlay s).
Proof.
  intros (Hb & Ho & Hm). rewrite heapBounded_iff in Hb.
  destruct (createSelectionOverlay_state s)
    as (Eo & En & Eh & Em & _).
  split; [|split].
  - apply (proj2 (heapBounded_iff _)).
    intros j Hj. rewrite Eh in Hj. rewrite En. apply lookup_insert_is_Some in Hj.
    destruct Hj as [<-|[_ Hj]]; [lia|]. apply Hb in Hj. lia.
  - intros ov Hov. rewrite Eo in Hov. injection Hov as <-.
    eexists. rewrite Eh, lookup_insert_eq. split; [|split]; reflexivity.
  - intros m Hin. rewrite Em in Hin. destruct (Hm m Hin) as (o' & E & F).
    exists o'. split; [|exact F]. rewrite Eh, lookup_insert_ne; [exact E|].
    assert (m < nextId s)%nat by (apply Hb; eauto). lia.
Qed.

Lemma wellMarked_createDarkMask (s :
  CanvasManager) : wellMarked s -> wellMarked (_createDarkMask s).
Proof.
  intros H. pose proof H as (Hb & Ho & Hm). rewrite heapBounded_iff in Hb.
  destruct (selectionOverlay s) as [ov|] eqn:Eov.
  - destruct (Ho ov Eov) as (o & E & F).
    assert (Hlt : (ov < nextId s)%nat) by (apply Hb; eauto).
    destruct (createDarkMask_state s ov o Eov E Hlt)
      as (Sd & Ss & _ & _ & So & S0 & S1 & S2 & S3).
    destruct (createDarkMask_frame s ov o Eov E) as (Fn & _ & _ & _ & _ & Fh & _).
    cbv zeta in Sd, Ss, So, S0, S1, S2, S3, Fn, Fh.
    set (n := nextId s) in *.
    split; [|split].
    + apply (proj2 (heapBounded_iff _)). intros j Hj. rewrite Fn.
      destruct (decide (j ∈ [n; S n; S (S n); S (S (S n))])) as [Hin|Hnin].
      * rewrite !elem_of_cons, elem_of_nil in Hin. lia.
      * rewrite Fh in Hj by exact Hnin. apply Hb in Hj. fold n in Hj. lia.
    + intros ov' Hov'. rewrite Ss in Hov'. injection Hov' as <-.
      exists o. auto.
    + intros m Hin. rewrite Sd in Hin.
      rewrite !elem_of_cons, elem_of_nil in Hin.
      destruct Hin as [->|[->|[->|[->|[]]]]]; eexists; (split; [eassumption|reflexivity]).
  - assert (E : _createDarkMask s = clearDarkMask s).
    { unfold _createDarkMask.
      destruct (clearDarkMask_fields s) as (_ & _ & -> & _). rewrite Eov. reflexivity. }
    rewrite E. apply wellMarked_clearDarkMask, H.
Qed.

Lemma wellMarked_resizeCanvas (w h : num) (s : CanvasManager) :
  wellMarked s -> wellMarked (_resizeCanvas w h s).
Proof. apply wellMarked_scene, scene_resizeCanvas. Qed.

Lemma wellMarked_setFrame (t :
  num) (s : CanvasManager) : wellMarked s -> wellMarked (fst (setFrame t s)).
Proof. apply wellMarked_scene, scene_setFrame. Qed.

Ltac marked_step :=
  match goal with
  | H : wellMarked ?s |- wellMarked ?s => exact H
  | |- wellMarked (let (_, _) := alloc ?o ?s in _) =>
      let H := fresh "Ha" in
      assert (H : wellMarked (snd (alloc o s)));
      [apply wellMarked_alloc | destruct (alloc o s); simpl snd in H]
  | |- wellMarked (fst (setFrame _ _)) => apply wellMarked_setFrame
  | |- wellMarked (fst (_, _)) => simpl fst
  | |- wellMarked (fst (if ?x then _ else _)) => destruct x eqn:?
  | |- wellMarked (fst (match ?x with _ => _ end)) => destruct x eqn:?
  | |- wellMarked (on_canvas _ _) => apply wellMarked_on_canvas
  | |- wellMarked (obj_set _ _ _) => apply wellMarked_obj_set; [intros ?; split; reflexivity|]
  | |- wellMarked (canvas_forEach _ _ _) => apply wellMarked_canvas_forEach
  | |- wellMarked (_reorderObjects _) => apply wellMarked_reorderObjects
  | |- wellMarked (clearDarkMask _) => apply wellMarked_clearDarkMask
  | |- wellMarked (_createDarkMask _) => apply wellMarked_createDarkMask
  | |- wellMarked (_createSelectionOverlay _) => apply wellMarked_createSelectionOverlay
  | |- wellMarked (_constrainOverlay _) => apply wellMarked_constrainOverlay
  | |- wellMarked (_updateDarkMask _) => apply wellMarked_updateDarkMask
  | |- wellMarked (_applyBlurFilter _) => apply wellMarked_applyBlurFilter
  | |- wellMarked (_resizeCanvas _ _ _) => apply wellMarked_resizeCanvas
  | |- wellMarked (_applyGradient _) => apply wellMarked_on_canvas
  | |- wellMarked (set_selectionOverlay None _) => apply wellMarked_no_overlay
  | |- wellMarked (set_darkMaskRects [] _) => apply wellMarked_no_masks
  | |- wellMarked (match ?x with _ => _ end) => destruct x eqn:?
  | |- wellMarked (if ?x then _ else _) => destruct x eqn:?
  | |- wellMarked (?f ?v ?s) => apply (wellMarked_same s); [reflexivity..|]
  end.

Lemma wellMarked_setFrame_onload (w h : num) (el : bool) (s : CanvasManager) :
  wellMarked s -> wellMarked (setFrame_onload w h el s).
Proof. intros H. unfold setFrame_onload. repeat marked_step. Qed.

Lemma wellMarked_updateBackground (s : CanvasManager) :
  wellMarked s -> wellMarked (fst (_updateBackground s)).
Proof. intros H. unfold _updateBackground. repeat marked_step. Qed.

Lemma wellMarked_step (s s' : CanvasManager) : step s s' -> wellMarked s -> wellMarked s'.
Proof.
  intros Hs H. destruct Hs.
  - unfold setVideo. repeat marked_step.
  - repeat marked_step.
  - apply wellMarked_setFrame_onload, H.
  - unfold moveOverlay. repeat marked_step.
  - unfold setZoom. repeat marked_step.
  - unfold resetOverlayPosition. repeat marked_step.
  - unfold confirmBackground, _setImageBackground. repeat marked_step.
  - destruct (workflowPhase s) eqn:Hp.
    + unfold resetToBackgroundPhase. rewrite Hp. exact H.
    + destruct (resetToBackgroundPhase_state s Hp)
        as (_ & _ & _ & Eh & En & Eo & Em & _).
      apply (wellMarked_same s); assumption.
  - unfold setBlur. repeat marked_step.
  - unfold setBackgroundMode. apply wellMarked_updateBackground. repeat marked_step.
  - unfold setBackgroundColor.
    destruct (String.eqb _ _); [apply wellMarked_updateBackground|]; repeat marked_step.
  - unfold setGradientColors.
    destruct (String.eqb _ _); [apply wellMarked_updateBackground|]; repeat marked_step.
  - unfold setGradientDirection.
    destruct (String.eqb _ _); [apply wellMarked_updateBackground|]; repeat marked_step.
  - unfold addText. repeat marked_step.
  - unfold addLine. repeat marked_step.
  - unfold deleteSelected, getActiveObject. repeat marked_step.
  - repeat marked_step.
  - apply wellMarked_obj_set; assumption.
Qed.

Lemma wellMarked_constructor : wellMarked constructor.
Proof.
  split; [|split].
  - apply (proj2 (heapBounded_iff _)).
    intros i Hi. simpl in Hi. rewrite lookup_empty in Hi. destruct Hi; discriminate.
  - intros ov Hov. discriminate.
  - intros m Hin. simpl in Hin. apply elem_of_nil in Hin. contradiction.
Qed.

(** In every state of the editor the overlay and the mask rectangles
    are allocated and marked. *)
Lemma reachable_wellMarked (s : CanvasManager) : reachable s -> wellMarked s.
Proof.
  unfold reachable. revert s.
  apply (rtc_ind_r (fun z => wellMarked z) constructor); [apply wellMarked_constructor|].
  intros y z _ Hyz Hy. exact (wellMarked_step y z Hyz Hy).
Qed.

(** In every state of the editor the overlay is allocated and is not
    one of the rectangles of the mask. *)
Lemma reachable_overlay (s : CanvasManager) (ov : nat) :
  reachable s -> selectionOverlay s = Some ov ->
  (ov < nextId s)%nat /\ ov ∉ darkMaskRects s.
Proof.
  intros Hr Hov. destruct (reachable_wellMarked s Hr) as (Hb & Ho & Hm).
  destruct (Ho ov Hov) as (o & E & _ & F). split.
  - exact (Hb ov o E).
  - intros Hin. destruct (Hm ov Hin) as (o' & E' & F'). congruence.
Qed.

(** ** Sample states are states of the editor *)

Lemma reachable_frame1920x1080 : reachable frame1920x1080.
Proof.
  unfold reachable, frame1920x1080.
  eapply rtc_r; [|apply step_onload].
  unfold withVideo. eapply rtc_r; [|apply step_setVideo].
  apply rtc_refl.
Qed.

Lemma reachable_withElements : reachable withElements.
Proof.
  unfold reachable, withElements.
  eapply rtc_r; [|apply step_addLine].
  eapply rtc_r; [|apply step_addText].
  unfold confirmed. eapply rtc_r; [|apply step_confirm].
  apply reachable_frame1920x1080.
Qed.

Lemma reachable_overlaySelected : reachable overlaySelected.
Proof.
  unfold reachable, overlaySelected.
  eapply rtc_r; [apply reachable_frame1920x1080|].
  apply step_select. rewrite list_elem_of_In. vm_compute. lia.
Qed.


(** ** Deleting the selected object *)

(** C10: in every state of the editor, [deleteSelected] changes nothing
    when the active object is the frame image, the overlay or a
    rectangle of the mask; when it changes something, it removes the
    active object from the canvas, and that object is none of these. *)
Theorem deleteSelected_protects (s : CanvasManager) (a : nat) :
  reachable s ->
  getActiveObject s = Some a ->
  (frameImage s = Some a \/ selectionOverlay s = Some a \/ a ∈ darkMaskRects s ->
   deleteSelected s = s)
  /\ (deleteSelected s = s
      \/ (deleteSelected s = on_canvas (fabric.remove a) s
          /\ frameImage s <> Some a /\ selectionOverlay s <> Some a
          /\ a ∉ darkMaskRects s)).
Proof.
  intros Hr Ha. destruct (reachable_wellMarked s Hr) as (_ & Ho & Hm).
  unfold deleteSelected. rewrite Ha.
  destruct (heap s !! a) as [obj|] eqn:E.
  2:{ split; [reflexivity|left; reflexivity]. }
  assert (Hf : is_not_frame s a = true <-> frameImage s <> Some a).
  { unfold is_not_frame. destruct (frameImage s) as [f|].
    - rewrite negb_true_iff, Nat.eqb_neq. split; congruence.
    - split; [discriminate|reflexivity]. }
  assert (Hov : selectionOverlay s = Some a -> fabric.isOverlay obj = true).
  { intros H. destruct (Ho a H) as (o' & E' & F & _). congruence. }
  assert (Hmk : a ∈ darkMaskRects s -> fabric.isMask obj = true).
  { intros H. destruct (Hm a H) as (o' & E' & F). congruence. }
  destruct (is_not_frame s a) eqn:G1; simpl.
  2:{ split; [reflexivity|left; reflexivity]. }
  destruct (fabric.isOverlay obj) eqn:G2; simpl.
  1:{ split; [reflexivity|left; reflexivity]. }
  destruct (fabric.isMask obj) eqn:G3; simpl.
  1:{ split; [reflexivity|left; reflexivity]. }
  split.
  - intros [H|[H|H]].
    + exfalso. apply (proj1 Hf); [reflexivity|exact H].
    + apply Hov in H. discriminate.
    + apply Hmk in H. discriminate.
  - right. split; [reflexivity|]. split; [apply Hf; reflexivity|].
    split; [intros H; apply Hov in H; discriminate|].
    intros H; apply Hmk in H; discriminate.
Qed.

(** With the overlay selected, nothing is deleted. *)
Lemma deleteSelected_protects_witness :
  deleteSelected overlaySelected = overlaySelected.
Proof.
  apply (deleteSelected_protects overlaySelected 1%nat).
  - apply reachable_overlaySelected.
  - vm_compute. reflexivity.
  - right. left. vm_compute. reflexivity.
Defined.

(** ** Export *)

Lemma div_num_eq_l (a a' : Q) (c : num) :
  a == a' -> (Fin a / c)%js ≈ (Fin a' / c)%js.
Proof.
  intros H. destruct c as [| |q|]; simpl; auto; try reflexivity.
  destruct (Qeq_bool q 0).
  - rewrite H. apply num_eq_refl.
  - simpl. rewrite H. reflexivity.
Qed.

Lemma split_nonempty (c : ascii) (str : string) : split c str <> [].
Proof.
  destruct str as [|a rest]; simpl; [discriminate|].
  destruct (Ascii.eqb a c); [discriminate|].
  destruct (split c rest); discriminate.
Qed.

(** The running maximum of the loop over the lines of a text. *)
Lemma fold_max_widest (f : string -> num) (l : list string) (a : Q) :
  (forall line, line ∈ l -> exists q, f line = Fin q /\ 0 <= q) ->
  exists m,
    fold_left (fun m line => Math_max m (f line)) l (Fin a) = Fin m
    /\ a <= m
    /\ (forall line, line ∈ l -> exists q, f line = Fin q /\ q <= m)
    /\ (m == a \/ exists line, line ∈ l /\ f line ≈ Fin m).
Proof.
  revert a. induction l as [|x l IH]; intros a Hl; simpl.
  - exists a. split; [reflexivity|]. split; [lra|].
    split; [intros line H; apply elem_of_nil in H; contradiction|].
    left. reflexivity.
  - destruct (Hl x) as (qx & Ex & Hx); [left|].
    rewrite Ex. destruct (Math_max_Fin a qx) as (c & -> & Hc).
    destruct (IH c) as (m & Em & Hcm & Hall & Hex).
    { intros line Hin. apply Hl. right. exact Hin. }
    assert (Ha : a <= c) by (rewrite Hc; apply Q.le_max_l).
    assert (Hq : qx <= c) by (rewrite Hc; apply Q.le_max_r).
    exists m. split; [exact Em|]. split; [lra|]. split.
    + intros line Hin. apply elem_of_cons in Hin as [->|Hin].
      * exists qx. split; [exact Ex|lra].
      * apply Hall, Hin.
    + destruct Hex as [Hmc|(line & Hin & Hline)].
      * destruct (Q.max_spec a qx) as [[_ E]|[_ E]].
        -- right. exists x. split; [left|]. rewrite Ex. simpl. lra.
        -- left. lra.
      * right. exists line. split; [right; exact Hin|exact Hline].
Qed.

Section ExporterProperties.

Variable getBoundingRect : fabric.Object -> Rect.t.
Variable calcLinePoints : fabric.Object -> LinePoints.
Variable calcTransformMatrix : fabric.Object -> fabric.Matrix.
Variable measureText : string -> string -> num -> string -> string -> num.

Local Abbreviation exportPoster :=
  (exportPosterData getBoundingRect calcLinePoints calcTransformMatrix measureText).
Local Abbreviation textEntry := (exportText getBoundingRect measureText).
Local Abbreviation lineEntry := (exportLine calcLinePoints calcTransformMatrix).

(** The loop of [exportPosterData] pushes one entry for each text and
    each line it does not skip, in the order of the canvas. *)
Lemma export_loop (s : CanvasManager) (ref : Rect.t) (l : list nat) ts ls :
  fold_left
    (exportObject getBoundingRect calcLinePoints calcTransformMatrix measureText s ref)
    l (ts, ls)
  = (ts ++ map (textEntry ref) (List.filter is_text (omap (exported s) l)),
     ls ++ map (lineEntry ref) (List.filter is_line (omap (exported s) l))).
Proof.
  revert ts ls. induction l as [|i l IH]; intros ts ls.
  - simpl. rewrite !app_nil_r. reflexivity.
  - set (stepf := exportObject getBoundingRect calcLinePoints calcTransformMatrix
                    measureText s ref).
    change (fold_left stepf (i :: l) (ts, ls))
      with (fold_left stepf l (stepf (ts, ls) i)).
    change (omap (exported s) (i :: l))
      with (match exported s i with
            | Some y => y :: omap (exported s) l
            | None => omap (exported s) l
            end).
    unfold stepf at 2, exportObject, exported.
    destruct (heap s !! i) as [obj|]; [|apply IH].
    destruct (skipped s i obj); [apply IH|].
    cbn [fst snd List.filter]. unfold is_text at 1, is_line at 1.
    destruct (fabric.type obj); cbn [fabric.ObjType_eqb orb];
      unfold stepf; rewrite IH; cbn [map];
      rewrite <- ?app_assoc; reflexivity.
Qed.

Lemma referenceRect_elements (s : CanvasManager) :
  workflowPhase s = elements -> lockedBackgroundData s <> None ->
  referenceRect s
  = {| Rect.left := 0; Rect.top := 0;
       Rect.width := canvasWidth s; Rect.height := canvasHeight s |}.
Proof.
  intros Hp Hl. unfold referenceRect. rewrite Hp.
  destruct (lockedBackgroundData s); [reflexivity|contradiction].
Qed.


(** C8: the exported texts are the texts of the canvas that are neither
    frame, overlay nor mask, in order; the left coordinate of each is
    the left edge of its bounding box for a text aligned to the left,
    moved right by half the difference between the width of the box and
    the width of the widest line for a centred text and by the whole
    difference for a text aligned to the right, relative to the
    reference rectangle and divided by its width; the measured width is
    the greatest width of a line.  In the elements phase a text aligned
    to the right in a box of width 300 at left 60, with a widest line of
    180, is exported at left (60 + 300 - 180) / w for a canvas of
    width w. *)
Theorem exportedText_left (s : CanvasManager) :
  let ref := referenceRect s in
  let measured := maxLineWidth measureText in
  PosterData.textLayers (exportPoster s) = map (textEntry ref) (exportedTexts s)
  /\ (forall obj,
        let boxLeft := Rect.left (getBoundingRect obj) in
        let boxWidth := (fabric.width obj * JS.or_num (fabric.scaleX obj) 1)%js in
        (fabric.textAlign obj = "left" ->
         TextLayer.left (textEntry ref obj)
         = ((boxLeft - Rect.left ref) / Rect.width ref)%js)
        /\ (fabric.textAlign obj = "center" \/ fabric.textAlign obj = "" ->
            TextLayer.left (textEntry ref obj)
            = ((boxLeft + (boxWidth - measured obj) / 2 - Rect.left ref)
               / Rect.width ref)%js)
        /\ (fabric.textAlign obj = "right" ->
            TextLayer.left (textEntry ref obj)
            = ((boxLeft + boxWidth - measured obj - Rect.left ref)
               / Rect.width ref)%js)
        /\ TextLayer.width (textEntry ref obj)
           = (measured obj / Rect.width ref)%js)
  /\ (forall obj,
        let measure :=
          measureText (JS.or_str (fabric.fontStyle obj) "normal")
            (JS.or_str (fabric.fontWeight obj) "normal")
            (fabric.fontSize obj * JS.or_num (fabric.scaleY obj) 1)%js
            (JS.or_str (fabric.fontFamily obj) "Arial") in
        let lines := split newline (fabric.text obj) in
        (forall line, line ∈ lines -> exists q, measure line = Fin q /\ 0 <= q) ->
        exists m,
          measured obj = Fin m
          /\ (forall line, line ∈ lines -> exists q, measure line = Fin q /\ q <= m)
          /\ (exists line, line ∈ lines /\ measure line ≈ Fin m))
  /\ (forall obj,
        workflowPhase s = elements -> lockedBackgroundData s <> None ->
        fabric.textAlign obj = "right" ->
        fabric.width obj = 300 -> fabric.scaleX obj = 1 ->
        measured obj = 180 ->
        Rect.left (getBoundingRect obj) = 60 ->
        TextLayer.left (textEntry ref obj)
        ≈ (Fin (60 + 300 - 180) / canvasWidth s)%js).
Proof.
  intros ref measured. split; [|split; [|split]].
  - unfold exportPosterData. simpl PosterData.textLayers.
    rewrite export_loop. reflexivity.
  - intros obj boxLeft boxWidth. unfold exportText, textLeft.
    simpl TextLayer.left. simpl TextLayer.width.
    split; [|split; [|split]].
    + intros ->. reflexivity.
    + intros [-> | ->]; reflexivity.
    + intros ->. reflexivity.
    + reflexivity.
  - intros obj measure lines Hall.
    destruct (fold_max_widest measure lines 0 Hall) as (m & Em & H0 & Hle & Hex).
    exists m. split; [exact Em|]. split; [exact Hle|].
    destruct Hex as [Hm0|Hex]; [|exact Hex].
    destruct lines as [|x l] eqn:El; [exfalso; eapply split_nonempty; exact El|].
    exists x. split; [left|].
    destruct (Hle x) as (q & Eq & Hq); [left|].
    destruct (Hall x) as (q' & Eq' & Hq'); [left|].
    rewrite Eq. simpl. rewrite Eq in Eq'. injection Eq' as <-. lra.
  - intros obj Hp Hl Ha Hw Hsx Hm Hb. unfold ref.
    rewrite (referenceRect_elements s Hp Hl).
    unfold exportText, textLeft. simpl TextLayer.left.
    fold measured. rewrite Ha, Hw, Hsx, Hm, Hb.
    change (JS.or_str "right" "center") with "right".
    change (JS.or_num (Fin 1) (Fin 1)) with (Fin 1).
    cbn [String.eqb Ascii.eqb Bool.eqb Rect.left Rect.width
         JS.mul JS.add JS.sub JS.neg].
    apply div_num_eq_l. ring.
Qed.

End ExporterProperties.



(** The text of the scenario on the confirmed background, a canvas of
    width 400. *)
Lemma exportedText_left_witness :
  exists obj,
    heap rightAligned !! 7%nat = Some obj
    /\ TextLayer.left
         (exportText scenarioBoundingRect scenarioMeasure
            (referenceRect rightAligned) obj) ≈ (60 + 300 - 180) / 400.
Proof.
  eexists. split; [vm_compute; reflexivity|].
  destruct (exportedText_left scenarioBoundingRect scenarioLinePoints
              scenarioMatrix scenarioMeasure rightAligned) as (_ & _ & _ & H).
  eapply num_eq_trans.
  - apply H; try (vm_compute; reflexivity). vm_compute. discriminate.
  - vm_compute. reflexivity.
Defined.

(** ** The displayed frame *)

Lemma Qdiv_lt_cross (a b c d : Q) :
  0 < b -> 0 < d -> (a / b < c / d <-> a * d < c * b).
Proof.
  intros Hb Hd.
  assert (E1 : a / b * (b * d) == a * d) by (field; lra).
  assert (E2 : c / d * (b * d) == c * b) by (field; lra).
  assert (Hbd : 0 < b * d) by nra.
  split; intros H.
  - rewrite <- E1, <- E2. apply Qmult_lt_compat_r; assumption.
  - rewrite <- E1, <- E2 in H. apply Qmult_lt_r in H; assumption.
Qed.

(** The frame of [w] x [h] pixels fitted into a canvas of [cw] x [ch]:
    it keeps its aspect ratio, fills the canvas in one direction and
    does not exceed it in the other, and is centred. *)
Lemma fitFrame_fits (w h cw ch : Q) :
  0 < w -> 0 < h -> 0 < cw -> 0 < ch ->
  exists dw dh,
    displayWidth (fitFrame w h cw ch) = Fin dw
    /\ displayHeight (fitFrame w h cw ch) = Fin dh
    /\ 0 < dw <= cw /\ 0 < dh <= ch
    /\ (dw == cw \/ dh == ch)
    /\ dw * h == dh * w
    /\ displayLeft (fitFrame w h cw ch) ≈ Fin ((cw - dw) / 2)
    /\ displayTop (fitFrame w h cw ch) ≈ Fin ((ch - dh) / 2)
    /\ scale (fitFrame w h cw ch) ≈ Fin (dw / w)
    /\ scale (fitFrame w h cw ch) ≈ Fin (dh / h).
Proof.
  intros Hw Hh Hcw Hch. unfold fitFrame.
  rewrite (div_Fin w h), (div_Fin cw ch) by lra. cbv zeta.
  assert (Hwh : 0 < w / h) by (apply Qlt_shift_div_l; lra).
  assert (Hnz : ~ w / h == 0).
  { intros C. rewrite C in Hwh. apply (Qlt_irrefl 0), Hwh. }
  destruct (Fin (w / h) > Fin (cw / ch))%js eqn:E.
  - apply gt_Fin in E. apply (proj1 (Qdiv_lt_cross cw ch w h Hch Hh)) in E.
    cbn [displayWidth displayHeight displayLeft displayTop scale].
    rewrite (div_Fin cw (w / h)) by exact Hnz. rewrite (div_Fin cw w) by lra.
    assert (Ed : cw / (w / h) == cw * h / w) by (field; lra).
    exists cw, (cw / (w / h)).
    split; [reflexivity|]. split; [reflexivity|].
    split; [lra|]. split.
    { rewrite Ed. split.
      - apply Qlt_shift_div_l; nra.
      - apply Qle_shift_div_r; nra. }
    split; [left; reflexivity|].
    split; [rewrite Ed; field; lra|].
    simpl. repeat split; try (field; lra).
  - apply gt_Fin_false in E.
    assert (E' : ~ cw * h < w * ch).
    { intros C. apply (proj2 (Qdiv_lt_cross cw ch w h Hch Hh)) in C. lra. }
    cbn [displayWidth displayHeight displayLeft displayTop scale].
    change (Fin ch * Fin (w / h))%js with (Fin (ch * (w / h))).
    rewrite (div_Fin (ch * (w / h)) w) by lra.
    assert (Ed : ch * (w / h) == ch * w / h) by (field; lra).
    exists (ch * (w / h)), ch.
    split; [reflexivity|]. split; [reflexivity|].
    split.
    { rewrite Ed. split.
      - apply Qlt_shift_div_l; nra.
      - apply Qle_shift_div_r; nra. }
    split; [lra|].
    split; [right; reflexivity|].
    split; [rewrite Ed; field; lra|].
    simpl. repeat split; try (field; lra).
Qed.

(** ** Steps that leave the settings alone *)

Lemma keepsSize_add x : keepsSize (fabric.add x).
Proof. intros c. split; reflexivity. Qed.

Lemma keepsSize_remove x : keepsSize (fabric.remove x).
Proof. intros c. unfold fabric.remove. destruct (fabric.mem _ _); split; reflexivity. Qed.

Lemma keepsSize_sendToBack x : keepsSize (fabric.sendToBack x).
Proof. intros c. split; reflexivity. Qed.

Lemma keepsSize_bringToFront x : keepsSize (fabric.bringToFront x).
Proof. intros c. split; reflexivity. Qed.

Lemma keepsSize_setActiveObject x : keepsSize (fabric.setActiveObject x).
Proof. intros c. split; reflexivity. Qed.

Lemma keepsSize_setBackgroundColor bg : keepsSize (fabric.setBackgroundColor bg).
Proof. intros c. split; reflexivity. Qed.

Create HintDb settings.

#[local] Hint Resolve keepsSize_add keepsSize_remove keepsSize_sendToBack
  keepsSize_bringToFront keepsSize_setActiveObject keepsSize_setBackgroundColor
  : settings.

Lemma settings_fields (s s' : CanvasManager) :
  settings s' = settings s ->
  workflowPhase s' = workflowPhase s
  /\ lockedBackgroundData s' = lockedBackgroundData s
  /\ canvasSize s' = canvasSize s
  /\ canvasWidth s' = canvasWidth s /\ canvasHeight s' = canvasHeight s
  /\ overlayZoom s' = overlayZoom s
  /\ blurAmount s' = blurAmount s
  /\ backgroundMode s' = backgroundMode s.
Proof.
  unfold settings, canvasSize. intros H.
  repeat match goal with
  | H : (_, _) = (_, _) |- _ => apply pair_equal_spec in H; destruct H
  end.
  repeat split; congruence.
Qed.

Lemma settings_on_canvas f (s : CanvasManager) :
  keepsSize f -> settings (on_canvas f s) = settings s.
Proof.
  intros Hf. unfold settings, canvasSize. simpl.
  destruct (Hf (canvas s)) as [-> ->]. reflexivity.
Qed.

Lemma settings_canvas_forEach m (ids : list nat) (s : CanvasManager) :
  (forall i, keepsSize (m i)) ->
  settings (canvas_forEach m ids s) = settings s.
Proof.
  intros Hm. unfold canvas_forEach. revert s.
  induction ids as [|i ids IH]; intros s; simpl; [reflexivity|].
  rewrite IH. apply settings_on_canvas, Hm.
Qed.

Lemma settings_reorderObjects (s : CanvasManager) :
  settings (_reorderObjects s) = settings s.
Proof.
  unfold _reorderObjects.
  set (s1 := match frameImage s with Some f => _ | None => s end).
  assert (H1 : settings s1 = settings s).
  { unfold s1. destruct (frameImage s); [|reflexivity].
    apply settings_on_canvas; auto with settings. }
  set (s2 := canvas_forEach fabric.bringToFront (darkMaskRects s1) s1).
  assert (H2 : settings s2 = settings s).
  { unfold s2. rewrite settings_canvas_forEach; auto with settings. }
  set (s3 := match selectionOverlay s2 with Some ov => _ | None => s2 end).
  assert (H3 : settings s3 = settings s).
  { unfold s3. destruct (selectionOverlay s2); [|exact H2].
    rewrite settings_on_canvas; auto with settings. }
  generalize (fabric._objects (canvas s3)). intros l.
  revert H3. generalize s3. clear.
  induction l as [|i l IH]; intros s3 H3; simpl; [exact H3|].
  apply IH. destruct (is_front_kind s3 i); [|exact H3].
  rewrite settings_on_canvas; auto with settings.
Qed.

Lemma settings_clearDarkMask (s : CanvasManager) :
  settings (clearDarkMask s) = settings s.
Proof.
  unfold clearDarkMask.
  change (settings (set_darkMaskRects ?v ?x)) with (settings x).
  apply settings_canvas_forEach. auto with settings.
Qed.

Lemma settings_constrainOverlay (s : CanvasManager) :
  settings (_constrainOverlay s) = settings s.
Proof. unfold _constrainOverlay. repeat case_match; reflexivity. Qed.

Lemma settings_updateDarkMask (s : CanvasManager) :
  settings (_updateDarkMask s) = settings s.
Proof. unfold _updateDarkMask. repeat case_match; reflexivity. Qed.

Lemma settings_applyBlurFilter (s : CanvasManager) :
  settings (_applyBlurFilter s) = settings s.
Proof. unfold _applyBlurFilter. repeat case_match; reflexivity. Qed.

Lemma settings_createSelectionOverlay (s : CanvasManager) :
  settings (_createSelectionOverlay s) = settings s.
Proof.
  unfold _createSelectionOverlay, alloc.
  destruct (selectionOverlay s) as [old|]; cbv zeta iota beta.
  - rewrite settings_on_canvas by auto with settings.
    change (settings (set_selectionOverlay ?v (set_nextId ?n (set_heap ?h ?x))))
      with (settings x).
    apply settings_on_canvas. auto with settings.
  - rewrite settings_on_canvas by auto with settings. reflexivity.
Qed.

Lemma settings_fold_markAndAdd (ids : list nat) (s : CanvasManager) :
  settings (fold_left markAndAdd ids s) = settings s.
Proof.
  revert s. induction ids as [|i ids IH]; intros s; simpl; [reflexivity|].
  rewrite IH. unfold markAndAdd.
  rewrite settings_on_canvas by auto with settings. reflexivity.
Qed.

Lemma settings_createDarkMask (s : CanvasManager) :
  settings (_createDarkMask s) = settings s.
Proof.
  unfold _createDarkMask.
  destruct (selectionOverlay (clearDarkMask s)) as [ov|];
    [|apply settings_clearDarkMask].
  destruct (heap (clearDarkMask s) !! ov) as [o|];
    [|apply settings_clearDarkMask].
  unfold alloc. cbv zeta iota beta.
  rewrite settings_reorderObjects, settings_fold_markAndAdd.
  rewrite <- (settings_clearDarkMask s). reflexivity.
Qed.

Lemma settings_setFrame_onload (w h : num) (el : bool) (s : CanvasManager) :
  settings (setFrame_onload w h el s) = settings s.
Proof.
  unfold setFrame_onload.
  set (s1 := match frameImage s with Some old => _ | None => s end).
  assert (H1 : settings s1 = settings s).
  { unfold s1. destruct (frameImage s); [|reflexivity].
    apply settings_on_canvas; auto with settings. }
  unfold alloc. cbv zeta iota beta.
  rewrite settings_createDarkMask, settings_createSelectionOverlay.
  rewrite !settings_on_canvas by auto with settings.
  rewrite settings_applyBlurFilter. exact H1.
Qed.

Lemma settings_moveOverlay (l t : num) (s : CanvasManager) :
  settings (moveOverlay l t s) = settings s.
Proof.
  unfold moveOverlay. destruct (selectionOverlay s); [|reflexivity].
  rewrite settings_updateDarkMask, settings_constrainOverlay. reflexivity.
Qed.

Lemma settings_resetOverlayPosition (s : CanvasManager) :
  settings (resetOverlayPosition s) = settings s.
Proof.
  unfold resetOverlayPosition. repeat case_match; try reflexivity.
  rewrite settings_updateDarkMask, settings_constrainOverlay. reflexivity.
Qed.

Lemma settings_addText (text : string) (bh : num) (s : CanvasManager) :
  settings (addText text bh s) = settings s.
Proof.
  unfold addText, alloc. cbv zeta iota beta.
  rewrite settings_reorderObjects.
  rewrite !settings_on_canvas by auto with settings. reflexivity.
Qed.

Lemma settings_addLine (s : CanvasManager) : settings (addLine s) = settings s.
Proof.
  unfold addLine, alloc. cbv zeta iota beta.
  rewrite settings_reorderObjects.
  rewrite !settings_on_canvas by auto with settings. reflexivity.
Qed.

Lemma settings_deleteSelected (s : CanvasManager) :
  settings (deleteSelected s) = settings s.
Proof.
  unfold deleteSelected. repeat case_match; try reflexivity.
  apply settings_on_canvas. auto with settings.
Qed.

(** The frame image, the overlay and the display metrics after the
    callback of [setFrame]. *)
Lemma setFrame_onload_objects (w h : num) (el : bool) (s : CanvasManager) :
  let n := nextId s in
  let s2 := setFrame_onload w h el s in
  let info := fitFrame w h (canvasWidth s) (canvasHeight s) in
  let oh := (baseOverlayHeight * overlayZoom s)%js in
  let ow := (oh * (2 / 3))%js in
  frameDisplayInfo s2 = Some info
  /\ heap s2 !! n
     = Some (fabric.set_filters
               (if (blurAmount s > 0)%js then [(blurAmount s / 50)%js] else [])
               (frameObject w h el (scale info)
                  (canvasWidth s / 2)%js (canvasHeight s / 2)%js))
  /\ heap s2 !! S n
     = Some (overlayRect ((canvasWidth s - ow) / 2)%js
               ((canvasHeight s - oh) / 2)%js ow oh).
Proof.
  intros n s2 info oh ow. unfold s2, setFrame_onload.
  set (s1 := match frameImage s with Some old => _ | None => s end).
  assert (H1 : s1 = set_canvas (canvas s1) s).
  { unfold s1. destruct (frameImage s); [reflexivity|by destruct s]. }
  assert (F1 : canvasWidth s1 = canvasWidth s /\ canvasHeight s1 = canvasHeight s
               /\ nextId s1 = nextId s /\ heap s1 = heap s
               /\ blurAmount s1 = blurAmount s /\ overlayZoom s1 = overlayZoom s).
  { rewrite H1. repeat split. }
  destruct F1 as (Fw & Fh & Fn & Fhp & Fb & Fz).
  unfold alloc. cbv beta iota zeta. rewrite Fn, Fw, Fh. fold n. fold info.
  match goal with
  | |- context [_applyBlurFilter ?x] => set (s4 := x)
  end.
  set (f := frameObject w h el _ _ _) in s4.
  set (flt := if (blurAmount s > 0)%js then [(blurAmount s / 50)%js] else []).
  assert (E5 : _applyBlurFilter s4 = obj_set n (fabric.set_filters flt) s4).
  { unfold _applyBlurFilter. change (frameImage s4) with (Some n).
    change (blurAmount s4) with (blurAmount s1). rewrite Fb. unfold flt.
    destruct (blurAmount s > 0)%js; reflexivity. }
  rewrite E5.
  set (s6 := on_canvas (fabric.sendToBack n) _).
  assert (Hh6 : heap s6 = <[n := fabric.set_filters flt f]> (heap s)).
  { unfold s6, s4, obj_set. simpl. rewrite Fhp.
    apply map_eq. intros i. destruct (decide (i = n)) as [->|Hne].
    - rewrite lookup_alter_eq, !lookup_insert_eq. reflexivity.
    - rewrite lookup_alter_ne, !lookup_insert_ne by congruence. reflexivity. }
  destruct (createSelectionOverlay_state s6)
    as (Ao & An & Ah & _ & _ & Ad & _).
  change (nextId s6) with (S n) in Ao, An, Ah.
  change (frameDisplayInfo s6) with (Some info) in Ad.
  change (canvasWidth s6) with (canvasWidth s1) in Ah.
  change (canvasHeight s6) with (canvasHeight s1) in Ah.
  change (overlayZoom s6) with (overlayZoom s1) in Ah.
  rewrite Fw, Fh, Fz in Ah. fold oh ow in Ah.
  set (sA := _createSelectionOverlay s6) in *.
  match type of Ah with _ = <[_ := ?r]> _ => set (ovr := r) in Ah end.
  assert (HovA : heap sA !! S n = Some ovr).
  { rewrite Ah. apply lookup_insert_eq. }
  destruct (createDarkMask_frame sA (S n) ovr Ao HovA)
    as (_ & _ & Bd & _ & _ & Bh & _).
  rewrite An in Bh.
  split; [rewrite Bd; exact Ad|].
  split.
  - rewrite Bh.
    + rewrite Ah, lookup_insert_ne by lia. rewrite Hh6, lookup_insert_eq. reflexivity.
    + rewrite !not_elem_of_cons. repeat split; try lia. apply not_elem_of_nil.
  - rewrite Bh; [exact HovA|].
    rewrite !not_elem_of_cons. repeat split; try lia. apply not_elem_of_nil.
Qed.



Lemma settings_setZoom (z : num) (s : CanvasManager) :
  settings (setZoom z s)
  = settings (set_overlayZoom (Math_max 0.5 (Math_min 1.5 (z / 100)%js)) s).
Proof.
  unfold setZoom. set (s0 := set_overlayZoom _ s).
  destruct (selectionOverlay s0); [|reflexivity].
  destruct (frameDisplayInfo s0); [|reflexivity].
  destruct (heap s0 !! n); [|reflexivity].
  rewrite settings_updateDarkMask, settings_constrainOverlay. reflexivity.
Qed.

(** X2: the zoom is kept for the frames that arrive later: whatever the
    state, after [setZoom(z)] for a number [z] the overlay that the
    callback of [setFrame] builds is marked as overlay, is
    [baseOverlayHeight] times the clamped zoom high and two thirds of
    that wide, and is centred on the canvas. *)
Theorem setZoom_next_frame (s : CanvasManager) (z w h : num) (el : bool) (cw ch : Q) :
  z <> NaN ->
  canvasWidth s = Fin cw -> canvasHeight s = Fin ch ->
  let s' := setFrame_onload w h el (setZoom z s) in
  let oh := 400 * clampedZoom z in
  let ow := oh * (2 / 3) in
  exists ov o,
    selectionOverlay s' = Some ov /\ heap s' !! ov = Some o
    /\ fabric.isOverlay o = true
    /\ rect_eq (geometry o) (rectQ ((cw - ow) / 2) ((ch - oh) / 2) ow oh).
Proof.
  intros Hz Ecw Ech s' oh ow.
  pose proof (settings_setZoom z s) as Hs.
  destruct (zoom_clamped z Hz) as (c & Ec & Hc & Hc1 & Hc2).
  rewrite Ec in Hs.
  apply settings_fields in Hs as (_ & _ & _ & Hw & Hh & Hzoom & _).
  simpl in Hw, Hh, Hzoom.
  destruct (setFrame_onload_objects w h el (setZoom z s)) as (_ & _ & Ho).
  destruct (setFrame_onload_state w h el (setZoom z s)) as (_ & Hov & _).
  fold s' in Ho, Hov. rewrite Hw, Hh, Hzoom, Ecw, Ech in Ho.
  exists (S (nextId (setZoom z s))). eexists.
  split; [exact Hov|]. split; [exact Ho|].
  split; [reflexivity|].
  unfold rect_eq, geometry, overlayRect, rectQ, baseOverlayHeight, oh, ow.
  cbn [Rect.left Rect.top Rect.width Rect.height fabric.left fabric.top
       fabric.width fabric.height].
  change (Fin 400 * Fin c)%js with (Fin (400 * c)).
  rewrite (div_Fin 2 3) by lra.
  change (Fin (400 * c) * Fin (2 / 3))%js with (Fin (400 * c * (2 / 3))).
  change (Fin cw - Fin ?x)%js with (Fin (cw + - x)).
  change (Fin ch - Fin ?x)%js with (Fin (ch + - x)).
  rewrite !div_Fin by lra. simpl. rewrite Hc.
  repeat split; try reflexivity; field.
Qed.

(** At 120 percent, set before the first frame arrives, the overlay of
    that frame is 320 x 480 at (240, 10). *)
Lemma setZoom_next_frame_witness :
  exists ov o,
    selectionOverlay (setFrame_onload 1920 1080 true (setZoom 120 withVideo)) = Some ov
    /\ heap (setFrame_onload 1920 1080 true (setZoom 120 withVideo)) !! ov = Some o
    /\ rect_eq (geometry o) (rectQ 240 10 320 480).
Proof.
  destruct (setZoom_next_frame withVideo 120 1920 1080 true 800 500)
    as (ov & o & Hov & Ho & _ & Hg); try reflexivity; [discriminate|].
  exists ov, o. split; [exact Hov|]. split; [exact Ho|].
  destruct Hg as (Hl & Ht & Hw & Hh).
  repeat split; (eapply num_eq_trans; [eassumption|vm_compute; reflexivity]).
Defined.

(** X3: the blur is kept for the frames that arrive later, and it is
    applied to the frame on the canvas only in image mode: after
    [setBlur(a)] the frame image has one blur filter of strength
    [a / 50] when [a] is positive and no filter otherwise; so has the
    image of the next frame; and the picture captured at confirmation
    is blurred with radius [a / 2] or not at all. *)
Theorem setBlur_filters (s : CanvasManager) (a : num) :
  let flt := if (a > 0)%js then [(a / 50)%js] else [] in
  blurAmount (setBlur a s) = a
  /\ (forall f o,
        frameImage s = Some f -> heap s !! f = Some o ->
        heap (setBlur a s) !! f
        = Some (if String.eqb (backgroundMode s) "image"
                then fabric.set_filters flt o else o))
  /\ (forall w h el,
        exists img o,
          frameImage (setFrame_onload w h el (setBlur a s)) = Some img
          /\ heap (setFrame_onload w h el (setBlur a s)) !! img = Some o
          /\ fabric.filters o = flt)
  /\ (forall c,
        _captureSelectionAsImage (setBlur a s) = Some c ->
        blurRadius c = if (a > 0)%js then Some (a / 2)%js else None).
Proof.
  intros flt.
  assert (Hb : blurAmount (setBlur a s) = a).
  { unfold setBlur. cbv zeta.
    change (backgroundMode (set_blurAmount a s)) with (backgroundMode s).
    destruct (String.eqb (backgroundMode s) "image"); [|reflexivity].
    pose proof (settings_applyBlurFilter (set_blurAmount a s)) as H.
    apply settings_fields in H as (_ & _ & _ & _ & _ & _ & H & _). exact H. }
  split; [exact Hb|]. split; [|split].
  - intros f o Hf Ho. unfold setBlur. cbv zeta.
    change (backgroundMode (set_blurAmount a s)) with (backgroundMode s).
    destruct (String.eqb (backgroundMode s) "image"); [|exact Ho].
    unfold _applyBlurFilter.
    change (frameImage (set_blurAmount a s)) with (frameImage s).
    change (blurAmount (set_blurAmount a s)) with a.
    rewrite Hf. unfold flt.
    destruct (a > 0)%js; rewrite lookup_obj_set_eq;
      change (heap (set_blurAmount a s)) with (heap s); rewrite Ho; reflexivity.
  - intros w h el.
    destruct (setFrame_onload_objects w h el (setBlur a s)) as (_ & Hf & _).
    destruct (setFrame_onload_state w h el (setBlur a s)) as (Himg & _).
    rewrite Hb in Hf. eexists _, _.
    split; [exact Himg|]. split; [exact Hf|]. reflexivity.
  - intros c Hc. unfold _captureSelectionAsImage in Hc. rewrite Hb in Hc.
    destruct (frameImage (setBlur a s)) as [f|]; [|discriminate].
    destruct (selectionOverlay (setBlur a s)) as [ov|]; [|discriminate].
    destruct (frameDisplayInfo (setBlur a s)) as [frame|]; [|discriminate].
    destruct (heap (setBlur a s) !! f) as [img|]; [|discriminate].
    destruct (heap (setBlur a s) !! ov) as [overlay|]; [|discriminate].
    destruct (negb (fabric._element img)); [discriminate|].
    injection Hc as <-. reflexivity.
Qed.

(** ** The mask of an overlay that leaves the canvas *)

Lemma Math_max_floor (q : Q) :
  exists c, Math_max 0 (Fin q) = Fin c /\ c == Qmax 0 q /\ 0 <= c.
Proof.
  destruct (Math_max_Fin 0 q) as (c & E & Hc).
  exists c. split; [exact E|]. split; [exact Hc|].
  rewrite Hc. apply Q.le_max_l.
Qed.

(** X4: [_updateDarkMask] never gives a rectangle of the mask a
    negative size in the direction it computes: for an overlay of any
    finite geometry, also one that sticks out of the canvas, the height
    of the top and bottom rectangles and the width of the left and right
    rectangles are the distances to the edges of the canvas, floored at
    zero; the rectangles follow the overlay, which is left as it is. *)
Theorem updateDarkMask_floors (s : CanvasManager) (ov a b c d : nat)
  (o : fabric.Object) (l t w h cw ch : Q) :
  selectionOverlay s = Some ov ->
  heap s !! ov = Some o ->
  geometry o = rectQ l t w h ->
  darkMaskRects s = [a; b; c; d] ->
  NoDup [ov; a; b; c; d] ->
  (forall m, m ∈ [a; b; c; d] -> is_Some (heap s !! m)) ->
  canvasWidth s = Fin cw -> canvasHeight s = Fin ch ->
  let s' := _updateDarkMask s in
  exists oa ob oc od,
    heap s' !! ov = Some o
    /\ heap s' !! a = Some oa /\ heap s' !! b = Some ob
    /\ heap s' !! c = Some oc /\ heap s' !! d = Some od
    /\ fabric.height oa ≈ Fin (Qmax 0 t)
    /\ fabric.top ob ≈ Fin (t + h)
    /\ fabric.height ob ≈ Fin (Qmax 0 (ch - (t + h)))
    /\ fabric.top oc ≈ Fin t /\ fabric.width oc ≈ Fin (Qmax 0 l)
    /\ fabric.height oc ≈ Fin h
    /\ fabric.left od ≈ Fin (l + w) /\ fabric.top od ≈ Fin t
    /\ fabric.width od ≈ Fin (Qmax 0 (cw - (l + w)))
    /\ fabric.height od ≈ Fin h
    /\ (0 <= fabric.height oa)%js = true /\ (0 <= fabric.height ob)%js = true
    /\ (0 <= fabric.width oc)%js = true /\ (0 <= fabric.width od)%js = true.
Proof.
  intros Hov Ho Hg Hd Hnd Hin Hcw Hch s'.
  injection Hg as Hl Ht Hw Hh.
  apply NoDup_cons in Hnd as (Hov' & Hnd).
  apply NoDup_cons in Hnd as (Ha & Hnd).
  apply NoDup_cons in Hnd as (Hb & Hnd).
  apply NoDup_cons in Hnd as (Hc & _).
  rewrite !not_elem_of_cons in Hov'. rewrite !not_elem_of_cons in Ha.
  rewrite !not_elem_of_cons in Hb. rewrite !not_elem_of_cons in Hc.
  destruct Hov' as (Ea & Eb & Ec & Ed & _).
  destruct Ha as (Eab & Eac & Ead & _).
  destruct Hb as (Ebc & Ebd & _). destruct Hc as (Ecd & _).
  destruct (Hin a) as (ra & Ra); [set_solver|].
  destruct (Hin b) as (rb & Rb); [set_solver|].
  destruct (Hin c) as (rc & Rc); [set_solver|].
  destruct (Hin d) as (rd & Rd); [set_solver|].
  destruct (Math_max_floor t) as (ft & Eft & Hft & Pft).
  destruct (Math_max_floor (ch - (t + h))) as (fb & Efb & Hfb & Pfb).
  destruct (Math_max_floor l) as (fl & Efl & Hfl & Pfl).
  destruct (Math_max_floor (cw - (l + w))) as (fr & Efr & Hfr & Pfr).
  unfold s', _updateDarkMask. rewrite Hov, Hd, Ho, Hl, Ht, Hw, Hh, Hcw, Hch.
  change (Fin t + Fin h)%js with (Fin (t + h)).
  change (Fin l + Fin w)%js with (Fin (l + w)).
  change (Fin ch - Fin (t + h))%js with (Fin (ch - (t + h))).
  change (Fin cw - Fin (l + w))%js with (Fin (cw - (l + w))).
  rewrite Eft, Efb, Efl, Efr.
  eexists _, _, _, _.
  split.
  { rewrite !lookup_obj_set_ne by congruence. exact Ho. }
  split.
  { rewrite !lookup_obj_set_ne by congruence.
    rewrite lookup_obj_set_eq, Ra. reflexivity. }
  split.
  { rewrite !lookup_obj_set_ne by congruence.
    rewrite lookup_obj_set_eq, lookup_obj_set_ne, Rb by congruence. reflexivity. }
  split.
  { rewrite !lookup_obj_set_ne by congruence.
    rewrite lookup_obj_set_eq, !lookup_obj_set_ne, Rc by congruence. reflexivity. }
  split.
  { rewrite lookup_obj_set_eq, !lookup_obj_set_ne, Rd by congruence. reflexivity. }
  cbn [fabric.left fabric.top fabric.width fabric.height
       fabric.set_left fabric.set_top fabric.set_width fabric.set_height fmap
       option_fmap option_map].
  repeat split; try apply num_eq_refl; try assumption;
    apply le_Fin; assumption.
Qed.

(** At 150 percent the overlay of the 1920 x 1080 frame is 600 high on a
    canvas of 500: it starts 125 above the canvas, and the top rectangle
    of the mask has height 0. *)
Lemma updateDarkMask_floors_witness :
  exists o oa,
    heap (setZoom 150 frame1920x1080) !! 1%nat = Some o
    /\ fabric.top o ≈ Fin (-125)
    /\ heap (_updateDarkMask (setZoom 150 frame1920x1080)) !! 2%nat = Some oa
    /\ fabric.height oa ≈ Fin 0.
Proof.
  edestruct (updateDarkMask_floors (setZoom 150 frame1920x1080) 1 2 3 4 5)
    as (oa & ob & oc & od & Ho & Ha & _ & _ & _ & Hh & _).
  1-4: vm_compute; reflexivity.
  { apply (bool_decide_unpack _). vm_compute. exact I. }
  { intros m Hm. rewrite !elem_of_cons, elem_of_nil in Hm.
    destruct Hm as [->|[->|[->|[->|[]]]]]; vm_compute; eauto. }
  1-2: vm_compute; reflexivity.
  eexists _, oa. split; [vm_compute; reflexivity|].
  split; [vm_compute; reflexivity|]. split; [exact Ha|].
  eapply num_eq_trans; [exact Hh|]. vm_compute. reflexivity.
Defined.

(** ** Putting the overlay back *)

Lemma Qhalf (x : Q) : x / 2 == x * (1 # 2).
Proof. field. Qed.



(** ** The handlers of a drag *)

Ltac js_compare :=
  repeat match goal with
  | H : (Fin _ < Fin _)%js = true |- _ => apply lt_Fin in H
  | H : (Fin _ < Fin _)%js = false |- _ => apply lt_Fin_false in H
  | H : (Fin _ > Fin _)%js = true |- _ => apply gt_Fin in H
  | H : (Fin _ > Fin _)%js = false |- _ => apply gt_Fin_false in H
  end.

Ltac js_branches :=
  repeat (cbn [JS.add JS.sub JS.neg];
          match goal with
          | |- context [(Fin ?a < Fin ?b)%js] => destruct (Fin a < Fin b)%js eqn:?
          | |- context [(Fin ?a > Fin ?b)%js] => destruct (Fin a > Fin b)%js eqn:?
          end).

(** The position that [_constrainOverlay] gives is one it leaves as it
    is. *)
Lemma constrainedLeft_fixed (o : fabric.Object) (frame : FrameDisplayInfo)
  (t : num) (l w dl dw : Q) :
  fabric.left o = Fin l -> fabric.width o = Fin w ->
  displayLeft frame = Fin dl -> displayWidth frame = Fin dw ->
  constrainedLeft (fabric.set_top t (fabric.set_left (constrainedLeft o frame) o)) frame
  = constrainedLeft o frame.
Proof.
  intros Hl Hw Hdl Hdw. unfold constrainedLeft.
  cbn [fabric.left fabric.width fabric.set_top fabric.set_left].
  rewrite Hl, Hw, Hdl, Hdw.
  js_branches; try reflexivity; exfalso; js_compare; lra.
Qed.

Lemma constrainedTop_fixed (o : fabric.Object) (frame : FrameDisplayInfo)
  (l : num) (t h dt dh : Q) :
  fabric.top o = Fin t -> fabric.height o = Fin h ->
  displayTop frame = Fin dt -> displayHeight frame = Fin dh ->
  constrainedTop (fabric.set_top (constrainedTop o frame) (fabric.set_left l o)) frame
  = constrainedTop o frame.
Proof.
  intros Ht Hh Hdt Hdh. unfold constrainedTop.
  cbn [fabric.top fabric.height fabric.set_top fabric.set_left].
  rewrite Ht, Hh, Hdt, Hdh.
  js_branches; try reflexivity; exfalso; js_compare; lra.
Qed.

Ltac alter_lookups :=
  repeat first [rewrite lookup_alter_eq | rewrite lookup_alter_ne by congruence].

Lemma set_heap_same (s : CanvasManager) : set_heap (heap s) s = s.
Proof. destruct s; reflexivity. Qed.

Lemma heap_set_heap h (s : CanvasManager) : heap (set_heap h s) = h.
Proof. reflexivity. Qed.

Lemma set_heap_twice a b (s : CanvasManager) : set_heap a (set_heap b s) = set_heap a s.
Proof. reflexivity. Qed.

(** A second [_updateDarkMask] changes nothing. *)
Lemma updateDarkMask_idempotent (s : CanvasManager) :
  (forall ov, selectionOverlay s = Some ov -> NoDup (ov :: darkMaskRects s)) ->
  _updateDarkMask (_updateDarkMask s) = _updateDarkMask s.
Proof.
  intros Hnd. unfold _updateDarkMask at 2 3.
  destruct (selectionOverlay s) as [ov|] eqn:Hov.
  2:{ unfold _updateDarkMask. rewrite Hov. reflexivity. }
  destruct (darkMaskRects s) as [|a [|b [|c [|d [|]]]]] eqn:Hd;
    try (unfold _updateDarkMask; rewrite Hov, Hd; reflexivity).
  destruct (heap s !! ov) as [o|] eqn:Ho.
  2:{ unfold _updateDarkMask. rewrite Hov, Hd, Ho. reflexivity. }
  specialize (Hnd ov eq_refl).
  apply NoDup_cons in Hnd as (Hov' & Hnd).
  apply NoDup_cons in Hnd as (Ha & Hnd).
  apply NoDup_cons in Hnd as (Hb & Hnd).
  apply NoDup_cons in Hnd as (Hc & _).
  rewrite !not_elem_of_cons in Hov'. rewrite !not_elem_of_cons in Ha.
  rewrite !not_elem_of_cons in Hb. rewrite !not_elem_of_cons in Hc.
  destruct Hov' as (Ea & Eb & Ec & Ed & _).
  destruct Ha as (Eab & Eac & Ead & _).
  destruct Hb as (Ebc & Ebd & _). destruct Hc as (Ecd & _).
  match goal with
  | |- _updateDarkMask ?x = _ => set (s2 := x)
  end.
  assert (Ho2 : heap s2 !! ov = Some o).
  { unfold s2. rewrite !lookup_obj_set_ne by congruence. exact Ho. }
  unfold _updateDarkMask.
  change (selectionOverlay s2) with (selectionOverlay s).
  change (darkMaskRects s2) with (darkMaskRects s).
  change (canvasHeight s2) with (canvasHeight s).
  change (canvasWidth s2) with (canvasWidth s).
  rewrite Hov, Hd, Ho2.
  transitivity (set_heap (heap s2) s2); [|apply set_heap_same].
  unfold obj_set at 1 2 3 4. rewrite !set_heap_twice, !heap_set_heap. f_equal.
  apply map_eq. intros i. unfold s2, obj_set. rewrite !heap_set_heap.
  destruct (decide (i = d)) as [->|Nd];
    [alter_lookups; destruct (heap s !! d); reflexivity|].
  destruct (decide (i = c)) as [->|Nc];
    [alter_lookups; destruct (heap s !! c); reflexivity|].
  destruct (decide (i = b)) as [->|Nb];
    [alter_lookups; destruct (heap s !! b); reflexivity|].
  destruct (decide (i = a)) as [->|Na];
    [alter_lookups; destruct (heap s !! a); reflexivity|].
  alter_lookups. reflexivity.
Qed.

Lemma obj_set_fixed (i : nat) f (x : fabric.Object) (s : CanvasManager) :
  heap s !! i = Some x -> f x = x -> obj_set i f s = s.
Proof.
  intros Hx Hf. unfold obj_set.
  transitivity (set_heap (heap s) s); [|apply set_heap_same].
  f_equal. apply map_eq. intros j.
  destruct (decide (j = i)) as [->|Hne].
  - rewrite lookup_alter_eq, Hx. simpl. rewrite Hf. reflexivity.
  - rewrite lookup_alter_ne by congruence. reflexivity.
Qed.

(** A second run of the handler of a drag changes nothing. *)
Lemma onObjectMoving_fixed (s : CanvasManager) (ov : nat)
  (o : fabric.Object) (frame : FrameDisplayInfo) (l t w h dl dt dw dh : Q) :
  selectionOverlay s = Some ov ->
  heap s !! ov = Some o ->
  geometry o = rectQ l t w h ->
  frameDisplayInfo s = Some frame ->
  displayLeft frame = Fin dl -> displayTop frame = Fin dt ->
  displayWidth frame = Fin dw -> displayHeight frame = Fin dh ->
  NoDup (ov :: darkMaskRects s) ->
  onObjectMoving ov (onObjectMoving ov s) = onObjectMoving ov s.
Proof.
  intros Hov Ho Hg Hf Hdl Hdt Hdw Hdh Hnd.
  injection Hg as Hl Ht Hw Hh.
  assert (Hm : ov ∉ darkMaskRects s) by (apply NoDup_cons in Hnd; tauto).
  unfold onObjectMoving at 2 3. rewrite Hov, Nat.eqb_refl.
  set (s1 := _constrainOverlay s).
  destruct (constrainOverlay_frame s) as (C1 & C2 & C3 & _). fold s1 in C1, C2, C3.
  destruct (updateDarkMask_frame s1) as (U1 & U2 & U3 & _).
  set (s2 := _updateDarkMask s1) in *.
  unfold onObjectMoving. rewrite U1, C1, Hov, Nat.eqb_refl.
  set (o1 := fabric.set_top (constrainedTop o frame)
               (fabric.set_left (constrainedLeft o frame) o)).
  assert (H1 : heap s1 !! ov = Some o1).
  { apply (constrainOverlay_lookup s ov o frame); assumption. }
  assert (H2 : heap s2 !! ov = Some o1).
  { unfold s2. rewrite updateDarkMask_other; [exact H1|]. rewrite C3. exact Hm. }
  assert (E : _constrainOverlay s2 = s2).
  { unfold _constrainOverlay. rewrite U1, C1, Hov, U2, C2, Hf, H2.
    apply (obj_set_fixed ov _ o1); [exact H2|].
    assert (EL : constrainedLeft o1 frame = constrainedLeft o frame)
      by (apply (constrainedLeft_fixed o frame _ l w dl dw); assumption).
    assert (ET : constrainedTop o1 frame = constrainedTop o frame)
      by (apply (constrainedTop_fixed o frame _ t h dt dh); assumption).
    rewrite EL, ET. reflexivity. }
  rewrite E. unfold s2. apply updateDarkMask_idempotent.
  intros ov' Hov'. rewrite C1, Hov in Hov'. injection Hov' as <-.
  rewrite C3. exact Hnd.
Qed.



(** ** The captured picture and the crop rectangle *)

Lemma clamp_inside (q : Q) :
  0 <= q <= 1 -> exists c, Math_max 0 (Math_min 1 (Fin q)) = Fin c /\ c == q.
Proof.
  intros [H0 H1]. destruct (clamp_Fin q) as (c & E & Hc & _).
  exists c. split; [exact E|]. rewrite Hc.
  rewrite Q.min_r by exact H1. apply Q.max_r. exact H0.
Qed.

Lemma Qdiv_unit (a b : Q) : 0 <= a -> a <= b -> 0 < b -> 0 <= a / b <= 1.
Proof.
  intros Ha Hab Hb. split.
  - apply Qle_shift_div_l; lra.
  - apply Qle_shift_div_r; lra.
Qed.



(** ** Steps that change the settings *)

Lemma settings_setVideo base path (s : CanvasManager) :
  settings (setVideo base path s) = settings s.
Proof. reflexivity. Qed.

Lemma settings_setFrame (t : num) (s : CanvasManager) :
  settings (fst (setFrame t s)) = settings s.
Proof.
  unfold setFrame. destruct (videoBase s), (videoPath s); try reflexivity.
  destruct (_ && _); [|reflexivity].
  destruct (negb _); reflexivity.
Qed.

Lemma settings_applyGradient (s : CanvasManager) :
  settings (_applyGradient s) = settings s.
Proof. unfold _applyGradient. apply settings_on_canvas. auto with settings. Qed.

Lemma settings_setImageBackground url (s : CanvasManager) :
  settings (_setImageBackground url s) = settings s.
Proof.
  unfold _setImageBackground, alloc. cbv zeta iota beta.
  rewrite !settings_on_canvas by auto with settings. reflexivity.
Qed.

Lemma settings_setBlur (a : num) (s : CanvasManager) :
  settings (setBlur a s) = settings (set_blurAmount a s).
Proof.
  unfold setBlur. cbv zeta.
  destruct (String.eqb _ _); [apply settings_applyBlurFilter|reflexivity].
Qed.

(** [_resizeCanvas] sets the size of the canvas, or finds it set. *)
Lemma settings_resizeCanvas (w h : num) (s : CanvasManager) :
  settings (_resizeCanvas w h s) = settings s
  \/ settings (_resizeCanvas w h s)
     = (workflowPhase s, lockedBackgroundData s, (w, h, w, h), overlayZoom s,
        blurAmount s, backgroundMode s).
Proof.
  unfold _resizeCanvas. destruct (_ && _); [left|right]; reflexivity.
Qed.

Lemma resizeCanvas_size (w h : num) (s : CanvasManager) :
  workflowPhase (_resizeCanvas w h s) = workflowPhase s
  /\ lockedBackgroundData (_resizeCanvas w h s) = lockedBackgroundData s
  /\ overlayZoom (_resizeCanvas w h s) = overlayZoom s
  /\ blurAmount (_resizeCanvas w h s) = blurAmount s
  /\ backgroundMode (_resizeCanvas w h s) = backgroundMode s
  /\ (canvasSize (_resizeCanvas w h s) = canvasSize s
      \/ canvasSize (_resizeCanvas w h s) = (w, h, w, h)).
Proof.
  unfold _resizeCanvas. destruct (_ && _); repeat split; auto.
Qed.

(** What a call of [_updateBackground] changes of the settings: the
    size of the canvas only. *)
Lemma updateBackground_settings (s : CanvasManager) :
  let s' := fst (_updateBackground s) in
  workflowPhase s' = workflowPhase s
  /\ lockedBackgroundData s' = lockedBackgroundData s
  /\ overlayZoom s' = overlayZoom s
  /\ blurAmount s' = blurAmount s
  /\ backgroundMode s' = backgroundMode s
  /\ (canvasSize s' = canvasSize s
      \/ (backgroundMode s = "image" /\ canvasSize s' = imageModeSize)
      \/ (backgroundMode s <> "image" /\ canvasSize s' = posterModeSize)).
Proof.
  intros s'. unfold s', _updateBackground.
  set (s1 := if negb (String.eqb (backgroundMode s) "image") then _ else s).
  assert (H1 : settings s1 = settings s).
  { unfold s1. destruct (negb _); [|reflexivity].
    change (settings (set_frameDisplayInfo ?v ?x)) with (settings x).
    rewrite settings_clearDarkMask.
    destruct (frameImage s) as [f|].
    - set (a := set_frameImage None _).
      assert (Ha : settings a = settings s).
      { unfold a. change (settings (set_frameImage ?v ?x)) with (settings x).
        apply settings_on_canvas. auto with settings. }
      destruct (selectionOverlay a); [|exact Ha].
      change (settings (set_selectionOverlay ?v ?x)) with (settings x).
      rewrite settings_on_canvas by auto with settings. exact Ha.
    - destruct (selectionOverlay s); [|reflexivity].
      change (settings (set_selectionOverlay ?v ?x)) with (settings x).
      apply settings_on_canvas. auto with settings. }
  apply settings_fields in H1 as (F1 & F2 & F3 & _ & _ & F4 & F5 & F6).
  rewrite F6.
  destruct (String.eqb (backgroundMode s) "image") eqn:Em.
  - apply String.eqb_eq in Em.
    destruct (resizeCanvas_size imageModeWidth imageModeHeight s1)
      as (R1 & R2 & R3 & R4 & R5 & R6).
    set (s2 := _resizeCanvas imageModeWidth imageModeHeight s1) in *.
    rewrite R5, F6, Em. cbn [String.eqb Ascii.eqb Bool.eqb].
    set (s3 := on_canvas _ s2).
    assert (H3 : settings (fst (setFrame (currentTimestamp s3) s3)) = settings s2).
    { rewrite settings_setFrame. apply settings_on_canvas. auto with settings. }
    apply settings_fields in H3 as (G1 & G2 & G3 & _ & _ & G4 & G5 & G6).
    rewrite G1, G2, G3, G4, G5, G6, R1, R2, R3, R4, R5, F1, F2, F4, F5, F6.
    repeat split; auto.
    destruct R6 as [R6|R6]; rewrite R6; [left; exact F3|right; left; auto].
  - assert (Hne : backgroundMode s <> "image") by (apply String.eqb_neq; exact Em).
    destruct (resizeCanvas_size posterModeWidth posterModeHeight s1)
      as (R1 & R2 & R3 & R4 & R5 & R6).
    set (s2 := _resizeCanvas posterModeWidth posterModeHeight s1) in *.
    rewrite R5, F6, Em.
    assert (H3 : forall x, settings x = settings s2 ->
                 workflowPhase x = workflowPhase s
                 /\ lockedBackgroundData x = lockedBackgroundData s
                 /\ overlayZoom x = overlayZoom s
                 /\ blurAmount x = blurAmount s
                 /\ backgroundMode x = backgroundMode s
                 /\ (canvasSize x = canvasSize s
                     \/ (backgroundMode s = "image" /\ canvasSize x = imageModeSize)
                     \/ (backgroundMode s <> "image" /\ canvasSize x = posterModeSize))).
    { intros x Hx.
      apply settings_fields in Hx as (G1 & G2 & G3 & _ & _ & G4 & G5 & G6).
      rewrite G1, G2, G3, G4, G5, G6, R1, R2, R3, R4, R5, F1, F2, F4, F5, F6.
      repeat split; auto.
      destruct R6 as [R6|R6]; rewrite R6; [left; exact F3|right; right; auto]. }
    destruct (String.eqb (backgroundMode s) "color").
    + apply H3. apply settings_on_canvas. auto with settings.
    + destruct (String.eqb (backgroundMode s) "gradient").
      * apply H3. apply settings_applyGradient.
      * apply H3. reflexivity.
Qed.

(** What [confirmBackground] changes of the settings in the background
    phase. *)
Lemma confirmBackground_settings (s : CanvasManager) :
  workflowPhase s = background ->
  let s' := confirmBackground s in
  workflowPhase s' = elements
  /\ (exists d,
        lockedBackgroundData s' = Some d
        /\ Locked.mode d = backgroundMode s
        /\ Locked.selectionCoords d = _getSelectionCoords s
        /\ Locked.blur d = blurAmount s
        /\ Locked.backgroundColor d = backgroundColor s
        /\ Locked.gradientColors d = gradientColors s
        /\ Locked.gradientDirection d = gradientDirection s
        /\ Locked.videoBase d = videoBase s
        /\ Locked.videoPath d = videoPath s
        /\ Locked.timestamp d = currentTimestamp s)
  /\ overlayZoom s' = overlayZoom s
  /\ blurAmount s' = blurAmount s
  /\ backgroundMode s' = backgroundMode s
  /\ (canvasSize s' = canvasSize s \/ canvasSize s' = posterModeSize).
Proof.
  intros Hp s'. unfold s', confirmBackground. rewrite Hp. cbv zeta.
  match goal with
  | |- context [set_lockedBackgroundData (Some ?d) s] => set (locked := d)
  end.
  set (s1 := set_lockedBackgroundData (Some locked) s).
  set (s2 := match selectionOverlay s1 with Some ov => _ | None => s1 end).
  assert (H2 : settings s2 = settings s1).
  { unfold s2. destruct (selectionOverlay s1); [|reflexivity].
    change (settings (set_selectionOverlay ?v ?x)) with (settings x).
    apply settings_on_canvas. auto with settings. }
  set (s3 := clearDarkMask s2).
  assert (H3 : settings s3 = settings s1).
  { unfold s3. rewrite settings_clearDarkMask. exact H2. }
  set (s4 := match frameImage s3 with Some f => _ | None => s3 end).
  assert (H4 : settings s4 = settings s1).
  { unfold s4. destruct (frameImage s3); [|exact H3].
    change (settings (set_frameImage ?v ?x)) with (settings x).
    rewrite settings_on_canvas by auto with settings. exact H3. }
  set (s5 := set_frameDisplayInfo None s4).
  assert (H5 : settings s5 = settings s1) by exact H4.
  destruct (resizeCanvas_size posterModeWidth posterModeHeight s5)
    as (R1 & R2 & R3 & R4 & R5 & R6).
  set (s6 := _resizeCanvas posterModeWidth posterModeHeight s5) in *.
  apply settings_fields in H5 as (F1 & F2 & F3 & _ & _ & F4 & F5 & F6).
  match goal with
  | |- context [set_workflowPhase elements ?x] => set (s7 := x)
  end.
  assert (H7 : settings s7 = settings s6).
  { unfold s7. destruct (String.eqb (backgroundMode s6) "image").
    - destruct (if String.eqb (backgroundMode s) "image" then _ else None);
        [apply settings_setImageBackground|reflexivity].
    - destruct (String.eqb (backgroundMode s6) "color");
        [apply settings_on_canvas; auto with settings|].
      destruct (String.eqb (backgroundMode s6) "gradient");
        [apply settings_applyGradient|reflexivity]. }
  apply settings_fields in H7 as (G1 & G2 & G3 & _ & _ & G4 & G5 & G6).
  change (workflowPhase (set_workflowPhase elements s7)) with elements.
  change (lockedBackgroundData (set_workflowPhase elements s7))
    with (lockedBackgroundData s7).
  change (overlayZoom (set_workflowPhase elements s7)) with (overlayZoom s7).
  change (blurAmount (set_workflowPhase elements s7)) with (blurAmount s7).
  change (backgroundMode (set_workflowPhase elements s7)) with (backgroundMode s7).
  change (canvasSize (set_workflowPhase elements s7)) with (canvasSize s7).
  rewrite G2, G3, G4, G5, G6, R2, R3, R4, R5, F2, F4, F5, F6.
  split; [reflexivity|]. split.
  { exists locked. repeat split. }
  repeat split.
  destruct R6 as [R6|R6]; rewrite R6; [left; exact F3|right; reflexivity].
Qed.

(** What [resetToBackgroundPhase] changes of the settings in the
    elements phase. *)
Lemma resetToBackgroundPhase_settings (s : CanvasManager) :
  workflowPhase s = elements ->
  let s' := fst (resetToBackgroundPhase s) in
  workflowPhase s' = background
  /\ lockedBackgroundData s' = None
  /\ overlayZoom s' = overlayZoom s
  /\ blurAmount s' = blurAmount s
  /\ backgroundMode s' = backgroundMode s
  /\ (canvasSize s' = canvasSize s
      \/ canvasSize s' = imageModeSize \/ canvasSize s' = posterModeSize).
Proof.
  intros Hp s'. unfold s', resetToBackgroundPhase. rewrite Hp.
  set (sa := canvas_forEach fabric.remove _ s).
  assert (Ha : settings sa = settings s).
  { unfold sa. apply settings_canvas_forEach. auto with settings. }
  set (sb := match frameImage sa with Some f => _ | None => sa end).
  assert (Hb : settings sb = settings s).
  { unfold sb. destruct (frameImage sa); [|exact Ha].
    change (settings (set_frameImage ?v ?x)) with (settings x).
    rewrite settings_on_canvas by auto with settings. exact Ha. }
  set (sc := on_canvas (fabric.setBackgroundColor (fabric.Color "#1a1a2e")) sb).
  assert (Hc : settings sc = settings s).
  { unfold sc. rewrite settings_on_canvas by auto with settings. exact Hb. }
  apply settings_fields in Hc as (F1 & F2 & F3 & _ & _ & F4 & F5 & F6).
  match goal with
  | |- context [let '(s4, req) := ?b in _] => set (br := b)
  end.
  assert (H4 : overlayZoom (fst br) = overlayZoom s
               /\ blurAmount (fst br) = blurAmount s
               /\ backgroundMode (fst br) = backgroundMode s
               /\ (canvasSize (fst br) = canvasSize s
                   \/ canvasSize (fst br) = imageModeSize
                   \/ canvasSize (fst br) = posterModeSize)).
  { assert (K : forall w h x,
               settings x = settings (_resizeCanvas w h sc) ->
               (w, h, w, h) = imageModeSize \/ (w, h, w, h) = posterModeSize ->
               overlayZoom x = overlayZoom s
               /\ blurAmount x = blurAmount s
               /\ backgroundMode x = backgroundMode s
               /\ (canvasSize x = canvasSize s
                   \/ canvasSize x = imageModeSize
                   \/ canvasSize x = posterModeSize)).
    { intros w h x Hx Hwh.
      destruct (resizeCanvas_size w h sc) as (_ & _ & R3 & R4 & R5 & R6).
      apply settings_fields in Hx as (_ & _ & G3 & _ & _ & G4 & G5 & G6).
      rewrite G3, G4, G5, G6, R3, R4, R5, F4, F5, F6.
      repeat split.
      destruct R6 as [R6|R6]; rewrite R6; [left; exact F3|].
      right. exact Hwh. }
    unfold br. destruct (String.eqb (backgroundMode sc) "image").
    - apply (K imageModeWidth imageModeHeight); [|left; reflexivity].
      destruct (_ && _); [apply settings_setFrame|reflexivity].
    - destruct (String.eqb (backgroundMode sc) "color").
      + apply (K posterModeWidth posterModeHeight); [|right; reflexivity].
        simpl fst. apply settings_on_canvas. auto with settings.
      + destruct (String.eqb (backgroundMode sc) "gradient").
        * apply (K posterModeWidth posterModeHeight); [|right; reflexivity].
          simpl fst. apply settings_applyGradient.
        * simpl fst. rewrite F3, F4, F5, F6. auto. }
  destruct br as [s4 req]. simpl fst in *.
  destruct H4 as (Z1 & Z2 & Z3 & Z4).
  repeat split; assumption.
Qed.

Lemma phase_cases (s : CanvasManager) :
  workflowPhase s = background \/ workflowPhase s = elements.
Proof. destruct (workflowPhase s); auto. Qed.

(** What a step changes of the phase and the snapshot, of the size of
    the canvas and of the zoom. *)
Lemma step_settings (s s' : CanvasManager) :
  step s s' ->
  ((workflowPhase s' = workflowPhase s
    /\ lockedBackgroundData s' = lockedBackgroundData s)
   \/ (workflowPhase s = background /\ s' = confirmBackground s)
   \/ (workflowPhase s = elements /\ s' = fst (resetToBackgroundPhase s)))
  /\ (canvasSize s' = canvasSize s
      \/ canvasSize s' = imageModeSize \/ canvasSize s' = posterModeSize)
  /\ (overlayZoom s' = overlayZoom s
      \/ exists z, overlayZoom s' = Math_max 0.5 (Math_min 1.5 (z / 100)%js)).
Proof.
  assert (K : forall x y : CanvasManager,
             settings y = settings x ->
             ((workflowPhase y = workflowPhase x
               /\ lockedBackgroundData y = lockedBackgroundData x)
              \/ (workflowPhase x = background /\ y = confirmBackground x)
              \/ (workflowPhase x = elements /\ y = fst (resetToBackgroundPhase x)))
             /\ (canvasSize y = canvasSize x
                 \/ canvasSize y = imageModeSize \/ canvasSize y = posterModeSize)
             /\ (overlayZoom y = overlayZoom x
                 \/ exists z, overlayZoom y = Math_max 0.5 (Math_min 1.5 (z / 100)%js))).
  { intros x y H. apply settings_fields in H as (F1 & F2 & F3 & _ & _ & F4 & _).
    auto. }
  assert (U : forall x : CanvasManager,
             let y := fst (_updateBackground x) in
             workflowPhase y = workflowPhase x
             /\ lockedBackgroundData y = lockedBackgroundData x
             /\ (canvasSize y = canvasSize x
                 \/ canvasSize y = imageModeSize \/ canvasSize y = posterModeSize)
             /\ overlayZoom y = overlayZoom x).
  { intros x y. destruct (updateBackground_settings x) as (U1 & U2 & U3 & _ & _ & U6).
    fold y in U1, U2, U3, U6. repeat split; try assumption.
    destruct U6 as [U6|[[_ U6]|[_ U6]]]; auto. }
  intros Hs. destruct Hs.
  - apply K, settings_setVideo.
  - apply K, settings_setFrame.
  - apply K, settings_setFrame_onload.
  - apply K, settings_moveOverlay.
  - pose proof (settings_setZoom z s) as H.
    apply settings_fields in H as (F1 & F2 & F3 & _ & _ & F4 & _).
    split; [left; auto|]. split; [left; exact F3|]. right. exists z. exact F4.
  - apply K, settings_resetOverlayPosition.
  - destruct (phase_cases s) as [Hp|Hp].
    + destruct (confirmBackground_settings s Hp) as (_ & _ & Z & _ & _ & C).
      split; [right; left; auto|]. split; [|left; exact Z].
      destruct C as [C|C]; auto.
    + apply K. unfold confirmBackground. rewrite Hp. reflexivity.
  - destruct (phase_cases s) as [Hp|Hp].
    + apply K. unfold resetToBackgroundPhase. rewrite Hp. reflexivity.
    + destruct (resetToBackgroundPhase_settings s Hp) as (_ & _ & Z & _ & _ & C).
      split; [right; right; auto|]. split; [exact C|left; exact Z].
  - pose proof (settings_setBlur a s) as H.
    apply settings_fields in H as (F1 & F2 & F3 & _ & _ & F4 & _). auto.
  - unfold setBackgroundMode.
    destruct (U (set_backgroundMode m s)) as (U1 & U2 & U3 & U4). auto.
  - unfold setBackgroundColor. cbv zeta. destruct (String.eqb _ _).
    + destruct (U (set_backgroundColor c s)) as (U1 & U2 & U3 & U4). auto.
    + apply K. reflexivity.
  - unfold setGradientColors. cbv zeta. destruct (String.eqb _ _).
    + destruct (U (set_gradientColors [c1; c2] s)) as (U1 & U2 & U3 & U4). auto.
    + apply K. reflexivity.
  - unfold setGradientDirection. cbv zeta. destruct (String.eqb _ _).
    + destruct (U (set_gradientDirection d s)) as (U1 & U2 & U3 & U4). auto.
    + apply K. reflexivity.
  - apply K, settings_addText.
  - apply K, settings_addLine.
  - apply K, settings_deleteSelected.
  - apply K, settings_on_canvas. auto with settings.
  - apply K. reflexivity.
Qed.

(** ** Invariants of the settings *)

(** X8: the canvas has one of two sizes in every state of the editor,
    800 x 500 or 400 x 600, and the size that the manager records is the
    size of the Fabric canvas. *)
Theorem reachable_canvasSize (s : CanvasManager) :
  reachable s ->
  ((canvasWidth s = imageModeWidth /\ canvasHeight s = imageModeHeight)
   \/ (canvasWidth s = posterModeWidth /\ canvasHeight s = posterModeHeight))
  /\ fabric.cwidth (canvas s) = canvasWidth s
  /\ fabric.cheight (canvas s) = canvasHeight s.
Proof.
  intros Hr.
  assert (H : canvasSize s = imageModeSize \/ canvasSize s = posterModeSize).
  { revert s Hr. unfold reachable.
    apply (rtc_ind_r
             (fun z => canvasSize z = imageModeSize \/ canvasSize z = posterModeSize)
             constructor); [left; reflexivity|].
    intros y z _ Hyz IH.
    destruct (step_settings y z Hyz) as (_ & [C|[C|C]] & _); auto.
    rewrite C. exact IH. }
  unfold canvasSize, imageModeSize, posterModeSize in H.
  destruct H as [H|H]; injection H as -> -> -> ->; auto.
Qed.

(** The canvas of the confirmed background has the size of a poster. *)
Lemma reachable_canvasSize_witness :
  fabric.cwidth (canvas withElements) = canvasWidth withElements
  /\ fabric.cheight (canvas withElements) = canvasHeight withElements.
Proof.
  destruct (reachable_canvasSize withElements reachable_withElements) as (_ & H).
  exact H.
Defined.

(** X9: the zoom of the overlay stays between 0.5 and 1.5 in every
    state of the editor, unless [setZoom] was given a value that is not
    a number. *)
Theorem reachable_overlayZoom (s : CanvasManager) :
  reachable s ->
  overlayZoom s = NaN
  \/ exists c, overlayZoom s = Fin c /\ 0.5 <= c <= 1.5.
Proof.
  revert s. unfold reachable.
  apply (rtc_ind_r
           (fun z => overlayZoom z = NaN
                     \/ exists c, overlayZoom z = Fin c /\ 0.5 <= c <= 1.5)
           constructor).
  - right. exists 1. split; [reflexivity|lra].
  - intros y z _ Hyz IH.
    destruct (step_settings y z Hyz) as (_ & _ & [Z|(v & Z)]).
    + rewrite Z. exact IH.
    + rewrite Z. destruct v as [| |q|].
      * left. reflexivity.
      * right. destruct (zoom_clamped NInf) as (c & -> & _ & Hc); [discriminate|].
        exists c. auto.
      * right. destruct (zoom_clamped (Fin q)) as (c & -> & _ & Hc); [discriminate|].
        exists c. auto.
      * right. destruct (zoom_clamped PInf) as (c & -> & _ & Hc); [discriminate|].
        exists c. auto.
Qed.

(** After a zoom of 400 percent the zoom of the sample state is 1.5. *)
Lemma reachable_overlayZoom_witness :
  exists c, overlayZoom (setZoom 400 frame1920x1080) = Fin c /\ 0.5 <= c <= 1.5.
Proof.
  destruct (reachable_overlayZoom (setZoom 400 frame1920x1080)) as [H|H].
  - eapply rtc_r; [apply reachable_frame1920x1080|apply step_zoom].
  - vm_compute in H. discriminate.
  - exact H.
Defined.

(** The snapshot on a run of steps that stay in the elements phase. *)
Lemma editing_snapshot (s s' : CanvasManager) (d : LockedBackgroundData) :
  workflowPhase s = elements -> lockedBackgroundData s = Some d ->
  rtc editingStep s s' ->
  workflowPhase s' = elements /\ lockedBackgroundData s' = Some d.
Proof.
  intros Hp Hl Hrun. revert s' Hrun.
  apply (rtc_ind_r
           (fun z => workflowPhase z = elements /\ lockedBackgroundData z = Some d) s);
    [auto|].
  intros y z _ [Hyz Hz] [IHp IHl].
  split; [exact Hz|].
  destruct (step_settings y z Hyz) as ([[_ L]|[[B _]|[_ R]]] & _).
  - rewrite L. exact IHl.
  - rewrite IHp in B. discriminate.
  - destruct (resetToBackgroundPhase_settings y IHp) as (P & _).
    rewrite <- R in P. rewrite P in Hz. discriminate.
Qed.

Section SnapshotProperties.

Variable getBoundingRect : fabric.Object -> Rect.t.
Variable calcLinePoints : fabric.Object -> LinePoints.
Variable calcTransformMatrix : fabric.Object -> fabric.Matrix.
Variable measureText : string -> string -> num -> string -> string -> num.

Local Abbreviation exportPoster :=
  (exportPosterData getBoundingRect calcLinePoints calcTransformMatrix measureText).


End SnapshotProperties.


(** ** The confirmation of the background *)

(** The picture that [confirmBackground] stores: the captured selection
    in image mode. *)
Lemma confirmBackground_captured (s : CanvasManager) :
  (if String.eqb (backgroundMode s) "image" then
     match frameImage s, selectionOverlay s with
     | Some _, Some _ => _captureSelectionAsImage s
     | _, _ => None
     end
   else None)
  = if String.eqb (backgroundMode s) "image" then _captureSelectionAsImage s
    else None.
Proof.
  destruct (String.eqb _ _); [|reflexivity].
  unfold _captureSelectionAsImage.
  destruct (frameImage s); [|reflexivity].
  destruct (selectionOverlay s); reflexivity.
Qed.

(** The scene after [confirmBackground] has removed the overlay, the
    mask and the frame. *)
Lemma confirmBackground_cleared (s : CanvasManager) :
  let s2 :=
    match selectionOverlay s with
    | Some ov => set_selectionOverlay None (on_canvas (fabric.remove ov) s)
    | None => s
    end in
  let s3 := clearDarkMask s2 in
  let s4 :=
    match frameImage s3 with
    | Some f => set_frameImage None (on_canvas (fabric.remove f) s3)
    | None => s3
    end in
  let s5 := set_frameDisplayInfo None s4 in
  backgroundMode s5 = backgroundMode s /\ backgroundColor s5 = backgroundColor s
  /\ heap s5 = heap s /\ nextId s5 = nextId s
  /\ frameImage s5 = None /\ selectionOverlay s5 = None
  /\ darkMaskRects s5 = [] /\ frameDisplayInfo s5 = None
  /\ (forall y, y ∈ fabric._objects (canvas s5)
        <-> y ∈ fabric._objects (canvas s) /\ selectionOverlay s <> Some y
            /\ (y ∉ darkMaskRects s) /\ frameImage s <> Some y).
Proof.
  intros s2 s3 s4 s5.
  assert (N : forall (x y : nat) (o : option nat), o = Some x -> (y <> x <-> o <> Some y)).
  { intros x y o ->. split; congruence. }
  assert (A2 : backgroundMode s2 = backgroundMode s
               /\ backgroundColor s2 = backgroundColor s
               /\ heap s2 = heap s /\ nextId s2 = nextId s
               /\ frameImage s2 = frameImage s /\ selectionOverlay s2 = None
               /\ darkMaskRects s2 = darkMaskRects s
               /\ (forall y, y ∈ fabric._objects (canvas s2)
                     <-> y ∈ fabric._objects (canvas s) /\ selectionOverlay s <> Some y)).
  { unfold s2. destruct (selectionOverlay s) as [ov|] eqn:E.
    - do 7 (split; [reflexivity|]). intros y.
      cbn [canvas set_selectionOverlay]. rewrite canvas_on_canvas, elem_remove.
      rewrite (N ov y (Some ov) eq_refl). reflexivity.
    - do 5 (split; [reflexivity|]). split; [exact E|]. split; [reflexivity|].
      intros y. split; [intros Hy; split; [exact Hy|discriminate]|tauto]. }
  destruct A2 as (Am1 & Am2 & Ah & An & Ai & Ao & Am & Ael).
  assert (A3 : backgroundMode s3 = backgroundMode s
               /\ backgroundColor s3 = backgroundColor s
               /\ heap s3 = heap s /\ nextId s3 = nextId s
               /\ frameImage s3 = frameImage s /\ selectionOverlay s3 = None
               /\ darkMaskRects s3 = []
               /\ (forall y, y ∈ fabric._objects (canvas s3)
                     <-> y ∈ fabric._objects (canvas s2) /\ y ∉ darkMaskRects s)).
  { unfold s3, clearDarkMask.
    destruct (only_canvas_fields s2 _
                (canvas_forEach_only fabric.remove (darkMaskRects s2) s2))
      as (Bh & Bn & Bo & _ & Bi & _).
    assert (Bp : backgroundMode (canvas_forEach fabric.remove (darkMaskRects s2) s2)
                 = backgroundMode s2
                 /\ backgroundColor (canvas_forEach fabric.remove (darkMaskRects s2) s2)
                    = backgroundColor s2).
    { rewrite (canvas_forEach_only fabric.remove (darkMaskRects s2) s2).
      split; reflexivity. }
    destruct Bp as (Bp1 & Bp2).
    cbn [heap nextId frameImage selectionOverlay darkMaskRects set_darkMaskRects canvas
         backgroundMode backgroundColor].
    rewrite Bh, Bn, Bo, Bi, Ah, An, Ai, Ao, Bp1, Bp2, Am1, Am2.
    do 7 (split; [reflexivity|]).
    intros y. rewrite elem_forEach_remove, Am. reflexivity. }
  destruct A3 as (Bm1 & Bm2 & Bh & Bn & Bi & Bo & Bm & Bel).
  unfold s5, s4. rewrite Bi.
  destruct (frameImage s) as [f|] eqn:Ef.
  - cbn [heap nextId frameImage selectionOverlay darkMaskRects frameDisplayInfo
         set_frameDisplayInfo set_frameImage on_canvas set_canvas canvas
         backgroundMode backgroundColor].
    split; [exact Bm1|]. split; [exact Bm2|].
    split; [exact Bh|]. split; [exact Bn|]. split; [reflexivity|].
    split; [exact Bo|]. split; [exact Bm|]. split; [reflexivity|].
    intros y. rewrite elem_remove, Bel, Ael, (N f y (Some f) eq_refl). tauto.
  - cbn [heap nextId frameImage selectionOverlay darkMaskRects frameDisplayInfo
         set_frameDisplayInfo canvas backgroundMode backgroundColor].
    split; [exact Bm1|]. split; [exact Bm2|].
    split; [exact Bh|]. split; [exact Bn|]. split; [exact Bi|].
    split; [exact Bo|]. split; [exact Bm|]. split; [reflexivity|].
    intros y. rewrite Bel, Ael. split; [|tauto].
    intros [[H1 H2] H3]. repeat split; try assumption. discriminate.
Qed.

Lemma scene_fields (s s' : CanvasManager) :
  scene s' = scene s ->
  heap s' = heap s /\ nextId s' = nextId s
  /\ fabric._objects (canvas s') = fabric._objects (canvas s)
  /\ fabric._activeObject (canvas s') = fabric._activeObject (canvas s)
  /\ frameImage s' = frameImage s /\ selectionOverlay s' = selectionOverlay s
  /\ darkMaskRects s' = darkMaskRects s
  /\ frameDisplayInfo s' = frameDisplayInfo s.
Proof.
  unfold scene. intros H.
  repeat match goal with
  | H : (_, _) = (_, _) |- _ => apply pair_equal_spec in H; destruct H
  end.
  repeat split; assumption.
Qed.

Lemma strict_eq_num_eq (x y : num) : strict_eq x y = true -> x ≈ y.
Proof.
  unfold strict_eq. destruct x as [| |a|], y as [| |b|]; simpl; try discriminate; auto.
  destruct (Qcompare_spec a b); try discriminate. auto.
Qed.

Lemma resizeCanvas_approx (w h : num) (s : CanvasManager) :
  canvasWidth (_resizeCanvas w h s) ≈ w /\ canvasHeight (_resizeCanvas w h s) ≈ h.
Proof.
  unfold _resizeCanvas.
  destruct (strict_eq (canvasWidth s) w) eqn:Ew; simpl;
    [destruct (strict_eq (canvasHeight s) h) eqn:Eh; simpl|].
  - split; apply strict_eq_num_eq; assumption.
  - split; apply num_eq_refl.
  - split; apply num_eq_refl.
Qed.



(** ** A change of the background mode *)

(** The scene after [_updateBackground] has removed the frame, the
    overlay and the mask. *)
Lemma updateBackground_cleared (s : CanvasManager) :
  let a :=
    match frameImage s with
    | Some f => set_frameImage None (on_canvas (fabric.remove f) s)
    | None => s
    end in
  let b :=
    match selectionOverlay a with
    | Some ov => set_selectionOverlay None (on_canvas (fabric.remove ov) a)
    | None => a
    end in
  let s1 := set_frameDisplayInfo None (clearDarkMask b) in
  backgroundMode s1 = backgroundMode s /\ backgroundColor s1 = backgroundColor s
  /\ workflowPhase s1 = workflowPhase s
  /\ heap s1 = heap s /\ nextId s1 = nextId s
  /\ frameImage s1 = None /\ selectionOverlay s1 = None
  /\ darkMaskRects s1 = [] /\ frameDisplayInfo s1 = None
  /\ (forall y, y ∈ fabric._objects (canvas s1)
        <-> y ∈ fabric._objects (canvas s) /\ selectionOverlay s <> Some y
            /\ (y ∉ darkMaskRects s) /\ frameImage s <> Some y).
Proof.
  intros a b s1.
  assert (N : forall (x y : nat) (o : option nat), o = Some x -> (y <> x <-> o <> Some y)).
  { intros x y o ->. split; congruence. }
  assert (A : backgroundMode a = backgroundMode s
              /\ backgroundColor a = backgroundColor s
              /\ workflowPhase a = workflowPhase s
              /\ heap a = heap s /\ nextId a = nextId s
              /\ frameImage a = None /\ selectionOverlay a = selectionOverlay s
              /\ darkMaskRects a = darkMaskRects s
              /\ (forall y, y ∈ fabric._objects (canvas a)
                    <-> y ∈ fabric._objects (canvas s) /\ frameImage s <> Some y)).
  { unfold a. destruct (frameImage s) as [f|] eqn:E.
    - do 8 (split; [reflexivity|]). intros y.
      cbn [canvas set_frameImage]. rewrite canvas_on_canvas, elem_remove.
      rewrite (N f y (Some f) eq_refl). reflexivity.
    - do 5 (split; [reflexivity|]). split; [exact E|]. do 2 (split; [reflexivity|]).
      intros y. split; [intros Hy; split; [exact Hy|discriminate]|tauto]. }
  destruct A as (A1 & A2 & A3 & A4 & A5 & A6 & A7 & A8 & Ael).
  assert (B : backgroundMode b = backgroundMode s
              /\ backgroundColor b = backgroundColor s
              /\ workflowPhase b = workflowPhase s
              /\ heap b = heap s /\ nextId b = nextId s
              /\ frameImage b = None /\ selectionOverlay b = None
              /\ darkMaskRects b = darkMaskRects s
              /\ (forall y, y ∈ fabric._objects (canvas b)
                    <-> y ∈ fabric._objects (canvas a) /\ selectionOverlay s <> Some y)).
  { unfold b. rewrite A7. destruct (selectionOverlay s) as [ov|] eqn:E.
    - cbn [backgroundMode backgroundColor workflowPhase heap nextId frameImage
           selectionOverlay darkMaskRects canvas set_selectionOverlay on_canvas
           set_canvas].
      do 8 (split; [assumption || reflexivity|]). intros y.
      rewrite elem_remove, (N ov y (Some ov) eq_refl). reflexivity.
    - do 6 (split; [assumption|]). split; [rewrite A7; reflexivity|].
      split; [assumption|].
      intros y. split; [intros Hy; split; [exact Hy|discriminate]|tauto]. }
  destruct B as (B1 & B2 & B3 & B4 & B5 & B6 & B7 & B8 & Bel).
  unfold s1, clearDarkMask.
  destruct (only_canvas_fields b _
              (canvas_forEach_only fabric.remove (darkMaskRects b) b))
    as (Ch & Cn & Co & _ & Ci & _).
  assert (Cp : backgroundMode (canvas_forEach fabric.remove (darkMaskRects b) b)
               = backgroundMode b
               /\ backgroundColor (canvas_forEach fabric.remove (darkMaskRects b) b)
                  = backgroundColor b
               /\ workflowPhase (canvas_forEach fabric.remove (darkMaskRects b) b)
                  = workflowPhase b).
  { rewrite (canvas_forEach_only fabric.remove (darkMaskRects b) b).
    repeat split; reflexivity. }
  destruct Cp as (Cp1 & Cp2 & Cp3).
  cbn [heap nextId frameImage selectionOverlay darkMaskRects set_darkMaskRects canvas
       backgroundMode backgroundColor workflowPhase frameDisplayInfo
       set_frameDisplayInfo].
  rewrite Ch, Cn, Co, Ci, Cp1, Cp2, Cp3.
  do 7 (split; [assumption|]). do 2 (split; [reflexivity|]).
  intros y. rewrite elem_forEach_remove, B8, Bel, Ael. tauto.
Qed.

(** X12: [setBackgroundMode] to a mode other than ['image'] takes the
    frame, the overlay and the mask off the canvas and forgets them,
    requests no frame, gives the canvas the size of a poster and, in
    colour mode, the background colour; every other object stays, and no
    object is changed.  From then on the crop rectangle is the fallback
    rectangle and the poster area is the whole canvas. *)
Theorem setBackgroundMode_teardown (s : CanvasManager) (m : string) :
  m <> "image" ->
  let s' := fst (setBackgroundMode m s) in
  snd (setBackgroundMode m s) = None
  /\ backgroundMode s' = m /\ workflowPhase s' = workflowPhase s
  /\ frameImage s' = None /\ selectionOverlay s' = None
  /\ darkMaskRects s' = [] /\ frameDisplayInfo s' = None
  /\ heap s' = heap s
  /\ canvasWidth s' ≈ posterModeWidth /\ canvasHeight s' ≈ posterModeHeight
  /\ (forall y, y ∈ fabric._objects (canvas s')
        <-> y ∈ fabric._objects (canvas s) /\ selectionOverlay s <> Some y
            /\ (y ∉ darkMaskRects s) /\ frameImage s <> Some y)
  /\ _getSelectionCoords s' = fallbackRect
  /\ _getPosterArea s'
     = {| Rect.left := 0; Rect.top := 0;
          Rect.width := canvasWidth s'; Rect.height := canvasHeight s' |}
  /\ (m = "color" ->
      fabric.backgroundColor (canvas s') = fabric.Color (backgroundColor s)).
Proof.
  intros Hm s'. apply String.eqb_neq in Hm.
  assert (G : forall x : CanvasManager,
             backgroundMode x = m -> workflowPhase x = workflowPhase s ->
             frameImage x = None -> selectionOverlay x = None ->
             darkMaskRects x = [] -> frameDisplayInfo x = None ->
             heap x = heap s ->
             canvasWidth x ≈ posterModeWidth -> canvasHeight x ≈ posterModeHeight ->
             (forall y, y ∈ fabric._objects (canvas x)
                <-> y ∈ fabric._objects (canvas s) /\ selectionOverlay s <> Some y
                    /\ (y ∉ darkMaskRects s) /\ frameImage s <> Some y) ->
             (m = "color" ->
              fabric.backgroundColor (canvas x) = fabric.Color (backgroundColor s)) ->
             backgroundMode x = m /\ workflowPhase x = workflowPhase s
             /\ frameImage x = None /\ selectionOverlay x = None
             /\ darkMaskRects x = [] /\ frameDisplayInfo x = None
             /\ heap x = heap s
             /\ canvasWidth x ≈ posterModeWidth /\ canvasHeight x ≈ posterModeHeight
             /\ (forall y, y ∈ fabric._objects (canvas x)
                   <-> y ∈ fabric._objects (canvas s) /\ selectionOverlay s <> Some y
                       /\ (y ∉ darkMaskRects s) /\ frameImage s <> Some y)
             /\ _getSelectionCoords x = fallbackRect
             /\ _getPosterArea x
                = {| Rect.left := 0; Rect.top := 0;
                     Rect.width := canvasWidth x; Rect.height := canvasHeight x |}
             /\ (m = "color" ->
                 fabric.backgroundColor (canvas x) = fabric.Color (backgroundColor s))).
  { intros x X1 X2 X3 X4 X5 X6 X7 X8 X9 X10 X11.
    do 10 (split; [assumption|]).
    split; [apply getSelectionCoords_fallback; left; exact X6|].
    split; [|exact X11].
    unfold _getPosterArea. rewrite X4.
    destruct (String.eqb (backgroundMode x) "image"); reflexivity. }
  unfold s', setBackgroundMode, _updateBackground.
  set (s0 := set_backgroundMode m s).
  change (backgroundMode s0) with m. rewrite Hm. cbn [negb].
  destruct (updateBackground_cleared s0)
    as (C1 & C2 & C3 & C4 & C5 & C6 & C7 & C8 & C9 & Cel).
  cbv zeta in C1, C2, C3, C4, C5, C6, C7, C8, C9, Cel.
  match goal with
  | |- context [_resizeCanvas posterModeWidth posterModeHeight ?x] => set (s1 := x) in *
  end.
  change (backgroundMode s0) with m in C1.
  change (backgroundColor s0) with (backgroundColor s) in C2.
  change (workflowPhase s0) with (workflowPhase s) in C3.
  change (heap s0) with (heap s) in C4.
  change (canvas s0) with (canvas s) in Cel.
  change (selectionOverlay s0) with (selectionOverlay s) in Cel.
  change (darkMaskRects s0) with (darkMaskRects s) in Cel.
  change (frameImage s0) with (frameImage s) in Cel.
  rewrite C1, Hm.
  destruct (resizeCanvas_approx posterModeWidth posterModeHeight s1) as (Rw & Rh).
  pose proof (scene_resizeCanvas posterModeWidth posterModeHeight s1) as Rs.
  destruct (resizeCanvas_fields posterModeWidth posterModeHeight s1)
    as (Rm & _ & _ & _ & Rp).
  assert (Rb : backgroundColor (_resizeCanvas posterModeWidth posterModeHeight s1)
               = backgroundColor s).
  { rewrite <- C2. unfold _resizeCanvas. destruct (_ && _); reflexivity. }
  set (s2 := _resizeCanvas posterModeWidth posterModeHeight s1) in *.
  apply scene_fields in Rs as (S1 & _ & S3 & _ & S5 & S6 & S7 & S8).
  rewrite Rm, C1.
  assert (Hobj : forall y, y ∈ fabric._objects (canvas s2)
                   <-> y ∈ fabric._objects (canvas s) /\ selectionOverlay s <> Some y
                       /\ (y ∉ darkMaskRects s) /\ frameImage s <> Some y).
  { intros y. rewrite S3. apply Cel. }
  destruct (String.eqb m "color") eqn:Ecol.
  - split; [reflexivity|]. cbn [fst].
    apply G; cbn [backgroundMode workflowPhase frameImage selectionOverlay
                 darkMaskRects frameDisplayInfo heap canvasWidth canvasHeight
                 on_canvas set_canvas canvas fabric.setBackgroundColor
                 fabric._objects fabric.backgroundColor]; try congruence; auto;
      try (intros _; rewrite Rb; reflexivity).
  - destruct (String.eqb m "gradient").
    + split; [reflexivity|]. cbn [fst].
      apply G; unfold _applyGradient;
        cbn [backgroundMode workflowPhase frameImage selectionOverlay
             darkMaskRects frameDisplayInfo heap canvasWidth canvasHeight
             on_canvas set_canvas canvas fabric.setBackgroundColor
             fabric._objects fabric.backgroundColor]; try congruence; auto;
        try (intros ->; vm_compute in Ecol; discriminate).
    + rewrite Hm. split; [reflexivity|]. cbn [fst].
      apply G; try congruence; auto;
        try (intros ->; vm_compute in Ecol; discriminate).
Qed.

(** The 1920 x 1080 frame, then colour mode: nothing is left on the
    canvas. *)
Lemma setBackgroundMode_teardown_witness :
  fabric._objects (canvas (fst (setBackgroundMode "color" frame1920x1080))) = []
  /\ selectionOverlay (fst (setBackgroundMode "color" frame1920x1080)) = None.
Proof.
  destruct (setBackgroundMode_teardown frame1920x1080 "color")
    as (_ & _ & _ & _ & Ho & _); [discriminate|].
  split; [vm_compute; reflexivity|exact Ho].
Defined.

(** ** The format buttons of the text editor *)

Lemma obj_set_lookup (i j : nat) (f : fabric.Object -> fabric.Object)
  (s : CanvasManager) :
  heap (obj_set i f s) !! j
  = if Nat.eqb i j then f <$> heap s !! j else heap s !! j.
Proof.
  unfold obj_set. rewrite heap_set_heap.
  destruct (Nat.eqb_spec i j) as [->|N].
  - apply lookup_alter_eq.
  - apply lookup_alter_ne. congruence.
Qed.

Lemma obj_set_obj_set (i : nat) (f g : fabric.Object -> fabric.Object)
  (s : CanvasManager) :
  obj_set i g (obj_set i f s) = obj_set i (fun o => g (f o)) s.
Proof.
  unfold obj_set. rewrite set_heap_twice, heap_set_heap. f_equal.
  apply map_eq. intros j. destruct (decide (i = j)) as [->|N].
  - rewrite !lookup_alter_eq. destruct (heap s !! j); reflexivity.
  - rewrite !lookup_alter_ne by congruence. reflexivity.
Qed.

Lemma obj_set_id (i : nat) (f : fabric.Object -> fabric.Object)
  (o : fabric.Object) (s : CanvasManager) :
  heap s !! i = Some o -> f o = o -> obj_set i f s = s.
Proof.
  intros H E. unfold obj_set.
  transitivity (set_heap (heap s) s); [|apply set_heap_same].
  f_equal. apply map_eq. intros j. destruct (decide (i = j)) as [->|N].
  - rewrite lookup_alter_eq, H. cbn. rewrite E. reflexivity.
  - rewrite lookup_alter_ne by congruence. reflexivity.
Qed.

Lemma obj_set_ext (i : nat) (f g : fabric.Object -> fabric.Object)
  (o : fabric.Object) (s : CanvasManager) :
  heap s !! i = Some o -> f o = g o -> obj_set i f s = obj_set i g s.
Proof.
  intros H E. unfold obj_set. f_equal. apply map_eq. intros j.
  destruct (decide (i = j)) as [->|N].
  - rewrite !lookup_alter_eq, H. cbn. rewrite E. reflexivity.
  - rewrite !lookup_alter_ne by congruence. reflexivity.
Qed.

Lemma toggleBold_twice (o : fabric.Object) :
  toggleBold (toggleBold o) = o
  <-> fabric.fontWeight o = "bold" \/ fabric.fontWeight o = "normal".
Proof.
  destruct o. unfold toggleBold. cbn.
  destruct (String.eqb_spec fontWeight "bold") as [->|N]; cbn.
  - split; auto.
  - split.
    + intros E. injection E as E. right. symmetry. exact E.
    + intros [E|E]; [contradiction|]. subst. reflexivity.
Qed.

Lemma toggleItalic_twice (o : fabric.Object) :
  toggleItalic (toggleItalic o) = o
  <-> fabric.fontStyle o = "italic" \/ fabric.fontStyle o = "normal".
Proof.
  destruct o. unfold toggleItalic. cbn.
  destruct (String.eqb_spec fontStyle "italic") as [->|N]; cbn.
  - split; auto.
  - split.
    + intros E. injection E as E. right. symmetry. exact E.
    + intros [E|E]; [contradiction|]. subst. reflexivity.
Qed.

Lemma toggleUnderline_twice (o : fabric.Object) :
  toggleUnderline (toggleUnderline o) = o.
Proof. destruct o as []. unfold toggleUnderline. cbn. destruct underline; reflexivity. Qed.

Lemma toggleBold_thrice (o : fabric.Object) :
  toggleBold (toggleBold (toggleBold o)) = toggleBold o.
Proof.
  destruct o. unfold toggleBold. cbn.
  destruct (String.eqb_spec fontWeight "bold") as [->|N]; reflexivity.
Qed.

Lemma toggleItalic_thrice (o : fabric.Object) :
  toggleItalic (toggleItalic (toggleItalic o)) = toggleItalic o.
Proof.
  destruct o. unfold toggleItalic. cbn.
  destruct (String.eqb_spec fontStyle "italic") as [->|N]; reflexivity.
Qed.

(** X13: with a text selected in the editor, a click on a format button
    flips the state that the button shows and touches no other object;
    three clicks act as one; two clicks give back the state exactly when
    the property had one of the two values of the button (a weight of
    "600" becomes "bold", then "normal"). *)
Theorem toggleFormat_flips (format : string) (te : TextEditor)
  (s : CanvasManager) (a : nat) (o : fabric.Object) :
  activeText te = Some a ->
  heap s !! a = Some o ->
  format = "bold" \/ format = "italic" \/ format = "underline" ->
  let T := _toggleFormat format te in
  (exists o', heap (T s) !! a = Some o'
     /\ formatActive format o' = negb (formatActive format o)
     /\ fabric.type o' = fabric.type o /\ fabric.text o' = fabric.text o
     /\ fabric.isOverlay o' = fabric.isOverlay o
     /\ fabric.isMask o' = fabric.isMask o)
  /\ (forall b, b <> a -> heap (T s) !! b = heap s !! b)
  /\ canvas (T s) = canvas s
  /\ T (T (T s)) = T s
  /\ (T (T s) = s <-> formatPlain format o).
Proof.
  intros Ha Ho Hf T. unfold T, _toggleFormat. rewrite Ha.
  destruct Hf as [-> | [-> | ->]]; cbn [String.eqb Ascii.eqb Bool.eqb]; cbn match.
  - split; [|split; [|split; [reflexivity|split]]].
    + exists (toggleBold o). rewrite obj_set_lookup, Nat.eqb_refl, Ho.
      split; [reflexivity|]. unfold formatActive, toggleBold. cbn.
      destruct (String.eqb (fabric.fontWeight o) "bold"); repeat split; reflexivity.
    + intros b N. rewrite obj_set_lookup.
      destruct (Nat.eqb_spec a b); [congruence|reflexivity].
    + rewrite !obj_set_obj_set. apply (obj_set_ext _ _ _ o); [exact Ho|].
      apply toggleBold_thrice.
    + rewrite obj_set_obj_set. unfold formatPlain. cbn.
      rewrite <- toggleBold_twice. split.
      * intros E. apply (f_equal (fun x => heap x !! a)) in E.
        rewrite obj_set_lookup, Nat.eqb_refl, Ho in E. cbn in E. congruence.
      * intros E. apply (obj_set_id _ _ o); assumption.
  - split; [|split; [|split; [reflexivity|split]]].
    + exists (toggleItalic o). rewrite obj_set_lookup, Nat.eqb_refl, Ho.
      split; [reflexivity|]. unfold formatActive, toggleItalic. cbn.
      destruct (String.eqb (fabric.fontStyle o) "italic"); repeat split; reflexivity.
    + intros b N. rewrite obj_set_lookup.
      destruct (Nat.eqb_spec a b); [congruence|reflexivity].
    + rewrite !obj_set_obj_set. apply (obj_set_ext _ _ _ o); [exact Ho|].
      apply toggleItalic_thrice.
    + rewrite obj_set_obj_set. unfold formatPlain. cbn.
      rewrite <- toggleItalic_twice. split.
      * intros E. apply (f_equal (fun x => heap x !! a)) in E.
        rewrite obj_set_lookup, Nat.eqb_refl, Ho in E. cbn in E. congruence.
      * intros E. apply (obj_set_id _ _ o); assumption.
  - split; [|split; [|split; [reflexivity|split]]].
    + exists (toggleUnderline o). rewrite obj_set_lookup, Nat.eqb_refl, Ho.
      split; [reflexivity|]. unfold formatActive, toggleUnderline. cbn.
      destruct (fabric.underline o); repeat split; reflexivity.
    + intros b N. rewrite obj_set_lookup.
      destruct (Nat.eqb_spec a b); [congruence|reflexivity].
    + rewrite !obj_set_obj_set. apply (obj_set_ext _ _ _ o); [exact Ho|].
      rewrite toggleUnderline_twice. reflexivity.
    + rewrite obj_set_obj_set. unfold formatPlain. cbn. split; [auto|].
      intros _. apply (obj_set_id _ _ o); [exact Ho|]. apply toggleUnderline_twice.
Qed.

(** The title of the sample poster has the weight "normal": two clicks on
    the bold button give back the state. *)
Lemma toggleFormat_flips_witness :
  _toggleFormat "bold" (_onTextSelected 7%nat (_onSelectionCleared (Build_TextEditor None None)))
    (_toggleFormat "bold"
       (_onTextSelected 7%nat (_onSelectionCleared (Build_TextEditor None None)))
       withElements)
  = withElements.
Proof.
  destruct (heap withElements !! 7%nat) as [o|] eqn:Ho;
    [|vm_compute in Ho; discriminate].
  edestruct (toggleFormat_flips "bold"
               (_onTextSelected 7%nat (_onSelectionCleared (Build_TextEditor None None)))
               withElements 7%nat o) as (_ & _ & _ & _ & H);
    [reflexivity | exact Ho | left; reflexivity | ].
  apply H. vm_compute in Ho. injection Ho as <-. right. reflexivity.
Defined.

(** ** The frame slider *)

Ltac solve_clamp :=
  match goal with
  | |- _ == Qmax 0 (Qmin ?d ?y) =>
      let H1 := fresh in let E1 := fresh in
      let H2 := fresh in let E2 := fresh in
      destruct (Q.min_spec d y) as [[H1 E1]|[H1 E1]];
      destruct (Q.max_spec 0 (Qmin d y)) as [[H2 E2]|[H2 E2]];
      rewrite E2; rewrite ?E1 in *; lra
  end.

(** X14: a step of the slider of a video of duration [d >= 0] from the
    value [x]: with [d = 0] nothing happens; otherwise the new timestamp
    is [x + k/30] clamped to [0, d], it becomes the pending one, and it
    is requested from the canvas manager unless a frame is loading. *)
Theorem stepFrame_clamped (fs : FrameSlider) (d x k : Q) :
  duration fs = Fin d -> 0 <= d ->
  let fs' := _stepFrame (Fin k) (Fin x) fs in
  (d == 0 -> fs' = fs)
  /\ (0 < d ->
      exists t, pendingTimestamp fs' = Some (Fin t)
        /\ 0 <= t <= d
        /\ t == Qmax 0 (Qmin d (x + k / 30))
        /\ (0 <= x + k / 30 <= d -> t == x + k / 30)
        /\ requested fs'
           = (if isLoading fs then requested fs
              else requested fs ++ [Some (Fin t)])
        /\ isLoading fs' = true).
Proof.
  intros Hd Hd0 fs'. unfold fs', _stepFrame. rewrite Hd.
  unfold strict_eq. cbn [cmp].
  destruct (d ?= 0) eqn:C.
  - apply Qeq_alt in C. split; [reflexivity|]. intros H. lra.
  - apply Qlt_alt in C. lra.
  - apply Qgt_alt in C. split; [intros H; lra|]. intros _.
    change (JS.div (Fin 1) (Fin 30)) with (Fin (1 / 30)).
    cbn [JS.mul JS.add].
    set (y := x + k * (1 / 30)).
    assert (Ey : y == x + k / 30) by (unfold y; field).
    unfold Math_min. cbn [cmp].
    assert (B : exists t, Math_max 0 (match d ?= y with Gt => Fin y | _ => Fin d end)
                          = Fin t /\ 0 <= t <= d /\ t == Qmax 0 (Qmin d y)
                          /\ (0 <= y <= d -> t == y)).
    { destruct (d ?= y) eqn:C1.
      - apply Qeq_alt in C1. unfold Math_max. cbn [cmp].
        destruct (0 ?= d) eqn:C2;
          [apply Qeq_alt in C2|apply Qlt_alt in C2|apply Qgt_alt in C2]; try lra.
        exists d. split; [reflexivity|]. split; [lra|].
        split; [solve_clamp|lra].
      - apply Qlt_alt in C1. unfold Math_max. cbn [cmp].
        destruct (0 ?= d) eqn:C2;
          [apply Qeq_alt in C2|apply Qlt_alt in C2|apply Qgt_alt in C2]; try lra.
        exists d. split; [reflexivity|]. split; [lra|].
        split; [solve_clamp|lra].
      - apply Qgt_alt in C1. unfold Math_max. cbn [cmp].
        destruct (0 ?= y) eqn:C2;
          [apply Qeq_alt in C2|apply Qlt_alt in C2|apply Qgt_alt in C2].
        + exists 0. split; [reflexivity|]. split; [lra|].
          split; [solve_clamp|lra].
        + exists y. split; [reflexivity|]. split; [lra|].
          split; [solve_clamp|lra].
        + exists 0. split; [reflexivity|]. split; [lra|].
          split; [solve_clamp|lra]. }
    destruct B as (t & -> & Ht & Em & Ei). exists t.
    unfold _fetchFrame. cbn [isLoading].
    destruct (isLoading fs) eqn:L; cbn; rewrite ?L;
      (split; [reflexivity|]); (split; [exact Ht|]);
      (split; [rewrite Em, Ey; reflexivity|]);
      (split; [intros H; rewrite <- Ey; apply Ei; lra|]);
      split; reflexivity.
Qed.

(** At the end of a video of two seconds a step forward stays at the
    end. *)
Lemma stepFrame_clamped_witness :
  pendingTimestamp (_stepFrame 1 2 (setDuration 2 newFrameSlider)) = Some (Fin 2).
Proof.
  destruct (stepFrame_clamped (setDuration 2 newFrameSlider) 2 2 1) as [_ H];
    [reflexivity|lra|].
  destruct H as (t & Hp & _ & _ & _); [lra|].
  vm_compute. reflexivity.
Defined.

Lemma sliderInv_new : sliderInv newFrameSlider.
Proof.
  unfold sliderInv. cbn. repeat split; try discriminate. constructor.
Qed.

(** A request made by a slider that is not loading. *)
Lemma sliderInv_request (d : num) (tm : bool)
  (rq : list (option num)) (t : num) :
  Forall (fun r => r <> None) rq ->
  sliderInv (Build_FrameSlider d (Some t) true tm (Some (Some t)) (rq ++ [Some t])).
Proof.
  intros F. unfold sliderInv. cbn. repeat split; try discriminate.
  - intros _. exists rq, t. split; reflexivity.
  - apply Forall_app. split; [exact F|]. constructor; [discriminate|constructor].
Qed.

Lemma sliderInv_step (fs fs' : FrameSlider) :
  sliderInv fs -> sliderStep fs fs' -> sliderInv fs'.
Proof.
  intros I St. destruct St as [d fs|v fs|fs|k v fs|fs];
    destruct fs as [d0 p l tm aw rq]; destruct I as (I1 & I2 & I3 & I4 & I5);
    cbn in I1, I2, I3, I4, I5.
  - unfold setDuration, sliderInv. cbn. auto.
  - unfold _onSliderChange, sliderInv. cbn.
    repeat split; auto; discriminate.
  - unfold debounceFires. cbn.
    destruct tm; [|unfold sliderInv; cbn; auto].
    destruct p as [t|]; [|destruct I4; [reflexivity|discriminate]].
    unfold _fetchFrame. cbn. destruct l.
    + unfold sliderInv. cbn. repeat split; auto; discriminate.
    + apply sliderInv_request; assumption.
  - unfold _stepFrame. cbn.
    destruct (strict_eq d0 0); [unfold sliderInv; cbn; auto|].
    unfold _fetchFrame. cbn. destruct l.
    + unfold sliderInv. cbn. repeat split; auto; discriminate.
    + apply sliderInv_request; assumption.
  - unfold _fetchFrame_resume. cbn.
    destruct aw as [ts|]; [|unfold sliderInv; cbn; auto].
    destruct l; [|specialize (I2 eq_refl); discriminate].
    destruct (I1 eq_refl) as (rq0 & t & Ea & Er). injection Ea as ->.
    destruct p as [t2|].
    2:{ destruct I4 as [E _]; [reflexivity|]. rewrite E in Er.
        destruct rq0; discriminate. }
    cbn. destruct (strict_eq t2 t) eqn:E; cbn.
    + unfold sliderInv. cbn. repeat split; auto; try discriminate.
      intros _ _ t3 [= <-]. exists rq0, t. auto.
    + unfold _fetchFrame. cbn. apply sliderInv_request; assumption.
Qed.

Lemma sliderReachable_inv (fs : FrameSlider) : sliderReachable fs -> sliderInv fs.
Proof.
  unfold sliderReachable. revert fs.
  apply (rtc_ind_r (fun z => sliderInv z) newFrameSlider); [apply sliderInv_new|].
  intros y z _ St I. exact (sliderInv_step y z I St).
Qed.

(** X15: at any time of a slider, a frame is loading exactly when a call
    of [_fetchFrame] waits for the canvas manager; no request carries
    [null]; and when nothing is loading and no timer is set, the last
    request made is the pending timestamp (or none was ever made and none
    is pending). *)
Theorem slider_requests_pending (fs : FrameSlider) :
  sliderReachable fs ->
  (isLoading fs = true <-> awaiting fs <> None)
  /\ Forall (fun r => r <> None) (requested fs)
  /\ (sliderIdle fs ->
      match pendingTimestamp fs with
      | None => requested fs = []
      | Some t =>
          exists l t', requested fs = l ++ [Some t'] /\ strict_eq t t' = true
      end).
Proof.
  intros R. destruct (sliderReachable_inv fs R) as (I1 & I2 & I3 & I4 & I5).
  split; [|split; [exact I3|]].
  - split.
    + intros L. destruct (I1 L) as (l & t & -> & _). discriminate.
    + intros N. destruct (isLoading fs); [reflexivity|].
      destruct N. apply I2. reflexivity.
  - intros [L T]. destruct (pendingTimestamp fs) as [t|].
    + apply I5; auto.
    + apply I4. reflexivity.
Qed.

(** X16: whatever state the slider is in, once its timer has fired and
    at most two loads have finished it is idle, with the pending
    timestamp unchanged and at most one more request made, provided the
    pending timestamp is not [NaN]. *)
Theorem slider_settles (fs : FrameSlider) :
  sliderReachable fs ->
  (forall t, pendingTimestamp fs = Some t -> t <> NaN) ->
  let fs' := _fetchFrame_resume (_fetchFrame_resume (debounceFires fs)) in
  sliderIdle fs'
  /\ pendingTimestamp fs' = pendingTimestamp fs
  /\ duration fs' = duration fs
  /\ (requested fs' = requested fs
      \/ exists t, pendingTimestamp fs = Some t
                   /\ requested fs' = requested fs ++ [Some t]).
Proof.
  intros R Hn fs'. destruct (sliderReachable_inv fs R) as (I1 & I2 & I3 & I4 & I5).
  assert (Hrefl : forall t, pendingTimestamp fs = Some t -> strict_eq t t = true).
  { intros t Ht. specialize (Hn t Ht). unfold strict_eq.
    destruct t as [| |q|]; cbn; try congruence.
    destruct (q ?= q) eqn:C; try reflexivity.
    - apply Qlt_alt in C. lra.
    - apply Qgt_alt in C. lra. }
  unfold fs'. clear fs'. destruct fs as [d0 p l tm aw rq]. cbn in *.
  unfold sliderIdle, debounceFires, _fetchFrame_resume, _fetchFrame;
    cbn.
  destruct tm.
  - destruct p as [t|]; [|destruct I4; [reflexivity|discriminate]].
    specialize (Hrefl t eq_refl). cbn. destruct l; cbn.
    + destruct (I1 eq_refl) as (rq0 & t0 & -> & ->). cbn.
      destruct (strict_eq t t0) eqn:E; cbn.
      * repeat split. left. reflexivity.
      * rewrite Hrefl. cbn. repeat split. right. exists t. auto.
    + rewrite Hrefl. cbn. repeat split. right. exists t. auto.
  - destruct l; cbn.
    + destruct (I1 eq_refl) as (rq0 & t0 & -> & ->). cbn.
      destruct p as [t|]; [|destruct I4 as [E _]; [reflexivity|];
                            destruct rq0; discriminate].
      specialize (Hrefl t eq_refl). cbn.
      destruct (strict_eq t t0) eqn:E; cbn.
      * repeat split. left. reflexivity.
      * rewrite Hrefl. cbn. repeat split. right. exists t. auto.
    + rewrite (I2 eq_refl). cbn. repeat split. left. reflexivity.
Qed.

Lemma sliderStepped_reachable : sliderReachable sliderStepped.
Proof.
  unfold sliderReachable, sliderStepped.
  eapply rtc_r; [|apply slider_loaded].
  eapply rtc_r; [|apply slider_stepFrame].
  eapply rtc_r; [|apply slider_setDuration].
  apply rtc_refl.
Qed.

(** After a step forward from 0 and the arrival of the frame, the one
    request made is the pending timestamp. *)
Lemma slider_requests_pending_witness :
  exists l t', requested sliderStepped = l ++ [Some t']
               /\ strict_eq (Fin (0 + 1 * (1 / 30))) t' = true.
Proof.
  destruct (slider_requests_pending sliderStepped sliderStepped_reachable)
    as (_ & _ & H).
  specialize (H (conj eq_refl eq_refl)). exact H.
Defined.

(** The slider moved to 3 after that settles with one more request, for
    the timestamp 3. *)
Lemma slider_settles_witness :
  sliderIdle (_fetchFrame_resume (_fetchFrame_resume (debounceFires sliderMoved)))
  /\ requested (_fetchFrame_resume (_fetchFrame_resume (debounceFires sliderMoved)))
     = requested sliderMoved ++ [Some (Fin 3)].
Proof.
  destruct (slider_settles sliderMoved) as (Hi & _ & _ & Hr).
  - eapply rtc_r; [apply sliderStepped_reachable|apply slider_change].
  - intros t [= <-]. discriminate.
  - split; [exact Hi|]. vm_compute. reflexivity.
Defined.

(** ** The order of the objects *)

Lemma filter_all {A} (p : A -> bool) (l : list A) :
  (forall x, In x l -> p x = true) -> List.filter p l = l.
Proof.
  induction l as [|a l IH]; intros H; [reflexivity|]. cbn.
  rewrite (H a) by (left; reflexivity). f_equal. apply IH.
  intros x Hx. apply H. right. exact Hx.
Qed.

Lemma filter_none {A} (p : A -> bool) (l : list A) :
  (forall x, In x l -> p x = false) -> List.filter p l = [].
Proof.
  induction l as [|a l IH]; intros H; [reflexivity|]. cbn.
  rewrite (H a) by (left; reflexivity). apply IH.
  intros x Hx. apply H. right. exact Hx.
Qed.

Lemma filter_filter {A} (p q : A -> bool) (l : list A) :
  List.filter p (List.filter q l) = List.filter (fun x => q x && p x) l.
Proof.
  induction l as [|a l IH]; [reflexivity|]. cbn.
  destruct (q a); cbn; [destruct (p a)|]; rewrite IH; reflexivity.
Qed.

Lemma mem_In (x : nat) (l : list nat) : fabric.mem x l = true <-> In x l.
Proof.
  unfold fabric.mem. rewrite existsb_exists. split.
  - intros (y & Hy & E). apply Nat.eqb_eq in E. subst. exact Hy.
  - intros H. exists x. split; [exact H|apply Nat.eqb_refl].
Qed.

Lemma mem_false (x : nat) (l : list nat) : fabric.mem x l = false <-> ~ In x l.
Proof.
  rewrite <- mem_In. destruct (fabric.mem x l); split; congruence.
Qed.

Lemma removeFromArray_notin (x : nat) (l : list nat) :
  ~ In x l -> fabric.removeFromArray x l = l.
Proof.
  intros H. apply filter_all. intros y Hy.
  destruct (Nat.eqb_spec x y); [subst; contradiction|reflexivity].
Qed.

Lemma removeFromArray_app (x : nat) (l k : list nat) :
  fabric.removeFromArray x (l ++ k)
  = fabric.removeFromArray x l ++ fabric.removeFromArray x k.
Proof. apply List.filter_app. Qed.

Lemma removeFromArray_head (x : nat) (l : list nat) :
  fabric.removeFromArray x (x :: l) = fabric.removeFromArray x l.
Proof. unfold fabric.removeFromArray. cbn. rewrite Nat.eqb_refl. reflexivity. Qed.

(** Bringing the objects of a list without duplicates to the front, one
    after the other, puts the list at the end. *)
Lemma forEach_bringToFront_objects (l : list nat) (s : CanvasManager) :
  List.NoDup l ->
  fabric._objects (canvas (canvas_forEach fabric.bringToFront l s))
  = List.filter (fun i => negb (fabric.mem i l)) (fabric._objects (canvas s)) ++ l.
Proof.
  unfold canvas_forEach. revert s.
  induction l as [|m l IH]; intros s N.
  - cbn. rewrite app_nil_r. symmetry. apply filter_all. reflexivity.
  - inversion N as [|? ? Hm N']; subst. cbn [fold_left]. rewrite (IH _ N').
    cbn [on_canvas canvas set_canvas fabric.bringToFront fabric._objects].
    rewrite List.filter_app. cbn [List.filter].
    apply mem_false in Hm. rewrite Hm. cbn [negb].
    unfold fabric.removeFromArray. rewrite filter_filter, <- app_assoc. cbn.
    f_equal. apply List.filter_ext. intros a. cbn.
    rewrite (Nat.eqb_sym a m). destruct (Nat.eqb m a); reflexivity.
Qed.

(** The last loop of [_reorderObjects] on the list of the objects. *)
Lemma raise_fold (p : nat -> bool) (l a b : list nat) :
  List.NoDup (a ++ l ++ b) ->
  fold_left (fun c i => if p i then fabric.removeFromArray i c ++ [i] else c)
    l (a ++ l ++ b)
  = a ++ List.filter (fun i => negb (p i)) l ++ b ++ List.filter p l.
Proof.
  revert a b. induction l as [|i l IH]; intros a b N.
  - cbn. rewrite app_nil_r. reflexivity.
  - cbn [fold_left List.filter]. destruct (p i) eqn:P; cbn [negb].
    + assert (Ha : ~ In i a /\ ~ In i l /\ ~ In i b).
      { change ((i :: l) ++ b) with (i :: l ++ b) in N.
        apply List.NoDup_remove_2 in N. rewrite !List.in_app_iff in N. tauto. }
      destruct Ha as (Ha & Hl & Hb).
      change ((i :: l) ++ b) with (i :: l ++ b).
      rewrite removeFromArray_app, removeFromArray_head, removeFromArray_app.
      rewrite !removeFromArray_notin by assumption.
      replace ((a ++ l ++ b) ++ [i]) with (a ++ l ++ (b ++ [i]))
        by (rewrite <- !app_assoc; reflexivity).
      rewrite IH.
      * rewrite <- !app_assoc. reflexivity.
      * change ((i :: l) ++ b) with (i :: l ++ b) in N.
        apply List.NoDup_remove_1 in N.
        apply (Permutation.Permutation_NoDup (l := i :: a ++ l ++ b)).
        -- rewrite !app_assoc. apply Permutation.Permutation_cons_append.
        -- constructor; [|exact N]. rewrite !List.in_app_iff. tauto.
    + change ((i :: l) ++ b) with (i :: l ++ b) in *.
      replace (a ++ i :: l ++ b) with ((a ++ [i]) ++ l ++ b)
        by (rewrite <- app_assoc; reflexivity).
      rewrite IH.
      * rewrite <- !app_assoc. reflexivity.
      * rewrite <- app_assoc. exact N.
Qed.

Lemma raise_fold_state (l : list nat) (s : CanvasManager) :
  fabric._objects
    (canvas
       (fold_left
          (fun s i =>
             if is_front_kind s i then on_canvas (fabric.bringToFront i) s else s)
          l s))
  = fold_left
      (fun c i =>
         if is_front_kind s i then fabric.removeFromArray i c ++ [i] else c)
      l (fabric._objects (canvas s)).
Proof.
  assert (G : forall s', heap s' = heap s ->
    fabric._objects
      (canvas
         (fold_left
            (fun s i =>
               if is_front_kind s i then on_canvas (fabric.bringToFront i) s else s)
            l s'))
    = fold_left
        (fun c i =>
           if is_front_kind s i then fabric.removeFromArray i c ++ [i] else c)
        l (fabric._objects (canvas s'))).
  { induction l as [|i l IH]; intros s' H; [reflexivity|].
    cbn [fold_left].
    assert (E : is_front_kind s' i = is_front_kind s i)
      by (unfold is_front_kind; rewrite H; reflexivity).
    rewrite E. destruct (is_front_kind s i).
    - rewrite IH; [reflexivity|]. rewrite <- H. by destruct s'.
    - apply IH. exact H. }
  apply G. reflexivity.
Qed.

Lemma mem_app (x : nat) (l k : list nat) :
  fabric.mem x (l ++ k) = fabric.mem x l || fabric.mem x k.
Proof. apply existsb_app. Qed.

Lemma filter_outside (k l : list nat) :
  (forall x, In x l -> ~ In x k) ->
  List.filter (fun i => negb (fabric.mem i k)) l = l.
Proof.
  intros H. apply filter_all. intros x Hx.
  apply negb_true_iff, mem_false, H, Hx.
Qed.

Lemma filter_inside (k l : list nat) :
  (forall x, In x l -> In x k) ->
  List.filter (fun i => negb (fabric.mem i k)) l = [].
Proof.
  intros H. apply filter_none. intros x Hx.
  apply negb_false_iff, mem_In, H, Hx.
Qed.

(** [sendToBack] of the frame, if there is one. *)
Lemma sendToBack_objects (f : nat) (c : fabric.Canvas) :
  fabric._objects (fabric.sendToBack f c)
  = [f] ++ List.filter (fun i => negb (fabric.mem i [f])) (fabric._objects c).
Proof.
  cbn. f_equal. apply List.filter_ext. intros a. cbn.
  rewrite orb_false_r, (Nat.eqb_sym a f). reflexivity.
Qed.

(** X17: the order that [_reorderObjects] gives to a canvas that holds
    no object twice, when the frame, the rectangles of the mask and the
    overlay are distinct and none of them is an ['i-text'] or a
    ['line']: the frame at the back, then the other objects that are no
    ['i-text'] and no ['line'] (text boxes among them) in their order,
    then the mask, the overlay, and the ['i-text'] and ['line'] objects in
    their order. *)
Theorem reorderObjects_order (s : CanvasManager) :
  let F := option_list (frameImage s) in
  let M := darkMaskRects s in
  let V := option_list (selectionOverlay s) in
  let O := fabric._objects (canvas s) in
  NoDup O ->
  NoDup (F ++ M ++ V) ->
  (forall i, In i (F ++ M ++ V) -> is_front_kind s i = false) ->
  fabric._objects (canvas (_reorderObjects s))
  = F ++ List.filter
           (fun i => negb (fabric.mem i (F ++ M ++ V)) && negb (is_front_kind s i)) O
      ++ M ++ V ++ List.filter (is_front_kind s) O.
Proof.
  intros F M V O NO NS HS. unfold _reorderObjects.
  set (s1 := match frameImage s with Some f => _ | None => s end).
  assert (H1 : s1 = set_canvas (canvas s1) s).
  { unfold s1. destruct (frameImage s); [reflexivity|by destruct s]. }
  assert (E1 : fabric._objects (canvas s1)
               = F ++ List.filter (fun i => negb (fabric.mem i F)) O).
  { unfold s1, F, O. destruct (frameImage s) as [f|].
    - apply sendToBack_objects.
    - cbn. symmetry. apply filter_all. reflexivity. }
  set (s2 := canvas_forEach fabric.bringToFront (darkMaskRects s1) s1).
  assert (H2 : s2 = set_canvas (canvas s2) s1) by apply canvas_forEach_only.
  destruct (only_canvas_fields s s1 H1) as (Hh1 & _ & Ho1 & Hm1 & _).
  destruct (only_canvas_fields s1 s2 H2) as (Hh2 & _ & Ho2 & _).
  destruct (proj1 (NoDup_app F (M ++ V)) NS) as (NF & DF & NMV).
  destruct (proj1 (NoDup_app M V) NMV) as (NM & DM & NV).
  assert (E2 : fabric._objects (canvas s2)
               = List.filter (fun i => negb (fabric.mem i M))
                   (fabric._objects (canvas s1)) ++ M).
  { unfold s2. rewrite Hm1. apply forEach_bringToFront_objects.
    apply NoDup_ListNoDup, NM. }
  set (s3 := match selectionOverlay s2 with Some ov => _ | None => s2 end).
  assert (E3 : s3 = canvas_forEach fabric.bringToFront V s2).
  { unfold s3, V. rewrite Ho2, Ho1. destruct (selectionOverlay s); reflexivity. }
  assert (Hh3 : heap s3 = heap s).
  { rewrite E3, (canvas_forEach_only fabric.bringToFront V s2). cbn. congruence. }
  rewrite raise_fold_state.
  assert (Ep : forall i, is_front_kind s3 i = is_front_kind s i)
    by (intros i; unfold is_front_kind; rewrite Hh3; reflexivity).
  set (P0 := List.filter
               (fun i => negb (fabric.mem i (F ++ M ++ V))) O).
  assert (E4 : fabric._objects (canvas s3) = F ++ P0 ++ M ++ V).
  { rewrite E3, forEach_bringToFront_objects by apply NoDup_ListNoDup, NV.
    rewrite E2, E1.
    rewrite !List.filter_app.
    rewrite (filter_outside M F)
      by (intros x Hx Hm; apply (DF x); [apply list_elem_of_In, Hx|];
          apply elem_of_app; left; apply list_elem_of_In, Hm).
    rewrite (filter_outside V F)
      by (intros x Hx Hv; apply (DF x); [apply list_elem_of_In, Hx|];
          apply elem_of_app; right; apply list_elem_of_In, Hv).
    rewrite (filter_outside V M)
      by (intros x Hx Hv; apply (DM x); apply list_elem_of_In; assumption).
    rewrite !filter_filter, <- !app_assoc. f_equal. f_equal.
    unfold P0. apply List.filter_ext. intros a.
    rewrite !mem_app, !negb_orb. rewrite andb_assoc. reflexivity. }
  assert (HP0 : forall x, In x P0 <-> In x O /\ ~ In x (F ++ M ++ V)).
  { intros x. unfold P0. rewrite List.filter_In, negb_true_iff, mem_false.
    reflexivity. }
  assert (N3 : NoDup (F ++ P0 ++ M ++ V)).
  { apply NoDup_app. split; [exact NF|]. split.
    - intros x Hx. rewrite !elem_of_app. intros [H|H].
      + apply list_elem_of_In, HP0 in H. destruct H as [_ H]. apply H.
        apply List.in_app_iff. left. apply list_elem_of_In, Hx.
      + apply (DF x Hx). apply elem_of_app. exact H.
    - apply NoDup_app.
      split; [apply NoDup_ListNoDup, List.NoDup_filter, NoDup_ListNoDup, NO|].
      split.
      + intros x Hx H. apply list_elem_of_In, HP0 in Hx. destruct Hx as [_ Hx].
        apply Hx. apply List.in_app_iff. right. apply list_elem_of_In, H.
      + apply NoDup_app. auto. }
  rewrite E4.
  pose proof (raise_fold (is_front_kind s3) (F ++ P0 ++ M ++ V) [] []) as R.
  cbn [app] in R. rewrite !app_nil_r in R. rewrite R by apply NoDup_ListNoDup, N3. clear R.
  assert (HF : forall l, (forall x, In x l -> In x (F ++ M ++ V)) ->
                 List.filter (fun i => negb (is_front_kind s3 i)) l = l
                 /\ List.filter (is_front_kind s3) l = []).
  { intros l Hl. split.
    - apply filter_all. intros x Hx. rewrite Ep, (HS x (Hl x Hx)). reflexivity.
    - apply filter_none. intros x Hx. rewrite Ep. apply HS, Hl, Hx. }
  destruct (HF F) as [F1 F2]; [intros x Hx; apply List.in_app_iff; auto|].
  destruct (HF M) as [M1 M2];
    [intros x Hx; rewrite !List.in_app_iff; auto|].
  destruct (HF V) as [V1 V2];
    [intros x Hx; rewrite !List.in_app_iff; auto|].
  rewrite !List.filter_app, F1, F2, M1, M2, V1, V2. cbn [app].
  rewrite !app_nil_r, <- !app_assoc. f_equal.
  unfold P0. rewrite !filter_filter. f_equal.
  - apply List.filter_ext. intros a. rewrite Ep. reflexivity.
  - f_equal. f_equal. apply List.filter_ext_in. intros a Ha. rewrite Ep.
    destruct (is_front_kind s a) eqn:K; [|apply andb_false_r].
    rewrite andb_true_r. apply negb_true_iff, mem_false. intros H.
    rewrite (HS a H) in K. discriminate.
Qed.

(** A text box added over the frame stays under the mask and the
    overlay. *)
Lemma reorderObjects_order_witness :
  fabric._objects (canvas (_reorderObjects titleOnFrame))
  = [0; 6; 2; 3; 4; 5; 1]%nat.
Proof.
  pose proof (reorderObjects_order titleOnFrame) as H. cbv zeta in H.
  rewrite H.
  - vm_compute. reflexivity.
  - apply (bool_decide_unpack _). vm_compute. exact I.
  - apply (bool_decide_unpack _). vm_compute. exact I.
  - intros i Hi. vm_compute in Hi.
    repeat (destruct Hi as [<-|Hi]; [vm_compute; reflexivity|]).
    destruct Hi.
Defined.

(** ** No object twice on the canvas *)

Lemma NoDup_removeFromArray (x : nat) (l : list nat) :
  NoDup l -> NoDup (fabric.removeFromArray x l).
Proof.
  intros H. apply NoDup_ListNoDup, List.NoDup_filter, NoDup_ListNoDup, H.
Qed.

Lemma canvasTidy_mono (k k' : nat) (c : fabric.Canvas) :
  canvasTidy k c -> (k <= k')%nat -> canvasTidy k' c.
Proof.
  intros (N & B & A) L. split; [exact N|]. split; [|exact A].
  intros i Hi. specialize (B i Hi). lia.
Qed.

Lemma canvasTidy_remove (x k : nat) (c : fabric.Canvas) :
  canvasTidy k c -> canvasTidy k (fabric.remove x c).
Proof.
  intros (N & B & A). split; [|split].
  - rewrite objects_remove. apply NoDup_removeFromArray, N.
  - intros i Hi. apply elem_remove in Hi. apply B, Hi.
  - intros a Ha. apply elem_remove. unfold fabric.remove in Ha.
    destruct (fabric.mem x (fabric._objects c)) eqn:E.
    + cbn in Ha. destruct (fabric._activeObject c) as [a'|]; [|discriminate].
      destruct (Nat.eqb_spec a' x); [discriminate|]. injection Ha as <-.
      split; [apply A; reflexivity|assumption].
    + split; [apply A, Ha|]. intros ->.
      assert (Hx : x ∈ fabric._objects c) by apply A, Ha.
      apply mem_true in Hx. congruence.
Qed.

Lemma canvasTidy_add (x k : nat) (c : fabric.Canvas) :
  canvasTidy k c -> (k <= x)%nat -> canvasTidy (S x) (fabric.add x c).
Proof.
  intros (N & B & A) L. split; [|split].
  - cbn. apply NoDup_app. split; [exact N|]. split.
    + intros i Hi Hx. apply list_elem_of_singleton in Hx. subst.
      specialize (B x Hi). lia.
    + apply NoDup_singleton.
  - intros i Hi. apply elem_add in Hi. destruct Hi as [Hi| ->]; [|lia].
    specialize (B i Hi). lia.
  - intros a Ha. apply elem_add. left. apply A, Ha.
Qed.

Lemma canvasTidy_sendToBack (x k : nat) (c : fabric.Canvas) :
  canvasTidy k c -> (x < k)%nat -> canvasTidy k (fabric.sendToBack x c).
Proof.
  intros (N & B & A) L. split; [|split].
  - cbn. apply NoDup_cons. split.
    + rewrite elem_removeFromArray. tauto.
    + apply NoDup_removeFromArray, N.
  - intros i Hi. apply elem_sendToBack in Hi. destruct Hi as [Hi| ->]; auto.
  - intros a Ha. apply elem_sendToBack. left. apply A, Ha.
Qed.

Lemma canvasTidy_bringToFront (x k : nat) (c : fabric.Canvas) :
  canvasTidy k c -> (x < k)%nat -> canvasTidy k (fabric.bringToFront x c).
Proof.
  intros (N & B & A) L. split; [|split].
  - cbn. apply NoDup_app. split; [apply NoDup_removeFromArray, N|]. split.
    + intros i Hi Hx. apply list_elem_of_singleton in Hx. subst.
      apply elem_removeFromArray in Hi. tauto.
    + apply NoDup_singleton.
  - intros i Hi. apply elem_bringToFront in Hi. destruct Hi as [Hi| ->]; auto.
  - intros a Ha. apply elem_bringToFront. left. apply A, Ha.
Qed.

Lemma canvasTidy_setActiveObject (x k : nat) (c : fabric.Canvas) :
  canvasTidy k c -> x ∈ fabric._objects c ->
  canvasTidy k (fabric.setActiveObject x c).
Proof.
  intros (N & B & A) L. split; [exact N|]. split; [exact B|].
  intros a [= <-]. exact L.
Qed.

Lemma canvasTidy_same (k : nat) (c c' : fabric.Canvas) :
  fabric._objects c' = fabric._objects c ->
  fabric._activeObject c' = fabric._activeObject c ->
  canvasTidy k c -> canvasTidy k c'.
Proof. unfold canvasTidy. intros -> ->. tauto. Qed.

Lemma canvasTidy_forEach_remove (ids : list nat) (k : nat) (s : CanvasManager) :
  canvasTidy k (canvas s) ->
  canvasTidy k (canvas (canvas_forEach fabric.remove ids s)).
Proof.
  unfold canvas_forEach. revert s. induction ids as [|i ids IH]; intros s H.
  - exact H.
  - cbn [fold_left]. apply IH. apply canvasTidy_remove, H.
Qed.

Lemma canvasTidy_forEach_bringToFront (ids : list nat) (k : nat)
  (s : CanvasManager) :
  (forall i, i ∈ ids -> (i < k)%nat) ->
  canvasTidy k (canvas s) ->
  canvasTidy k (canvas (canvas_forEach fabric.bringToFront ids s)).
Proof.
  unfold canvas_forEach. revert s. induction ids as [|i ids IH]; intros s B H.
  - exact H.
  - cbn [fold_left]. apply IH.
    + intros j Hj. apply B. right. exact Hj.
    + apply canvasTidy_bringToFront; [exact H|]. apply B. left.
Qed.

Lemma canvasTidy_raise (l : list nat) (k : nat) (s : CanvasManager) :
  (forall i, i ∈ l -> (i < k)%nat) ->
  canvasTidy k (canvas s) ->
  canvasTidy k
    (canvas
       (fold_left
          (fun s i =>
             if is_front_kind s i then on_canvas (fabric.bringToFront i) s else s)
          l s)).
Proof.
  revert s. induction l as [|i l IH]; intros s B H.
  - exact H.
  - cbn [fold_left]. apply IH.
    + intros j Hj. apply B. right. exact Hj.
    + destruct (is_front_kind s i); [|exact H].
      apply canvasTidy_bringToFront; [exact H|]. apply B. left.
Qed.

(** A change of the canvas alone. *)
Lemma tidyAt_canvas (k : nat) (c : fabric.Canvas) (s : CanvasManager) :
  tidyAt k s -> canvasTidy k c -> tidyAt k (set_canvas c s).
Proof. intros (_ & L & R & F) C. split; [exact C|]. split; [exact L|]. split; assumption. Qed.

(** A change that keeps the canvas, the heap, the references and
    [nextId]. *)
Lemma tidyAt_same (k : nat) (s s' : CanvasManager) :
  canvas s' = canvas s -> nextId s' = nextId s -> heap s' = heap s ->
  frameImage s' = frameImage s -> selectionOverlay s' = selectionOverlay s ->
  darkMaskRects s' = darkMaskRects s ->
  tidyAt k s -> tidyAt k s'.
Proof.
  unfold tidyAt, refsBounded, heapFull.
  intros -> -> -> -> -> ->. tauto.
Qed.

Lemma tidyAt_obj_set (k i : nat) (f : fabric.Object -> fabric.Object)
  (s : CanvasManager) :
  tidyAt k s -> tidyAt k (obj_set i f s).
Proof.
  intros (C & L & R & F). split; [exact C|]. split; [exact L|]. split; [exact R|].
  intros j. rewrite (F j). unfold obj_set. rewrite heap_set_heap.
  symmetry. apply lookup_alter_is_Some.
Qed.

Lemma tidyAt_no_frame (k : nat) (s : CanvasManager) :
  tidyAt k s -> tidyAt k (set_frameImage None s).
Proof.
  intros (C & L & (R1 & R2 & R3) & F). split; [exact C|]. split; [exact L|].
  split; [|exact F]. split; [discriminate|]. split; assumption.
Qed.

Lemma tidyAt_no_overlay (k : nat) (s : CanvasManager) :
  tidyAt k s -> tidyAt k (set_selectionOverlay None s).
Proof.
  intros (C & L & (R1 & R2 & R3) & F). split; [exact C|]. split; [exact L|].
  split; [|exact F]. split; [exact R1|]. split; [discriminate|exact R3].
Qed.

Lemma tidyAt_no_masks (k : nat) (s : CanvasManager) :
  tidyAt k s -> tidyAt k (set_darkMaskRects [] s).
Proof.
  intros (C & L & (R1 & R2 & R3) & F). split; [exact C|]. split; [exact L|].
  split; [|exact F]. split; [exact R1|]. split; [exact R2|].
  intros m Hm. cbn in Hm. apply elem_of_nil in Hm. contradiction.
Qed.

Lemma tidyAt_frame (k f : nat) (s : CanvasManager) :
  tidyAt k s -> (f < nextId s)%nat -> tidyAt k (set_frameImage (Some f) s).
Proof.
  intros (C & L & (R1 & R2 & R3) & F) H. split; [exact C|]. split; [exact L|].
  split; [|exact F]. split; [|split; assumption].
  intros f' [= <-]. exact H.
Qed.

Lemma tidyAt_overlay (k ov : nat) (s : CanvasManager) :
  tidyAt k s -> (ov < nextId s)%nat -> tidyAt k (set_selectionOverlay (Some ov) s).
Proof.
  intros (C & L & (R1 & R2 & R3) & F) H. split; [exact C|]. split; [exact L|].
  split; [|exact F]. split; [exact R1|]. split; [|exact R3].
  intros f' [= <-]. exact H.
Qed.

Lemma tidyAt_masks (k : nat) (ms : list nat) (s : CanvasManager) :
  tidyAt k s -> (forall m, m ∈ ms -> (m < nextId s)%nat) ->
  tidyAt k (set_darkMaskRects ms s).
Proof.
  intros (C & L & (R1 & R2 & R3) & F) H. split; [exact C|]. split; [exact L|].
  split; [|exact F]. split; [exact R1|]. split; [exact R2|exact H].
Qed.

Lemma tidyAt_remove (k x : nat) (s : CanvasManager) :
  tidyAt k s -> tidyAt k (on_canvas (fabric.remove x) s).
Proof. intros H. apply tidyAt_canvas; [exact H|]. apply canvasTidy_remove, H. Qed.

Lemma tidyAt_add (k x : nat) (s : CanvasManager) :
  tidyAt k s -> (k <= x < nextId s)%nat -> tidyAt (S x) (on_canvas (fabric.add x) s).
Proof.
  intros (C & L & R & F) H. split; [apply (canvasTidy_add x k); [exact C|lia]|].
  split; [cbn; lia|]. split; assumption.
Qed.

Lemma tidyAt_sendToBack (k x : nat) (s : CanvasManager) :
  tidyAt k s -> (x < k)%nat -> tidyAt k (on_canvas (fabric.sendToBack x) s).
Proof.
  intros H L. apply tidyAt_canvas; [exact H|].
  apply canvasTidy_sendToBack; [apply H|exact L].
Qed.

Lemma tidyAt_bringToFront (k x : nat) (s : CanvasManager) :
  tidyAt k s -> (x < k)%nat -> tidyAt k (on_canvas (fabric.bringToFront x) s).
Proof.
  intros H L. apply tidyAt_canvas; [exact H|].
  apply canvasTidy_bringToFront; [apply H|exact L].
Qed.

Lemma tidyAt_setActiveObject (k x : nat) (s : CanvasManager) :
  tidyAt k s -> x ∈ fabric._objects (canvas s) ->
  tidyAt k (on_canvas (fabric.setActiveObject x) s).
Proof.
  intros H L. apply tidyAt_canvas; [exact H|].
  apply canvasTidy_setActiveObject; [apply H|exact L].
Qed.

(** A canvas method that keeps the objects and the active object. *)
Lemma tidyAt_keeps (k : nat) (f : fabric.Canvas -> fabric.Canvas)
  (s : CanvasManager) :
  (forall c, fabric._objects (f c) = fabric._objects c
             /\ fabric._activeObject (f c) = fabric._activeObject c) ->
  tidyAt k s -> tidyAt k (on_canvas f s).
Proof.
  intros Hf H. apply tidyAt_canvas; [exact H|].
  apply (canvasTidy_same k (canvas s)); [apply Hf..|apply H].
Qed.

Lemma tidyAt_tidy (s : CanvasManager) (k : nat) :
  tidyAt k s -> tidy s.
Proof.
  intros (C & L & R & F). split; [|split; [lia|split; assumption]].
  apply (canvasTidy_mono k); assumption.
Qed.

Lemma tidyAt_alloc (o : fabric.Object) (k : nat) (s : CanvasManager) :
  tidyAt k s ->
  tidyAt k (snd (alloc o s))
  /\ fst (alloc o s) = nextId s
  /\ nextId (snd (alloc o s)) = S (nextId s).
Proof.
  intros (C & L & (R1 & R2 & R3) & F). split; [|split; reflexivity].
  unfold alloc. cbn [snd]. split; [exact C|]. split; [cbn; lia|]. split.
  - split; [|split]; cbn.
    + intros f Hf. specialize (R1 f Hf). lia.
    + intros f Hf. specialize (R2 f Hf). lia.
    + intros f Hf. specialize (R3 f Hf). lia.
  - intros i. cbn. rewrite lookup_insert_is_Some. rewrite <- (F i).
    destruct (decide (nextId s = i)); [|lia]. subst. split; [auto|lia].
Qed.

Lemma tidyAt_forEach_remove (ids : list nat) (k : nat) (s : CanvasManager) :
  tidyAt k s -> tidyAt k (canvas_forEach fabric.remove ids s).
Proof.
  intros H. rewrite (canvas_forEach_only fabric.remove ids s).
  apply tidyAt_canvas; [exact H|]. apply canvasTidy_forEach_remove, H.
Qed.

Ltac tidy_step :=
  match goal with
  | H : tidyAt ?k ?s |- tidyAt ?k ?s => exact H
  | H : tidyAt _ ?s |- tidyAt _ ?s => exact H
  | H : tidy ?s |- tidyAt _ ?s => exact H
  | |- tidyAt _ (obj_set _ _ _) => apply tidyAt_obj_set
  | |- tidyAt _ (on_canvas (fabric.remove _) _) => apply tidyAt_remove
  | |- tidyAt _ (on_canvas (fabric.add _) _) => eapply tidyAt_add
  | |- tidyAt _ (on_canvas (fabric.sendToBack _) _) => apply tidyAt_sendToBack
  | |- tidyAt _ (on_canvas (fabric.bringToFront _) _) => apply tidyAt_bringToFront
  | |- tidyAt _ (on_canvas (fabric.setActiveObject _) _) =>
      apply tidyAt_setActiveObject
  | |- tidyAt _ (on_canvas _ _) =>
      apply tidyAt_keeps; [intros ?; split; reflexivity|]
  | |- tidyAt _ (canvas_forEach fabric.remove _ _) => apply tidyAt_forEach_remove
  | |- tidyAt _ (set_frameImage None _) => apply tidyAt_no_frame
  | |- tidyAt _ (set_selectionOverlay None _) => apply tidyAt_no_overlay
  | |- tidyAt _ (set_darkMaskRects [] _) => apply tidyAt_no_masks
  | |- tidyAt _ (set_frameImage (Some _) _) => apply tidyAt_frame
  | |- tidyAt _ (set_selectionOverlay (Some _) _) => apply tidyAt_overlay
  | |- tidyAt _ (set_darkMaskRects _ _) => apply tidyAt_masks
  | |- tidyAt _ (fst (_, _)) => cbn [fst]
  | |- tidyAt _ (fst (if ?x then _ else _)) => destruct x eqn:?
  | |- tidyAt _ (fst (match ?x with _ => _ end)) => destruct x eqn:?
  | |- tidyAt _ (match ?x with _ => _ end) => destruct x eqn:?
  | |- tidyAt _ (if ?x then _ else _) => destruct x eqn:?
  | |- tidyAt _ (?f ?v ?s) => apply (tidyAt_same _ s); [reflexivity..|]
  end.

Lemma tidyAt_clearDarkMask (k : nat) (s : CanvasManager) :
  tidyAt k s -> tidyAt k (clearDarkMask s).
Proof. intros H. unfold clearDarkMask. repeat tidy_step. Qed.

Lemma tidyAt_constrainOverlay (k : nat) (s : CanvasManager) :
  tidyAt k s -> tidyAt k (_constrainOverlay s).
Proof. intros H. unfold _constrainOverlay. repeat tidy_step. Qed.

Lemma tidyAt_updateDarkMask (k : nat) (s : CanvasManager) :
  tidyAt k s -> tidyAt k (_updateDarkMask s).
Proof.
  intros H. unfold _updateDarkMask.
  destruct (selectionOverlay s) as [ov|]; [|exact H].
  destruct (darkMaskRects s) as [|a [|b [|c [|d [|]]]]]; try exact H.
  destruct (heap s !! ov); [|exact H].
  repeat apply tidyAt_obj_set. exact H.
Qed.

Lemma tidyAt_applyBlurFilter (k : nat) (s : CanvasManager) :
  tidyAt k s -> tidyAt k (_applyBlurFilter s).
Proof. intros H. unfold _applyBlurFilter. repeat tidy_step. Qed.

Lemma tidyAt_resizeCanvas (w h : num) (k : nat) (s : CanvasManager) :
  tidyAt k s -> tidyAt k (_resizeCanvas w h s).
Proof. intros H. unfold _resizeCanvas. repeat tidy_step. Qed.

Lemma tidyAt_applyGradient (k : nat) (s : CanvasManager) :
  tidyAt k s -> tidyAt k (_applyGradient s).
Proof. intros H. unfold _applyGradient. repeat tidy_step. Qed.

Lemma tidyAt_setFrame (t : num) (k : nat) (s : CanvasManager) :
  tidyAt k s -> tidyAt k (fst (setFrame t s)).
Proof. intros H. unfold setFrame. repeat tidy_step. Qed.

Lemma tidy_reorderObjects (s : CanvasManager) :
  tidy s -> tidy (_reorderObjects s).
Proof.
  intros H. pose proof H as (C & _ & (R1 & R2 & R3) & F).
  rewrite reorderObjects_only. apply tidyAt_canvas; [exact H|].
  cbn [nextId set_canvas]. unfold _reorderObjects.
  set (s1 := match frameImage s with Some f => _ | None => s end).
  assert (H1 : s1 = set_canvas (canvas s1) s).
  { unfold s1. destruct (frameImage s); [reflexivity|by destruct s]. }
  assert (C1 : canvasTidy (nextId s) (canvas s1)).
  { unfold s1. destruct (frameImage s) as [f|] eqn:Ef; [|exact C].
    apply canvasTidy_sendToBack; [exact C|]. apply R1. reflexivity. }
  set (s2 := canvas_forEach fabric.bringToFront (darkMaskRects s1) s1).
  assert (H2 : s2 = set_canvas (canvas s2) s1) by apply canvas_forEach_only.
  destruct (only_canvas_fields s s1 H1) as (_ & _ & Ho1 & Hm1 & _).
  destruct (only_canvas_fields s1 s2 H2) as (_ & _ & Ho2 & _).
  assert (C2 : canvasTidy (nextId s) (canvas s2)).
  { unfold s2. apply canvasTidy_forEach_bringToFront; [|exact C1].
    rewrite Hm1. exact R3. }
  set (s3 := match selectionOverlay s2 with Some ov => _ | None => s2 end).
  assert (C3 : canvasTidy (nextId s) (canvas s3)).
  { unfold s3. rewrite Ho2, Ho1.
    destruct (selectionOverlay s) as [ov|] eqn:Eo; [|exact C2].
    apply canvasTidy_bringToFront; [exact C2|]. apply R2. reflexivity. }
  apply canvasTidy_raise; [|exact C3]. apply C3.
Qed.

Ltac tidy_bounds :=
  cbn [nextId canvas on_canvas obj_set set_canvas set_heap set_frameImage
       set_selectionOverlay set_darkMaskRects set_frameDisplayInfo
       fabric._objects fabric.add fabric.setActiveObject] in *;
  try lia.

(** [new fabric.X(...)] in front of the rest of a method. *)
Ltac tidy_alloc :=
  match goal with
  | H : tidyAt ?k ?s |- tidy (let (_, _) := alloc ?o ?s in _) =>
      let T := fresh "T" in
      let E1 := fresh "Ei" in
      let E2 := fresh "En" in
      let i := fresh "i" in
      destruct (tidyAt_alloc o k s H) as (T & E1 & E2);
      destruct (alloc o s) as [i ?]; cbn [fst snd] in T, E1, E2; subst i
  end.

Ltac tidy_new :=
  apply elem_of_app; right; apply list_elem_of_singleton; reflexivity.

Lemma tidy_createSelectionOverlay (s : CanvasManager) :
  tidy s -> tidy (_createSelectionOverlay s).
Proof.
  intros H. unfold _createSelectionOverlay.
  set (s1 := match selectionOverlay s with Some old => _ | None => s end).
  assert (H1 : tidyAt (nextId s) s1) by (unfold s1; repeat tidy_step).
  assert (N1 : nextId s1 = nextId s)
    by (unfold s1; destruct (selectionOverlay s); reflexivity).
  cbv zeta. tidy_alloc. eapply tidyAt_tidy.
  repeat tidy_step; tidy_bounds.
Qed.

Lemma tidy_setImageBackground (url : CapturedImage) (s : CanvasManager) :
  tidy s -> tidy (_setImageBackground url s).
Proof.
  intros H. unfold tidy in H. unfold _setImageBackground. cbv zeta.
  tidy_alloc. eapply tidyAt_tidy. repeat tidy_step; tidy_bounds.
Qed.

Lemma tidy_addText (txt : string) (bh : num) (s : CanvasManager) :
  tidy s -> tidy (addText txt bh s).
Proof.
  intros H. unfold tidy in H. unfold addText. cbv zeta. tidy_alloc.
  apply tidy_reorderObjects. eapply tidyAt_tidy.
  repeat tidy_step; tidy_bounds. tidy_new.
Qed.

Lemma tidy_addLine (s : CanvasManager) : tidy s -> tidy (addLine s).
Proof.
  intros H. unfold tidy in H. unfold addLine. cbv zeta. tidy_alloc.
  apply tidy_reorderObjects. eapply tidyAt_tidy.
  repeat tidy_step; tidy_bounds. tidy_new.
Qed.

Lemma tidy_createDarkMask (s : CanvasManager) :
  tidy s -> tidy (_createDarkMask s).
Proof.
  intros H. unfold _createDarkMask.
  assert (H0 : tidyAt (nextId s) (clearDarkMask s))
    by (apply tidyAt_clearDarkMask, H).
  destruct (clearDarkMask_fields s) as (_ & N0 & _).
  set (s0 := clearDarkMask s) in *. cbv zeta.
  destruct (selectionOverlay s0) as [ov|]; [|eapply tidyAt_tidy, H0].
  destruct (heap s0 !! ov) as [overlay|]; [|eapply tidyAt_tidy, H0].
  do 4 tidy_alloc.
  cbn [darkMaskRects set_darkMaskRects fold_left]. unfold markAndAdd.
  apply tidy_reorderObjects. eapply tidyAt_tidy.
  repeat tidy_step; tidy_bounds.
  intros m Hm. rewrite !elem_of_cons, elem_of_nil in Hm. lia.
Qed.

Lemma tidy_setFrame_onload (w h : num) (el : bool) (s : CanvasManager) :
  tidy s -> tidy (setFrame_onload w h el s).
Proof.
  intros H. unfold setFrame_onload.
  set (s1 := match frameImage s with Some old => _ | None => s end).
  assert (H1 : tidyAt (nextId s) s1) by (unfold s1; repeat tidy_step).
  assert (N1 : nextId s1 = nextId s)
    by (unfold s1; destruct (frameImage s); reflexivity).
  cbv zeta. tidy_alloc.
  apply tidy_createDarkMask, tidy_createSelectionOverlay.
  eapply tidyAt_tidy. tidy_step.
  - tidy_step.
    + apply tidyAt_applyBlurFilter. repeat tidy_step; tidy_bounds.
    + unfold _applyBlurFilter. cbn [frameImage set_frameImage].
      destruct (_ > _)%js; tidy_bounds.
  - tidy_bounds.
Qed.

Ltac tidy_known :=
  match goal with
  | |- tidyAt _ (clearDarkMask _) => apply tidyAt_clearDarkMask
  | |- tidyAt _ (_constrainOverlay _) => apply tidyAt_constrainOverlay
  | |- tidyAt _ (_updateDarkMask _) => apply tidyAt_updateDarkMask
  | |- tidyAt _ (_applyBlurFilter _) => apply tidyAt_applyBlurFilter
  | |- tidyAt _ (_resizeCanvas _ _ _) => apply tidyAt_resizeCanvas
  | |- tidyAt _ (_applyGradient _) => apply tidyAt_applyGradient
  | |- tidyAt _ (fst (setFrame _ _)) => apply tidyAt_setFrame
  | |- _ => tidy_step
  end.

Lemma tidy_same (s s' : CanvasManager) :
  canvas s' = canvas s -> nextId s' = nextId s -> heap s' = heap s ->
  frameImage s' = frameImage s -> selectionOverlay s' = selectionOverlay s ->
  darkMaskRects s' = darkMaskRects s ->
  tidy s -> tidy s'.
Proof.
  intros E1 E2 E3 E4 E5 E6 H. unfold tidy. rewrite E2.
  apply (tidyAt_same _ s); assumption.
Qed.

(** The methods that allocate are taken by their lemmas, the branches are
    split, and what is left allocates nothing. *)
Ltac tidy_top :=
  match goal with
  | H : tidy ?s |- tidy ?s => exact H
  | |- tidy (_setImageBackground _ _) => apply tidy_setImageBackground
  | |- tidy (_createDarkMask _) => apply tidy_createDarkMask
  | |- tidy (_createSelectionOverlay _) => apply tidy_createSelectionOverlay
  | |- tidy (_reorderObjects _) => apply tidy_reorderObjects
  | |- tidy (fst (_, _)) => cbn [fst]
  | |- tidy (fst (if ?x then _ else _)) => destruct x eqn:?
  | |- tidy (fst (match ?x with _ => _ end)) => destruct x eqn:?
  | |- tidy (match ?x with _ => _ end) => destruct x eqn:?
  | |- tidy (if ?x then _ else _) => destruct x eqn:?
  | |- tidy _ => solve [eapply tidyAt_tidy; repeat tidy_known]
  | |- tidy (?f ?v ?s) => apply (tidy_same s); [reflexivity..|]
  end.

Lemma tidy_confirmBackground (s : CanvasManager) :
  tidy s -> tidy (confirmBackground s).
Proof. intros H. unfold confirmBackground. repeat tidy_top. Qed.

Lemma tidy_updateBackground (s : CanvasManager) :
  tidy s -> tidy (fst (_updateBackground s)).
Proof. intros H. unfold _updateBackground. repeat tidy_top. Qed.

Lemma tidy_resetToBackgroundPhase (s : CanvasManager) :
  tidy s -> tidy (fst (resetToBackgroundPhase s)).
Proof.
  intros H. unfold resetToBackgroundPhase.
  destruct (workflowPhase s); [exact H|]. cbv zeta.
  match goal with
  | |- tidy (fst (let '(_, _) := ?X in _)) =>
      assert (HX : tidy (fst X)); [|destruct X; cbn [fst] in *]
  end.
  - repeat tidy_top.
  - repeat tidy_top.
Qed.

Lemma tidy_constructor : tidy constructor.
Proof.
  split; [|split; [reflexivity|split]].
  - split; [apply NoDup_nil_2|]. split; [|discriminate].
    intros i Hi. cbn in Hi. apply elem_of_nil in Hi. contradiction.
  - split; [discriminate|]. split; [discriminate|].
    intros m Hm. cbn in Hm. apply elem_of_nil in Hm. contradiction.
  - intros i. cbn. rewrite lookup_empty. split; [lia|].
    intros [x Hx]. discriminate.
Qed.

Lemma tidy_step_kept (s s' : CanvasManager) : step s s' -> tidy s -> tidy s'.
Proof.
  intros St H. destruct St.
  - unfold setVideo. repeat tidy_top.
  - eapply tidyAt_tidy. apply tidyAt_setFrame, H.
  - apply tidy_setFrame_onload, H.
  - unfold moveOverlay. repeat tidy_top.
  - unfold setZoom. cbv zeta. repeat tidy_top.
  - unfold resetOverlayPosition. repeat tidy_top.
  - apply tidy_confirmBackground, H.
  - apply tidy_resetToBackgroundPhase, H.
  - unfold setBlur. cbv zeta. repeat tidy_top.
  - unfold setBackgroundMode. apply tidy_updateBackground. repeat tidy_top.
  - unfold setBackgroundColor. cbv zeta.
    destruct (String.eqb _ _); [apply tidy_updateBackground|]; repeat tidy_top.
  - unfold setGradientColors. cbv zeta.
    destruct (String.eqb _ _); [apply tidy_updateBackground|]; repeat tidy_top.
  - unfold setGradientDirection. cbv zeta.
    destruct (String.eqb _ _); [apply tidy_updateBackground|]; repeat tidy_top.
  - apply tidy_addText, H.
  - apply tidy_addLine, H.
  - unfold deleteSelected, getActiveObject. repeat tidy_top.
  - eapply tidyAt_tidy. apply tidyAt_setActiveObject; [exact H|assumption].
  - eapply tidyAt_tidy. apply tidyAt_obj_set, H.
Qed.

Lemma reachable_tidy (s : CanvasManager) : reachable s -> tidy s.
Proof.
  unfold reachable. revert s.
  apply (rtc_ind_r (fun z => tidy z) constructor); [apply tidy_constructor|].
  intros y z _ Hyz Hy. exact (tidy_step_kept y z Hyz Hy).
Qed.

(** X18: in every state of the editor the canvas holds no object twice,
    every object on it is allocated, the active object is on the canvas,
    and the frame, the overlay and the rectangles of the mask that the
    manager refers to are allocated objects. *)
Theorem reachable_canvas_sound (s : CanvasManager) :
  reachable s ->
  NoDup (fabric._objects (canvas s))
  /\ (forall i, i ∈ fabric._objects (canvas s) -> is_Some (heap s !! i))
  /\ (forall a, fabric._activeObject (canvas s) = Some a ->
        a ∈ fabric._objects (canvas s))
  /\ (forall i,
        i ∈ option_list (frameImage s) ++ darkMaskRects s
            ++ option_list (selectionOverlay s) ->
        is_Some (heap s !! i)).
Proof.
  intros R. destruct (reachable_tidy s R) as ((N & B & A) & _ & (R1 & R2 & R3) & F).
  split; [exact N|]. split; [|split; [exact A|]].
  - intros i Hi. apply F, B, Hi.
  - intros i Hi. apply F. rewrite !elem_of_app in Hi.
    destruct Hi as [Hi|[Hi|Hi]].
    + apply R1. destruct (frameImage s); cbn in Hi.
      * apply list_elem_of_singleton in Hi. congruence.
      * apply elem_of_nil in Hi. contradiction.
    + apply R3, Hi.
    + apply R2. destruct (selectionOverlay s); cbn in Hi.
      * apply list_elem_of_singleton in Hi. congruence.
      * apply elem_of_nil in Hi. contradiction.
Qed.

(** The sample poster holds each of its objects once. *)
Lemma reachable_canvas_sound_witness :
  NoDup (fabric._objects (canvas withElements)).
Proof. exact (proj1 (reachable_canvas_sound withElements reachable_withElements)). Defined.

(** ** New elements on the confirmed poster *)

Lemma getPosterArea_whole (s : CanvasManager) :
  selectionOverlay s = None ->
  _getPosterArea s
  = {| Rect.left := 0; Rect.top := 0;
       Rect.width := canvasWidth s; Rect.height := canvasHeight s |}.
Proof.
  intros H. unfold _getPosterArea. rewrite H.
  destruct (String.eqb _ _); reflexivity.
Qed.

Lemma confirmBackground_poster (s : CanvasManager) :
  workflowPhase s = background ->
  selectionOverlay (confirmBackground s) = None
  /\ canvasWidth (confirmBackground s) ≈ posterModeWidth
  /\ canvasHeight (confirmBackground s) ≈ posterModeHeight.
Proof.
  intros Hp. unfold confirmBackground. rewrite Hp. cbv zeta.
  match goal with
  | |- context [set_lockedBackgroundData (Some ?d) s] => set (locked := d)
  end.
  set (s1 := set_lockedBackgroundData (Some locked) s).
  destruct (confirmBackground_cleared s1) as (_ & _ & _ & _ & _ & Co & _).
  cbv zeta in Co.
  match goal with
  | |- context [_resizeCanvas posterModeWidth posterModeHeight ?x] => set (s5 := x) in *
  end.
  destruct (resizeCanvas_approx posterModeWidth posterModeHeight s5) as (Rw & Rh).
  pose proof (scene_resizeCanvas posterModeWidth posterModeHeight s5) as Rs.
  apply scene_fields in Rs as (_ & _ & _ & _ & _ & S6 & _).
  rewrite Co in S6.
  set (s6 := _resizeCanvas posterModeWidth posterModeHeight s5) in *.
  match goal with
  | |- context [set_workflowPhase elements ?x] => set (s7 := x)
  end.
  assert (H7 : settings s7 = settings s6 /\ selectionOverlay s7 = selectionOverlay s6).
  { unfold s7. destruct (String.eqb (backgroundMode s6) "image").
    - destruct (if String.eqb (backgroundMode s) "image" then _ else None);
        [split; [apply settings_setImageBackground|reflexivity]|split; reflexivity].
    - destruct (String.eqb (backgroundMode s6) "color");
        [split; [apply settings_on_canvas; auto with settings|reflexivity]|].
      destruct (String.eqb (backgroundMode s6) "gradient");
        [split; [apply settings_applyGradient|reflexivity]|split; reflexivity]. }
  destruct H7 as (H7 & O7).
  apply settings_fields in H7 as (_ & _ & _ & G1 & G2 & _).
  cbn [selectionOverlay canvasWidth canvasHeight set_workflowPhase].
  rewrite O7, G1, G2. auto.
Qed.

Lemma active_forEach_bringToFront (ids : list nat) (s : CanvasManager) :
  fabric._activeObject (canvas (canvas_forEach fabric.bringToFront ids s))
  = fabric._activeObject (canvas s).
Proof.
  unfold canvas_forEach. revert s. induction ids as [|i ids IH]; intros s.
  - reflexivity.
  - cbn [fold_left]. rewrite IH. reflexivity.
Qed.

Lemma active_raise (l : list nat) (s : CanvasManager) :
  fabric._activeObject
    (canvas
       (fold_left
          (fun s i =>
             if is_front_kind s i then on_canvas (fabric.bringToFront i) s else s)
          l s))
  = fabric._activeObject (canvas s).
Proof.
  revert s. induction l as [|i l IH]; intros s.
  - reflexivity.
  - cbn [fold_left]. rewrite IH. destruct (is_front_kind s i); reflexivity.
Qed.

(** [_reorderObjects] keeps the selection. *)
Lemma active_reorderObjects (s : CanvasManager) :
  fabric._activeObject (canvas (_reorderObjects s))
  = fabric._activeObject (canvas s).
Proof.
  unfold _reorderObjects. rewrite active_raise.
  match goal with
  | |- context [canvas_forEach fabric.bringToFront ?l ?x] =>
      set (s2 := canvas_forEach fabric.bringToFront l x);
      assert (E2 : fabric._activeObject (canvas s2) = fabric._activeObject (canvas s))
  end.
  { unfold s2. rewrite active_forEach_bringToFront.
    destruct (frameImage s); reflexivity. }
  destruct (selectionOverlay s2); exact E2.
Qed.

Lemma heap_reorderObjects (s : CanvasManager) :
  heap (_reorderObjects s) = heap s.
Proof.
  destruct (only_canvas_fields s (_reorderObjects s) (reorderObjects_only s))
    as (H & _). exact H.
Qed.

Lemma Fin_approx (x : num) (q : Q) : x ≈ Fin q -> exists r, x = Fin r /\ r == q.
Proof.
  destruct x as [| |r|]; cbn; try contradiction. intros H. exists r. auto.
Qed.



(** ** Adding an element and deleting it *)

Lemma removeFromArray_comm (x y : nat) (l : list nat) :
  fabric.removeFromArray x (fabric.removeFromArray y l)
  = fabric.removeFromArray y (fabric.removeFromArray x l).
Proof.
  unfold fabric.removeFromArray. rewrite !filter_filter.
  apply List.filter_ext. intros a. apply andb_comm.
Qed.

Lemma removeFromArray_other (x y : nat) :
  x <> y -> fabric.removeFromArray x [y] = [y].
Proof.
  intros H. unfold fabric.removeFromArray. cbn.
  destruct (Nat.eqb_spec x y); [contradiction|reflexivity].
Qed.

Lemma removeFromArray_sendToBack (n f : nat) (c : fabric.Canvas) (l : list nat) :
  n <> f -> l = fabric.removeFromArray n (fabric._objects c) ->
  f :: fabric.removeFromArray f l
  = fabric.removeFromArray n (fabric._objects (fabric.sendToBack f c)).
Proof.
  intros N ->. cbn [fabric.sendToBack fabric._objects].
  change (f :: ?l) with ([f] ++ l).
  rewrite removeFromArray_app, removeFromArray_other by exact N.
  rewrite removeFromArray_comm. reflexivity.
Qed.

Lemma removeFromArray_bringToFront (n m : nat) (c : fabric.Canvas) (l : list nat) :
  n <> m -> l = fabric.removeFromArray n (fabric._objects c) ->
  fabric.removeFromArray m l ++ [m]
  = fabric.removeFromArray n (fabric._objects (fabric.bringToFront m c)).
Proof.
  intros N ->. cbn [fabric.bringToFront fabric._objects].
  rewrite removeFromArray_app, removeFromArray_other by exact N.
  rewrite removeFromArray_comm. reflexivity.
Qed.

Lemma removeFromArray_forEach (n : nat) (ids : list nat) (a b : CanvasManager) :
  n ∉ ids ->
  fabric._objects (canvas a) = fabric.removeFromArray n (fabric._objects (canvas b)) ->
  fabric._objects (canvas (canvas_forEach fabric.bringToFront ids a))
  = fabric.removeFromArray n
      (fabric._objects (canvas (canvas_forEach fabric.bringToFront ids b))).
Proof.
  unfold canvas_forEach. revert a b. induction ids as [|m ids IH]; intros a b N E.
  - exact E.
  - apply not_elem_of_cons in N as [N1 N2]. cbn [fold_left]. apply IH; [exact N2|].
    cbn [canvas on_canvas set_canvas].
    rewrite <- (removeFromArray_bringToFront n m (canvas b)
                  (fabric._objects (canvas a))) by assumption.
    reflexivity.
Qed.

Lemma removeFromArray_raise (n : nat) (p q : nat -> bool) (l c : list nat) :
  (forall i, i <> n -> q i = p i) ->
  fabric.removeFromArray n
    (fold_left (fun c i => if q i then fabric.removeFromArray i c ++ [i] else c) l c)
  = fold_left (fun c i => if p i then fabric.removeFromArray i c ++ [i] else c)
      (fabric.removeFromArray n l) (fabric.removeFromArray n c).
Proof.
  intros H. revert c. induction l as [|i l IH]; intros c; [reflexivity|].
  cbn [fold_left]. rewrite IH. destruct (Nat.eqb_spec n i) as [<-|N].
  - rewrite removeFromArray_head. f_equal.
    destruct (q n); [|reflexivity].
    rewrite removeFromArray_app, removeFromArray_head.
    cbn. rewrite app_nil_r.
    unfold fabric.removeFromArray. rewrite filter_filter.
    apply List.filter_ext. intros a. apply andb_diag.
  - change (i :: l) with ([i] ++ l).
    rewrite removeFromArray_app, removeFromArray_other by exact N.
    cbn [app fold_left]. rewrite (H i) by congruence. f_equal.
    destruct (p i); [|reflexivity].
    rewrite removeFromArray_app, removeFromArray_other by exact N.
    rewrite removeFromArray_comm. reflexivity.
Qed.

(** [_reorderObjects] on a canvas with one more object, with the object
    taken off afterwards. *)
Lemma reorderObjects_added (n : nat) (s s' : CanvasManager) :
  fabric._objects (canvas s)
  = fabric.removeFromArray n (fabric._objects (canvas s')) ->
  frameImage s' = frameImage s -> darkMaskRects s' = darkMaskRects s ->
  selectionOverlay s' = selectionOverlay s ->
  (forall i, i <> n -> heap s' !! i = heap s !! i) ->
  frameImage s <> Some n -> n ∉ darkMaskRects s -> selectionOverlay s <> Some n ->
  fabric._objects (canvas (_reorderObjects s))
  = fabric.removeFromArray n (fabric._objects (canvas (_reorderObjects s'))).
Proof.
  intros E Ef Em Eo Eh Nf Nm No. unfold _reorderObjects.
  set (a1 := match frameImage s with Some f => _ | None => s end).
  set (b1 := match frameImage s' with Some f => _ | None => s' end).
  assert (Ha1 : a1 = set_canvas (canvas a1) s).
  { unfold a1. destruct (frameImage s); [reflexivity|by destruct s]. }
  assert (Hb1 : b1 = set_canvas (canvas b1) s').
  { unfold b1. destruct (frameImage s'); [reflexivity|by destruct s']. }
  assert (E1 : fabric._objects (canvas a1)
               = fabric.removeFromArray n (fabric._objects (canvas b1))).
  { unfold a1, b1. rewrite Ef. destruct (frameImage s) as [f|]; [|exact E].
    cbn [canvas on_canvas set_canvas].
    rewrite <- (removeFromArray_sendToBack n f (canvas s')
                  (fabric._objects (canvas s))); [reflexivity|congruence|exact E]. }
  destruct (only_canvas_fields s a1 Ha1) as (Ah1 & _ & Ao1 & Am1 & _).
  destruct (only_canvas_fields s' b1 Hb1) as (Bh1 & _ & Bo1 & Bm1 & _).
  rewrite Am1, Bm1, Em.
  set (a2 := canvas_forEach fabric.bringToFront (darkMaskRects s) a1).
  set (b2 := canvas_forEach fabric.bringToFront (darkMaskRects s) b1).
  assert (E2 : fabric._objects (canvas a2)
               = fabric.removeFromArray n (fabric._objects (canvas b2)))
    by (apply removeFromArray_forEach; assumption).
  assert (Ha2 : a2 = set_canvas (canvas a2) a1) by apply canvas_forEach_only.
  assert (Hb2 : b2 = set_canvas (canvas b2) b1) by apply canvas_forEach_only.
  destruct (only_canvas_fields a1 a2 Ha2) as (Ah2 & _ & Ao2 & _).
  destruct (only_canvas_fields b1 b2 Hb2) as (Bh2 & _ & Bo2 & _).
  rewrite Ao2, Ao1, Bo2, Bo1, Eo.
  set (a3 := match selectionOverlay s with Some ov => _ | None => a2 end).
  set (b3 := match selectionOverlay s with Some ov => _ | None => b2 end).
  assert (E3 : fabric._objects (canvas a3)
               = fabric.removeFromArray n (fabric._objects (canvas b3))).
  { unfold a3, b3. destruct (selectionOverlay s) as [ov|]; [|exact E2].
    cbn [canvas on_canvas set_canvas].
    rewrite <- (removeFromArray_bringToFront n ov (canvas b2)
                  (fabric._objects (canvas a2))); [reflexivity|congruence|exact E2]. }
  assert (Ah3 : heap a3 = heap s).
  { unfold a3. destruct (selectionOverlay s); cbn; congruence. }
  assert (Bh3 : heap b3 = heap s').
  { unfold b3. destruct (selectionOverlay s); cbn; congruence. }
  rewrite !raise_fold_state, E3.
  symmetry. apply removeFromArray_raise.
  intros i Hi. unfold is_front_kind. rewrite Ah3, Bh3, (Eh i Hi). reflexivity.
Qed.

(** A new object without marks, put on the canvas, selected and
    deleted. *)
Lemma added_then_deleted (o : fabric.Object) (s : CanvasManager) :
  tidy s -> fabric.isOverlay o = false -> fabric.isMask o = false ->
  let n := nextId s in
  let s1 :=
    _reorderObjects
      (on_canvas (fabric.setActiveObject n)
         (on_canvas (fabric.add n) (snd (alloc o s)))) in
  fabric._activeObject (canvas s1) = Some n
  /\ n ∈ fabric._objects (canvas s1)
  /\ fabric._objects (canvas (deleteSelected s1))
     = fabric._objects (canvas (_reorderObjects s))
  /\ fabric._activeObject (canvas (deleteSelected s1)) = None
  /\ heap (deleteSelected s1) = <[n := o]> (heap s).
Proof.
  intros ((N & B & A) & _ & (R1 & R2 & R3) & F) Ho Hm n s1.
  set (x := on_canvas (fabric.setActiveObject n)
              (on_canvas (fabric.add n) (snd (alloc o s)))) in *.
  destruct (only_canvas_fields x s1 (reorderObjects_only x))
    as (Hh & _ & _ & _ & Hf & _).
  assert (Ea : fabric._activeObject (canvas s1) = Some n)
    by (unfold s1; rewrite active_reorderObjects; reflexivity).
  assert (En : n ∈ fabric._objects (canvas s1)).
  { unfold s1. apply elem_reorderObjects. left. cbn.
    apply elem_of_app. right. apply list_elem_of_singleton. reflexivity. }
  assert (Eh : heap s1 = <[n := o]> (heap s)) by (rewrite Hh; reflexivity).
  assert (Ed : deleteSelected s1 = on_canvas (fabric.remove n) s1).
  { unfold deleteSelected, getActiveObject. rewrite Ea, Eh, lookup_insert_eq.
    rewrite Ho, Hm. unfold is_not_frame. rewrite Hf.
    change (frameImage x) with (frameImage s).
    destruct (frameImage s) as [f|] eqn:Ef; [|reflexivity].
    specialize (R1 f eq_refl). fold n in R1.
    destruct (Nat.eqb_spec n f); [lia|reflexivity]. }
  split; [exact Ea|]. split; [exact En|]. rewrite Ed.
  cbn [canvas on_canvas set_canvas heap]. split; [|split; [|exact Eh]].
  - rewrite objects_remove. symmetry. apply (reorderObjects_added n s x).
    + unfold x, alloc.
      cbn [canvas on_canvas set_canvas snd set_nextId set_heap fabric._objects
           fabric.setActiveObject fabric.add].
      rewrite removeFromArray_app, removeFromArray_head. cbn [fabric.removeFromArray List.filter].
      rewrite app_nil_r. symmetry. apply removeFromArray_absent.
      intros Hn. specialize (B n Hn). fold n in B. lia.
    + reflexivity.
    + reflexivity.
    + reflexivity.
    + intros i Hi. cbn. apply lookup_insert_ne. unfold n in Hi. congruence.
    + intros Hn. specialize (R1 n Hn). fold n in R1. lia.
    + intros Hn. specialize (R3 n Hn). fold n in R3. lia.
    + intros Hn. specialize (R2 n Hn). fold n in R2. lia.
  - unfold fabric.remove. apply mem_true in En. rewrite En. cbn.
    rewrite Ea, Nat.eqb_refl. reflexivity.
Qed.

(** X20: in every state of the editor, a text or a line that is added
    is a new object, on the canvas and selected; deleting it at once
    leaves the objects of the canvas as [_reorderObjects] alone would,
    with nothing selected and every earlier object unchanged. *)
Theorem add_then_delete (s : CanvasManager) (txt : string) (bh : num) :
  reachable s ->
  forall s1, s1 = addText txt bh s \/ s1 = addLine s ->
    heap s !! nextId s = None
    /\ fabric._activeObject (canvas s1) = Some (nextId s)
    /\ nextId s ∈ fabric._objects (canvas s1)
    /\ fabric._objects (canvas (deleteSelected s1))
       = fabric._objects (canvas (_reorderObjects s))
    /\ fabric._activeObject (canvas (deleteSelected s1)) = None
    /\ (forall i, i <> nextId s -> heap (deleteSelected s1) !! i = heap s !! i).
Proof.
  intros R s1 Hs1. pose proof (reachable_tidy s R) as T.
  assert (Hn : heap s !! nextId s = None).
  { destruct T as (_ & _ & _ & F). specialize (F (nextId s)).
    destruct (heap s !! nextId s); [|reflexivity].
    assert (nextId s < nextId s)%nat by (apply F; eauto). lia. }
  split; [exact Hn|].
  destruct Hs1 as [-> | ->].
  - unfold addText. cbv zeta.
    match goal with
    | |- context [alloc ?o s] =>
        destruct (added_then_deleted o s T eq_refl eq_refl) as (A1 & A2 & A3 & A4 & A5)
    end.
    cbv zeta in A1, A2, A3, A4, A5.
    split; [exact A1|]. split; [exact A2|]. split; [exact A3|].
    split; [exact A4|]. intros i Hi.
    etransitivity; [exact (f_equal (fun h => h !! i) A5)|].
    apply lookup_insert_ne. congruence.
  - unfold addLine. cbv zeta.
    match goal with
    | |- context [alloc ?o s] =>
        destruct (added_then_deleted o s T eq_refl eq_refl) as (A1 & A2 & A3 & A4 & A5)
    end.
    cbv zeta in A1, A2, A3, A4, A5.
    split; [exact A1|]. split; [exact A2|]. split; [exact A3|].
    split; [exact A4|]. intros i Hi.
    etransitivity; [exact (f_equal (fun h => h !! i) A5)|].
    apply lookup_insert_ne. congruence.
Qed.

(** A second line added to the sample poster and deleted at once leaves
    its five objects. *)
Lemma add_then_delete_witness :
  fabric._objects (canvas (deleteSelected (addLine withElements)))
  = fabric._objects (canvas (_reorderObjects withElements)).
Proof.
  destruct (add_then_delete withElements "" 0 reachable_withElements
              (addLine withElements))
    as (_ & _ & _ & H & _); [right; reflexivity|exact H].
Defined.

(** ** The gradient background *)

Lemma updateBackground_gradient (s : CanvasManager) :
  backgroundMode s = "gradient" ->
  showsGradient (gradientDirection s) (colorAt 0 s) (colorAt 1 s)
    (fst (_updateBackground s))
  /\ snd (_updateBackground s) = None
  /\ backgroundMode (fst (_updateBackground s)) = "gradient".
Proof.
  intros Hm. unfold _updateBackground. rewrite Hm.
  change (String.eqb "gradient" "image") with false. cbn [negb].
  match goal with
  | |- context [_resizeCanvas posterModeWidth posterModeHeight ?x] => set (s1 := x)
  end.
  assert (H1 : backgroundMode s1 = "gradient"
               /\ gradientColors s1 = gradientColors s
               /\ gradientDirection s1 = gradientDirection s).
  { unfold s1, clearDarkMask.
    match goal with
    | |- context [canvas_forEach fabric.remove ?l ?b] =>
        rewrite (canvas_forEach_only fabric.remove l b)
    end.
    cbn [backgroundMode gradientColors gradientDirection set_frameDisplayInfo
         set_darkMaskRects set_canvas].
    destruct (frameImage s);
      cbn [selectionOverlay set_frameImage on_canvas set_canvas];
      destruct (selectionOverlay s); repeat split; assumption. }
  destruct H1 as (M1 & G1 & D1). rewrite M1.
  change (String.eqb "gradient" "image") with false. cbv iota.
  destruct (resizeCanvas_approx posterModeWidth posterModeHeight s1) as (Rw & Rh).
  assert (H2 : backgroundMode (_resizeCanvas posterModeWidth posterModeHeight s1)
               = "gradient"
               /\ gradientColors (_resizeCanvas posterModeWidth posterModeHeight s1)
                  = gradientColors s
               /\ gradientDirection (_resizeCanvas posterModeWidth posterModeHeight s1)
                  = gradientDirection s).
  { unfold _resizeCanvas. destruct (_ && _); repeat split; assumption. }
  set (s2 := _resizeCanvas posterModeWidth posterModeHeight s1) in *.
  destruct H2 as (M2 & G2 & D2). rewrite M2.
  change (String.eqb "gradient" "color") with false.
  change (String.eqb "gradient" "gradient") with true.
  cbn [fst snd]. split; [|split; [reflexivity|exact M2]].
  unfold showsGradient, _applyGradient, gradientFor, colorAt.
  cbn [canvasWidth canvasHeight canvas on_canvas set_canvas
       fabric.setBackgroundColor fabric.backgroundColor].
  rewrite G2, D2. split; [exact Rw|]. split; [exact Rh|reflexivity].
Qed.

(** X21: in gradient mode the canvas has the size of a poster and its
    background is the gradient of the stored direction and colours over
    the whole of that size (the width for ['horizontal'], both for
    ['diagonal'], the height for any other direction), after each of the
    calls that can change it: the switch to the mode, new colours and a
    new direction; none of them requests a frame.  In another mode new
    colours and a new direction are stored and leave the canvas as it
    is. *)
Theorem gradient_spans_poster (s : CanvasManager) (c1 c2 d : string) :
  (showsGradient (gradientDirection s) (colorAt 0 s) (colorAt 1 s)
     (fst (setBackgroundMode "gradient" s))
   /\ snd (setBackgroundMode "gradient" s) = None)
  /\ (backgroundMode s = "gradient" ->
      showsGradient (gradientDirection s) c1 c2 (fst (setGradientColors c1 c2 s))
      /\ snd (setGradientColors c1 c2 s) = None
      /\ showsGradient d (colorAt 0 s) (colorAt 1 s) (fst (setGradientDirection d s))
      /\ snd (setGradientDirection d s) = None)
  /\ (backgroundMode s <> "gradient" ->
      setGradientColors c1 c2 s = (set_gradientColors [c1; c2] s, None)
      /\ setGradientDirection d s = (set_gradientDirection d s, None)).
Proof.
  split; [|split].
  - unfold setBackgroundMode.
    destruct (updateBackground_gradient (set_backgroundMode "gradient" s) eq_refl)
      as (H & R & _).
    split; [exact H|exact R].
  - intros Hm. unfold setGradientColors, setGradientDirection. cbv zeta.
    cbn [backgroundMode set_gradientColors set_gradientDirection]. rewrite Hm.
    change (String.eqb "gradient" "gradient") with true. cbv iota.
    destruct (updateBackground_gradient (set_gradientColors [c1; c2] s) Hm)
      as (H1 & R1 & _).
    destruct (updateBackground_gradient (set_gradientDirection d s) Hm)
      as (H2 & R2 & _).
    split; [exact H1|]. split; [exact R1|]. split; [exact H2|exact R2].
  - intros Hm. unfold setGradientColors, setGradientDirection. cbv zeta.
    cbn [backgroundMode set_gradientColors set_gradientDirection].
    destruct (String.eqb_spec (backgroundMode s) "gradient"); [contradiction|].
    split; reflexivity.
Qed.
